(** * OSINT engine: query classification, dispatch, fetching and reporting

    A shallow embedding of [comprehensive_osint_api.py].  Python [str] values
    are modelled by [string]: a character is a code point below 256.  Calls
    that reach the outside world (clock, network, logger) are threaded through
    an explicit world in a state-and-exception monad. *)

From Stdlib Require Import String Ascii List Bool Arith Lia ZArith.
From Stdlib Require Import DecimalString.
Set Warnings "-register-all".
Import ListNotations.
Open Scope list_scope.
Open Scope string_scope.

(** ** Python string primitives *)

Module PyStr.

(** [s.startswith(p)] *)
Fixpoint startswith (s p : string) : bool :=
  match p, s with
  | EmptyString, _ => true
  | String _ _, EmptyString => false
  | String a p', String b s' => Ascii.eqb a b && startswith s' p'
  end.

(** [needle in s] *)
Fixpoint contains (needle s : string) : bool :=
  startswith s needle ||
  match s with
  | EmptyString => false
  | String _ s' => contains needle s'
  end.

(** [c in s] for a one-character needle, kept apart for the proofs. *)
Fixpoint mem_char (c : ascii) (s : string) : bool :=
  match s with
  | EmptyString => false
  | String b s' => Ascii.eqb c b || mem_char c s'
  end.

Fixpoint drop (n : nat) (s : string) : string :=
  match n, s with
  | O, _ => s
  | S _, EmptyString => EmptyString
  | S n', String _ s' => drop n' s'
  end.

(** [s.endswith(suf)] *)
Definition endswith (s suf : string) : bool :=
  Nat.leb (String.length suf) (String.length s) &&
  String.eqb (drop (String.length s - String.length suf) s) suf.

Definition in_range (lo hi : nat) (c : ascii) : bool :=
  let n := nat_of_ascii c in Nat.leb lo n && Nat.leb n hi.

(** [c.lower()] on code points below 256: A-Z, and the Latin-1 capitals
    U+00C0..U+00DE without the multiplication sign U+00D7. *)
Definition lower_char (c : ascii) : ascii :=
  let n := nat_of_ascii c in
  if in_range 65 90 c then ascii_of_nat (n + 32)
  else if in_range 192 222 c && negb (Nat.eqb n 215) then ascii_of_nat (n + 32)
  else c.

Fixpoint lower (s : string) : string :=
  match s with
  | EmptyString => EmptyString
  | String c s' => String (lower_char c) (lower s')
  end.

Fixpoint all_chars (p : ascii -> bool) (s : string) : bool :=
  match s with
  | EmptyString => true
  | String c s' => p c && all_chars p s'
  end.

Definition newline : ascii := ascii_of_nat 10.

(** What [$] accepts without [re.MULTILINE]: the end of the string, or a
    single line feed that ends the string. *)
Definition at_dollar (s : string) : bool :=
  match s with
  | EmptyString => true
  | String c EmptyString => Ascii.eqb c newline
  | _ => false
  end.

(** [re.match('^[cls]+$', s)], for a class [cls] that excludes the line
    feed: the longest run of class characters, at least one, then [$]. *)
Fixpoint match_plus_tail (cls : ascii -> bool) (s : string) : bool :=
  match s with
  | EmptyString => true
  | String c s' => if cls c then match_plus_tail cls s' else at_dollar s
  end.

Definition match_plus (cls : ascii -> bool) (s : string) : bool :=
  match s with
  | EmptyString => false
  | String c s' => cls c && match_plus_tail cls s'
  end.

(** [re.match('^[cls]{n}$', s)] *)
Fixpoint match_count (cls : ascii -> bool) (n : nat) (s : string) : bool :=
  match n with
  | O => at_dollar s
  | S n' =>
      match s with
      | EmptyString => false
      | String c s' => cls c && match_count cls n' s'
      end
  end.

(** [\d] on code points below 256 is [0-9]. *)
Definition is_digit (c : ascii) : bool := in_range 48 57 c.

(** What a string accepted by [^\d{12}$] is made of. *)
Definition digit_or_newline (c : ascii) : bool :=
  is_digit c || Ascii.eqb c newline.

(** The class [[a-zA-Z0-9_.-]]. *)
Definition is_username_char (c : ascii) : bool :=
  in_range 97 122 c || in_range 65 90 c || in_range 48 57 c ||
  Ascii.eqb c "_" || Ascii.eqb c "." || Ascii.eqb c "-".

(** [s.replace(old, new)]: every occurrence, left to right, without
    overlap.  [skip] counts the characters of a replaced occurrence that
    are still to be passed over. *)
Fixpoint replace_from (skip : nat) (old new s : string) : string :=
  match s with
  | EmptyString => EmptyString
  | String c s' =>
      match skip with
      | S k => replace_from k old new s'
      | O =>
          if startswith s old
          then new ++ replace_from (String.length old - 1) old new s'
          else String c (replace_from 0 old new s')
      end
  end.

(** The empty pattern matches before every character and at the end. *)
Fixpoint intersperse (new s : string) : string :=
  match s with
  | EmptyString => new
  | String c s' => new ++ String c (intersperse new s')
  end.

Definition replace (s old new : string) : string :=
  match old with
  | EmptyString => intersperse new s
  | String _ _ => replace_from 0 old new s
  end.

(** [s.split(sep)] for a one-character separator: never the empty list. *)
Fixpoint split (sep : ascii) (s : string) : list string :=
  match s with
  | EmptyString => [EmptyString]
  | String c s' =>
      if Ascii.eqb c sep then EmptyString :: split sep s'
      else match split sep s' with
           | h :: t => String c h :: t
           | [] => [String c EmptyString]
           end
  end.

(** [sep.join(parts)] *)
Definition join (sep : string) (parts : list string) : string :=
  String.concat sep parts.

(** [template.format(arg)] for a template with one [{}] field. *)
Fixpoint format1 (template arg : string) : string :=
  match template with
  | EmptyString => EmptyString
  | String c t =>
      if startswith template "{}" then arg ++ drop 1 t
      else String c (format1 t arg)
  end.

(** The double quote character, as a string. *)
Definition dquote : string := String (ascii_of_nat 34) EmptyString.

(** [str(n)] for an [int]. *)
Definition str_of_int (n : Z) : string :=
  NilEmpty.string_of_int (Z.to_int n).

End PyStr.

(** ** Query classifier ([ComprehensiveOSINTEngine._determine_search_types]) *)

Module Classifier.
Import PyStr.

Definition any_in (needles : list string) (query : string) : bool :=
  existsb (fun domain => contains domain query) needles.

Definition _is_url (query : string) : bool :=
  (startswith query "http://" || startswith query "https://") ||
  any_in [".com"; ".org"; ".net"] query.

Definition short_domains : list string :=
  ["bit.ly"; "tinyurl.com"; "t.co"; "goo.gl"; "ow.ly"].

Definition _is_shortened_url (query : string) : bool :=
  any_in short_domains query.

Definition image_extensions : list string :=
  [".jpg"; ".jpeg"; ".png"; ".gif"; ".webp"; ".bmp"].

Definition _is_image_url (query : string) : bool :=
  existsb (fun ext => endswith (lower query) ext) image_extensions.

Definition _looks_like_username (query : string) : bool :=
  Nat.leb 2 (String.length query) &&
  Nat.leb (String.length query) 30 &&
  match_plus is_username_char query &&
  negb (_is_url query).

Definition looks_like_email (query : string) : bool :=
  contains "@" query && contains "." query.

Definition looks_like_trainer_code (query : string) : bool :=
  match_count is_digit 12 query.

Definition default_types : list string := ["social_username"; "bulk_username"].

Definition _determine_search_types (query : string) : list string :=
  let search_types :=
    if _is_url query then
      ((if _is_shortened_url query then ["utility_url_expansion"] else []) ++
       (if _is_image_url query then ["image_analysis"] else []))%list
    else if _looks_like_username query then
      ([] ++ ["social_username"; "bulk_username"])%list
    else if looks_like_email query then
      ["social_linkedin_email_lookup"]
    else if looks_like_trainer_code query then
      ["utility_pokemon_go_trainer_code"]
    else [] in
  match search_types with
  | [] => default_types
  | _ :: _ => search_types
  end.

End Classifier.

(** ** Python values, results and the outside world *)

Module Py.

(** An exception, identified with its message [str(e)]. *)
Definition exn : Type := string.

(** Python [float], kept abstract: only the operations the program uses. *)
Class Floats : Type := {
    float : Type;
    f_zero : float;                       (* the [0] that [sum] starts from *)
    f_add : float -> float -> float;
    f_sub : float -> float -> float;
    f_lt : float -> float -> bool;
    f_ratio : Z -> Z -> float;            (* the literal n/d: 1.0, 0.5 *)
    f_fixed2 : float -> string            (* format spec [.2f] *)
  }.

(** [sum(xs)] *)
Definition sum `{Floats} (xs : list float) : float :=
  fold_left f_add xs f_zero.

Section Values.
Context `{FL : Floats}.

Inductive PyVal : Type :=
  | VNone
  | VBool (b : bool)
  | VInt (n : Z)
  | VFloat (x : float)
  | VStr (s : string)
  | VList (l : list PyVal)
  | VDict (d : list (string * PyVal)).

(** A [dict] with string keys, in insertion order. *)
Definition Dict : Type := list (string * PyVal).

Fixpoint dict_get (d : Dict) (k : string) : option PyVal :=
  match d with
  | [] => None
  | (k', v) :: d' => if String.eqb k k' then Some v else dict_get d' k
  end.

(** [d[k] = v]: an existing key keeps its place. *)
Fixpoint dict_set (d : Dict) (k : string) (v : PyVal) : Dict :=
  match d with
  | [] => [(k, v)]
  | (k', v') :: d' =>
      if String.eqb k k' then (k, v) :: d' else (k', v') :: dict_set d' k v
  end.

Definition dict_keys (d : Dict) : list string := map fst d.
Definition dict_values (d : Dict) : list PyVal := map snd d.

(** Truth value of [r.get(k, False)] for a dict-valued entry [r]. *)
Definition get_flag (r : PyVal) (k : string) : bool :=
  match r with
  | VDict d =>
      match dict_get d k with
      | Some (VBool b) => b
      | _ => false
      end
  | _ => false
  end.

End Values.

(** What the program reads of a [requests.Response] (or of the Selenium
    stand-in for one). *)
Record Response : Type := {
    resp_status_code : Z;
    resp_text : string;
    resp_url : string
  }.

(** Library code the services call: [urllib.parse.quote], which raises on
    a string it cannot encode (one with a lone surrogate), and the page
    scraping that goes through [BeautifulSoup].  Each takes the text it reads
    and returns what it made of it, or raises. *)
Class Library `{FL : Floats} : Type := {
    quote : string -> exn + string;
    _extract_gab_data : string -> string -> exn + Dict;
        (* html_content, query_type *)
    _extract_tiktok_data : string -> string -> exn + Dict;
    reddit_profile_fields : string -> exn + Dict;
        (* the banner and avatar fields of a profile page *)
    _parse_expansion_response : string -> Response -> string -> exn + option string;
        (* service, response, original_url *)
    str_of_dict : Dict -> string
        (* [str(d)] *)
  }.

(** A [pandas.DataFrame]: column labels and one list of cells per row. *)
Record DataFrame `{FL : Floats} : Type := {
    columns : list string;
    rows : list (list PyVal)
  }.

(** The serializers the report goes through: [json.dumps(report, indent=2,
    default=str)] and [DataFrame.to_csv(index=False)]. *)
Class Serializers `{FL : Floats} (Report : Type) : Type := {
    json_dumps : Report -> string;
    to_csv : DataFrame -> string
  }.

End Py.

(** [OSINTResult] *)
Module OSINTResult.
Import Py.

Section Def.
Context `{FL : Floats}.

Record t : Type := mk {
    service : string;
    query : string;
    query_type : string;
    success : bool;
    data : Dict;
    error : option string;
    timestamp : string;
    response_time : float;
    status_code : option Z
  }.

End Def.

End OSINTResult.

(** The world the program runs in, and the monad of its effects. *)
Module Runtime.
Import Py.

Section World.
Context `{FL : Floats}.

(** Calls that leave the program, newest first in a trace. *)
Inductive Event : Type :=
  | EvTime                                  (* time.time() *)
  | EvNow                                   (* datetime.now() *)
  | EvSleep (seconds : float)               (* time.sleep *)
  | EvUniform (a b : Z)                     (* random.uniform *)
  | EvUserAgent                             (* UserAgent().random *)
  | EvRequest (method url : string)         (* requests.Session.request *)
  | EvChrome                                (* webdriver.Chrome(...) *)
  | EvBrowse (url : string)                 (* driver.get *)
  | EvLog (level message : string).         (* logger.info/warning/error *)

(** The mutable attributes of one service object. *)
Record ServiceState : Type := {
    last_request : float;
    driver : bool                           (* a Selenium driver is held *)
  }.

Record World : Type := {
    trace : list Event;
    services : string -> ServiceState       (* by service name *)
  }.

(** The answers of the outside world, given everything that happened
    before the call. *)
Class Outside : Type := {
    time_at : list Event -> float;
    now_at : list Event -> string;          (* datetime.now().isoformat() *)
    uniform_at : list Event -> float;
    request_at : list Event -> string -> string -> exn + Response;
    chrome_at : list Event -> exn + unit;    (* starting the driver *)
    browse_at : list Event -> string -> exn + (string * string)
                                            (* page_source, current_url *)
  }.

Definition M (A : Type) : Type := World -> (exn + A) * World.

Definition ret {A} (a : A) : M A := fun w => (inr a, w).

Definition bind {A B} (c : M A) (k : A -> M B) : M B :=
  fun w =>
    match c w with
    | (inr a, w') => k a w'
    | (inl e, w') => (inl e, w')
    end.

Definition raise {A} (e : exn) : M A := fun w => (inl e, w).

(** A library call that returns or raises, and touches nothing else. *)
Definition lift {A} (r : exn + A) : M A := fun w => (r, w).

(** [try: body / except Exception as e: handler e] *)
Definition try_except {A} (body : M A) (handler : exn -> M A) : M A :=
  fun w =>
    match body w with
    | (inr a, w') => (inr a, w')
    | (inl e, w') => handler e w'
    end.

(** A [for] loop that threads the variables it assigns. *)
Fixpoint for_each {A B} (xs : list A) (body : B -> A -> M B) (acc : B) : M B :=
  match xs with
  | [] => ret acc
  | x :: xs' => bind (body acc x) (for_each xs' body)
  end.

Definition emit (ev : Event) : M unit :=
  fun w => (inr tt, {| trace := ev :: trace w; services := services w |}).

Definition ask {A} (oracle : list Event -> A) (ev : Event) : M A :=
  fun w => (inr (oracle (trace w)),
            {| trace := ev :: trace w; services := services w |}).

Definition get_service (name : string) : M ServiceState :=
  fun w => (inr (services w name), w).

Definition set_service (name : string) (st : ServiceState) : M unit :=
  fun w => (inr tt,
            {| trace := trace w;
               services := fun n => if String.eqb n name then st
                                    else services w n |}).

Context `{OUT : Outside}.

Definition time_time : M float := ask time_at EvTime.
Definition datetime_now_isoformat : M string := ask now_at EvNow.
Definition time_sleep (seconds : float) : M unit := emit (EvSleep seconds).
Definition random_uniform (a b : Z) : M float := ask uniform_at (EvUniform a b).
Definition logger (level message : string) : M unit := emit (EvLog level message).

(** [webdriver.Chrome(ChromeDriverManager().install(), options=...)] *)
Definition webdriver_Chrome : M unit :=
  fun w => (chrome_at (trace w),
            {| trace := EvChrome :: trace w; services := services w |}).

(** [requests.Session.request(method, url, ...)] *)
Definition session_request (method url : string) : M Response :=
  fun w => (request_at (trace w) method url,
            {| trace := EvRequest method url :: trace w;
               services := services w |}).

(** [driver.get(url)], then reading the page off the driver. *)
Definition driver_get (url : string) : M (string * string) :=
  fun w => (browse_at (trace w) url,
            {| trace := EvBrowse url :: trace w; services := services w |}).

(** The HTTP requests and page loads of a trace, oldest first. *)
Fixpoint network_calls (tr : list Event) : list Event :=
  match tr with
  | [] => []
  | EvRequest m u :: tr' => network_calls tr' ++ [EvRequest m u]
  | EvBrowse u :: tr' => network_calls tr' ++ [EvBrowse u]
  | _ :: tr' => network_calls tr'
  end.

(** What the HTTP requests of a trace were answered, oldest first. *)
Fixpoint request_answers (tr : list Event) : list (exn + Response) :=
  match tr with
  | [] => []
  | EvRequest m u :: tr' => (request_answers tr' ++ [request_at tr' m u])%list
  | _ :: tr' => request_answers tr'
  end.

(** [OSINTResult(...)]: [__post_init__] stamps the record. *)
Definition new_result (service query query_type : string) (success : bool)
    (data : Dict) (error : option string) (response_time : float)
    (status_code : option Z) : M OSINTResult.t :=
  bind datetime_now_isoformat (fun ts =>
  ret (OSINTResult.mk service query query_type success data error ts
         response_time status_code)).

(** The result of a rejected call: nothing found, the given service label
    and error message, the query and query type as passed. *)
Definition rejected (r : OSINTResult.t) (service query query_type message : string)
  : Prop :=
  OSINTResult.service r = service /\
  OSINTResult.query r = query /\
  OSINTResult.query_type r = query_type /\
  OSINTResult.success r = false /\
  OSINTResult.data r = [] /\
  OSINTResult.error r = Some message.

(** A call was answered without touching the network. *)
Definition rejects_offline (call : M OSINTResult.t) (w : World)
    (service query query_type message : string) : Prop :=
  exists r w',
    call w = (inr r, w') /\
    rejected r service query query_type message /\
    network_calls (trace w') = network_calls (trace w).

End World.

Declare Scope py_scope.
Delimit Scope py_scope with py.
Notation "x <- c ;; k" := (bind c (fun x => k))
  (at level 100, c at next level, right associativity) : py_scope.
Notation "c ;;; k" := (bind c (fun _ => k))
  (at level 100, right associativity) : py_scope.

End Runtime.

(** ** Fetching: [EnhancedSession] and [BaseOSINTService] *)

Module EnhancedSession.
Import Py Runtime.
Local Open Scope py_scope.

Section Def.
Context `{FL : Floats} `{OUT : @Outside FL}.

(** Draws a fresh random user agent for the session headers. *)
Definition _update_headers : M unit := emit EvUserAgent.

Definition max_retries : nat := 3.

(** The [for attempt in ...] loop of [make_request] over the attempts that
    are still to come. *)
Fixpoint make_request_loop (attempts : list nat) (url method : string)
    : M Response :=
  match attempts with
  | [] => raise "Max retries exceeded"
  | attempt :: rest =>
      try_except
        ((if Nat.ltb 0 attempt then _update_headers else ret tt) ;;;
         session_request method url)
        (fun e =>
           if Nat.eqb attempt (max_retries - 1) then raise e
           else (delay <- random_uniform 1 3 ;; time_sleep delay) ;;;
                make_request_loop rest url method)
  end.

Definition make_request (url method : string) : M Response :=
  make_request_loop (seq 0 max_retries) url method.

End Def.
End EnhancedSession.

Module BaseOSINTService.
Import Py Runtime.
Local Open Scope py_scope.

Section Def.
Context `{FL : Floats} `{OUT : @Outside FL}.

(** The attributes set once by [__init__]. *)
Record t : Type := {
    name : string;
    base_url : string;
    rate_limit : float
  }.

Definition _rate_limit (self : t) : M unit :=
  now <- time_time ;;
  st <- get_service (name self) ;;
  let elapsed := f_sub now (last_request st) in
  (if f_lt elapsed (rate_limit self)
   then time_sleep (f_sub (rate_limit self) elapsed)
   else ret tt) ;;;
  now' <- time_time ;;
  set_service (name self) {| last_request := now'; driver := driver st |}.

(** Returns whether a driver is held afterwards. *)
Definition _get_selenium_driver (self : t) : M bool :=
  st <- get_service (name self) ;;
  if driver st then ret true
  else
    try_except
      (webdriver_Chrome ;;;
       set_service (name self)
         {| last_request := last_request st; driver := true |} ;;;
       ret true)
      (fun e =>
         logger "WARNING" ("Could not initialize Selenium driver: " ++ e) ;;;
         ret false).

Definition _make_request (self : t) (url method : string)
      (use_selenium : bool) : M Response :=
  _rate_limit self ;;;
  start_time <- time_time ;;
  try_except
    (response <-
       (if use_selenium then
          held <- _get_selenium_driver self ;;
          if held then
            page <- driver_get url ;;
            ret {| resp_status_code := 200;
                   resp_text := fst page;
                   resp_url := snd page |}
          else EnhancedSession.make_request url method
        else EnhancedSession.make_request url method) ;;
     now <- time_time ;;
     let response_time := f_sub now start_time in
     logger "INFO"
       (name self ++ ": " ++ method ++ " " ++ url ++ " -> " ++
        PyStr.str_of_int (resp_status_code response) ++
        " (" ++ f_fixed2 response_time ++ "s)") ;;;
     ret response)
    (fun e =>
       logger "ERROR" (name self ++ ": Request failed for " ++ url ++ ": " ++ e) ;;;
       raise e).

End Def.
End BaseOSINTService.

(** ** Services *)

Module SocialMediaOSINT.
Import Py Runtime.
Local Open Scope py_scope.

Section Def.
Context `{FL : Floats} `{OUT : @Outside FL} `{LIB : @Library FL}.

Definition self : BaseOSINTService.t :=
  {| BaseOSINTService.name := "SocialMediaOSINT";
     BaseOSINTService.base_url := "";
     BaseOSINTService.rate_limit := f_ratio 1 1 |}.

(** The default [response_time=0.0]. *)
Definition no_time : float := f_ratio 0 1.

(** The part of [search_gab] after the URL is chosen. *)
Definition gab_fetch (query query_type url : string) (start_time : float)
    : M OSINTResult.t :=
  response <- BaseOSINTService._make_request self url "GET" false ;;
  now <- time_time ;;
  let response_time := f_sub now start_time in
  if Z.eqb (resp_status_code response) 200 then
    profile_data <- lift (_extract_gab_data (resp_text response) query_type) ;;
    new_result "Gab" query query_type true profile_data None response_time
      (Some (resp_status_code response))
  else
    new_result "Gab" query query_type false []
      (Some ("Profile not found (HTTP " ++
             PyStr.str_of_int (resp_status_code response) ++ ")"))
      response_time (Some (resp_status_code response)).

Definition search_gab (query query_type : string) : M OSINTResult.t :=
  start_time <- time_time ;;
  try_except
    (if String.eqb query_type "username" then
       gab_fetch query query_type ("https://gab.com/" ++ query) start_time
     else if String.eqb query_type "hashtag" then
       gab_fetch query query_type ("https://gab.com/tags/" ++ query) start_time
     else
       new_result "Gab" query query_type false []
         (Some "Unsupported query type") no_time None)
    (fun e =>
       now <- time_time ;;
       new_result "Gab" query query_type false [] (Some e)
         (f_sub now start_time) None).

Definition tiktok_fetch (query query_type url : string) (start_time : float)
    : M OSINTResult.t :=
  response <- BaseOSINTService._make_request self url "GET" true ;;
  now <- time_time ;;
  let response_time := f_sub now start_time in
  if Z.eqb (resp_status_code response) 200 then
    profile_data <- lift (_extract_tiktok_data (resp_text response) query_type) ;;
    new_result "TikTok" query query_type true profile_data None response_time
      (Some (resp_status_code response))
  else
    new_result "TikTok" query query_type false []
      (Some "Could not access TikTok profile") response_time None.

Definition search_tiktok (query query_type : string) : M OSINTResult.t :=
  start_time <- time_time ;;
  try_except
    (if String.eqb query_type "username" then
       tiktok_fetch query query_type ("https://www.tiktok.com/@" ++ query)
         start_time
     else if String.eqb query_type "hashtag" then
       tiktok_fetch query query_type ("https://www.tiktok.com/tag/" ++ query)
         start_time
     else
       new_result "TikTok" query query_type false []
         (Some "Unsupported query type") no_time None)
    (fun e =>
       now <- time_time ;;
       new_result "TikTok" query query_type false [] (Some e)
         (f_sub now start_time) None).

Definition linkedin_data (query query_type : string) : Dict :=
  if String.eqb query_type "profile_photo" && PyStr.startswith query "https://"
  then [("enhanced_photo_url", VStr (query ++ "detail/photo/"))]
  else if String.eqb query_type "recent_activity" &&
          PyStr.startswith query "https://"
  then [("recent_activity_url", VStr (query ++ "detail/recent-activity/"))]
  else if String.eqb query_type "email_lookup"
  then [("email_lookup_status", VStr "deprecated");
        ("note", VStr "LinkedIn removed email lookup functionality")]
  else [].

Definition search_linkedin (query query_type : string) : M OSINTResult.t :=
  start_time <- time_time ;;
  try_except
    (let data := linkedin_data query query_type in
     now <- time_time ;;
     new_result "LinkedIn" query query_type true data None
       (f_sub now start_time) None)
    (fun e =>
       now <- time_time ;;
       new_result "LinkedIn" query query_type false [] (Some e)
         (f_sub now start_time) None).

Definition reddit_data (query query_type : string) : M Dict :=
  if String.eqb query_type "removeddit" then
    ret (if PyStr.contains "reddit.com" query
         then [("removeddit_url",
                VStr (PyStr.replace query "www.reddit.com/" "www.removeddit.com/"))]
         else [])
  else if String.eqb query_type "profile_analysis" &&
          PyStr.startswith query "https://" then
    response <- BaseOSINTService._make_request self query "GET" false ;;
    if Z.eqb (resp_status_code response) 200
    then lift (reddit_profile_fields (resp_text response))
    else ret []
  else ret [].

Definition search_reddit (query query_type : string) : M OSINTResult.t :=
  start_time <- time_time ;;
  try_except
    (data <- reddit_data query query_type ;;
     now <- time_time ;;
     new_result "Reddit" query query_type true data None
       (f_sub now start_time) None)
    (fun e =>
       now <- time_time ;;
       new_result "Reddit" query query_type false [] (Some e)
         (f_sub now start_time) None).

Definition search_tumblr (query query_type : string) : M OSINTResult.t :=
  start_time <- time_time ;;
  try_except
    (let blog_name :=
       if PyStr.contains ".tumblr.com" query
       then PyStr.replace query ".tumblr.com" "" else query in
     let site := "http://" ++ blog_name ++ ".tumblr.com" in
     let avatar_api_url :=
       "https://api.tumblr.com/v2/blog/" ++ blog_name ++ ".tumblr.com/avatar/512" in
     let data :=
       [("archive_url", VStr (site ++ "/archive"));
        ("likes_url", VStr (site ++ "/likes"));
        ("following_url", VStr (site ++ "/following"));
        ("followers_url", VStr (site ++ "/followers"));
        ("avatar_api_url", VStr avatar_api_url)] in
     data <-
       try_except
         (avatar_response <-
            BaseOSINTService._make_request self avatar_api_url "GET" false ;;
          if Z.eqb (resp_status_code avatar_response) 200
          then ret (data ++ [("avatar_accessible", VBool true);
                             ("avatar_direct_url", VStr (resp_url avatar_response))])%list
          else ret (data ++ [("avatar_accessible", VBool false)])%list)
         (fun _ => ret (data ++ [("avatar_accessible", VBool false)])%list) ;;
     now <- time_time ;;
     new_result "Tumblr" query query_type true data None
       (f_sub now start_time) None)
    (fun e =>
       now <- time_time ;;
       new_result "Tumblr" query query_type false [] (Some e)
         (f_sub now start_time) None).

(** The platform and the query type that a tag names. *)
Definition parse_tag (query_type : string) : string * string :=
  if PyStr.startswith query_type "social_" then
    let remainder := PyStr.drop 7 query_type in
    let parts := PyStr.split "_" remainder in
    if Nat.leb 2 (List.length parts)
    then (hd "" parts, PyStr.join "_" (tl parts))
    else (remainder, "username")
  else
    let platform_queries := PyStr.split "_" query_type in
    if Nat.ltb 1 (List.length platform_queries)
    then (hd "" platform_queries, PyStr.join "_" (tl platform_queries))
    else ("all", query_type).

(** [if platform == 'all' or platform == p: results.append(f(...))] *)
Definition on_platform (platform p : string) (f : M OSINTResult.t)
      (results : list OSINTResult.t) : M (list OSINTResult.t) :=
  if String.eqb platform "all" || String.eqb platform p
  then r <- f ;; ret (results ++ [r])%list
  else ret results.

Definition search (query query_type : string) : M (list OSINTResult.t) :=
  let (platform, actual_query_type) := parse_tag query_type in
  results <- on_platform platform "gab" (search_gab query actual_query_type) [] ;;
  results <- on_platform platform "tiktok"
               (search_tiktok query actual_query_type) results ;;
  results <- on_platform platform "linkedin"
               (search_linkedin query actual_query_type) results ;;
  results <- on_platform platform "reddit"
               (search_reddit query actual_query_type) results ;;
  results <- on_platform platform "tumblr"
               (search_tumblr query actual_query_type) results ;;
  ret results.

End Def.
End SocialMediaOSINT.

Module UtilityOSINT.
Import Py Runtime.
Local Open Scope py_scope.

Section Def.
Context `{FL : Floats} `{OUT : @Outside FL} `{LIB : @Library FL}.

Definition self : BaseOSINTService.t :=
  {| BaseOSINTService.name := "UtilityOSINT";
     BaseOSINTService.base_url := "";
     BaseOSINTService.rate_limit := f_ratio 1 1 |}.

Definition url_expanders : list (string * string) :=
  [("getlinkinfo", "http://www.getlinkinfo.com/info?link={}");
   ("checkshorturl", "https://checkshorturl.com/expand.php?u={}");
   ("expandurl", "https://www.expandurl.net/expand?url={}")].

Definition pokemon_go_services : Dict :=
  [("pogotrainer", VStr "https://pogotrainer.club/");
   ("gamepress", VStr "https://gamepress.gg/pokemongo/trainer-codes-list");
   ("pokelytics", VStr "https://pokelytics.com/");
   ("openstreetmap", VStr "https://www.openstreetmap.org/")].

Definition opt_str (o : option string) : PyVal :=
  match o with
  | Some s => VStr s
  | None => VNone
  end.

(** One round of the loop of [expand_url]. *)
Definition expand_with (url : string) (results : Dict)
      (expander : string * string) : M Dict :=
  let (service_name, url_template) := expander in
  try_except
    (quoted <- lift (quote url) ;;
     let expand_url := PyStr.format1 url_template quoted in
     response <- BaseOSINTService._make_request self expand_url "GET" false ;;
     if Z.eqb (resp_status_code response) 200 then
       expanded <- lift (_parse_expansion_response service_name response url) ;;
       ret (dict_set results service_name
              (VDict [("status", VStr "success");
                      ("expanded_url", opt_str expanded);
                      ("service_url", VStr expand_url)]))
     else
       ret (dict_set results service_name
              (VDict [("status", VStr "failed");
                      ("status_code", VInt (resp_status_code response));
                      ("service_url", VStr expand_url)])))
    (fun e =>
       ret (dict_set results service_name
              (VDict [("status", VStr "error"); ("error", VStr e)]))).

(** [r.get('status') == 'success'] *)
Definition status_success (r : PyVal) : bool :=
  match r with
  | VDict d =>
      match dict_get d "status" with
      | Some (VStr st) => String.eqb st "success"
      | _ => false
      end
  | _ => false
  end.

Definition expand_url (url : string) : M OSINTResult.t :=
  start_time <- time_time ;;
  results <- for_each url_expanders (expand_with url) [] ;;
  now <- time_time ;;
  new_result (BaseOSINTService.name self) url "url_expansion"
    (existsb status_success (dict_values results))
    [("expansion_results", VDict results)]
    None (f_sub now start_time) None.

Definition pokemon_go_urls (query query_type : string) : Dict :=
  if String.eqb query_type "trainer_code" then
    [("google", VStr ("https://www.google.com/search?q=" ++
                      PyStr.dquote ++ query ++ PyStr.dquote));
     ("reddit", VStr ("https://www.reddit.com/r/PokemonGoFriends/search/?q=" ++
                      query ++ "&restrict_sr=1"));
     ("twitter", VStr ("https://twitter.com/search?q=" ++ query))]
  else if String.eqb query_type "username" then
    [("friendhuntr",
      VStr ("https://api.friendhuntr.com/distribute/payload-search?username=" ++
            query));
     ("silph", VStr ("https://sil.ph/" ++ query));
     ("pokebattler", VStr ("https://www.pokebattler.com/profiles?search=" ++
                           query ++ "&page=0#searchResult"));
     ("trainerdex", VStr ("https://www.trainerdex.co.uk/u/" ++ query))]
  else [].

Definition pokemon_go_search (query query_type : string) : M OSINTResult.t :=
  start_time <- time_time ;;
  let search_urls := pokemon_go_urls query query_type in
  now <- time_time ;;
  new_result (BaseOSINTService.name self) query ("pokemon_go_" ++ query_type)
    true
    [("search_urls", VDict search_urls);
     ("pokemon_go_resources", VDict pokemon_go_services)]
    None (f_sub now start_time) None.

Definition search (query query_type : string) : M OSINTResult.t :=
  if String.eqb query_type "url_expansion" then expand_url query
  else if PyStr.startswith query_type "pokemon_go" then
    let pogo_type := PyStr.replace query_type "pokemon_go_" "" in
    pokemon_go_search query pogo_type
  else
    new_result (BaseOSINTService.name self) query query_type false []
      (Some "Unsupported query type") (f_ratio 0 1) None.

End Def.
End UtilityOSINT.

Module SULTANFramework.
Import Py Runtime.
Local Open Scope py_scope.

Section Def.
Context `{FL : Floats} `{OUT : @Outside FL} `{LIB : @Library FL}.

Definition self : BaseOSINTService.t :=
  {| BaseOSINTService.name := "SULTAN";
     BaseOSINTService.base_url := "";
     BaseOSINTService.rate_limit := f_ratio 1 2 |}.

Record Platform : Type := {
    name : string;
    url_template : string;
    error_indicators : list string;
    success_indicators : list string
  }.

Definition _load_default_platforms : list Platform :=
  [ {| name := "GitHub"; url_template := "https://github.com/{}";
       error_indicators := ["Not Found"; "404"];
       success_indicators := ["contributions"] |};
    {| name := "Twitter"; url_template := "https://twitter.com/{}";
       error_indicators := ["does not exist"; "suspended"];
       success_indicators := ["tweets"; "followers"] |};
    {| name := "Instagram"; url_template := "https://instagram.com/{}";
       error_indicators := ["not found"; "error"];
       success_indicators := ["posts"; "followers"] |};
    {| name := "Reddit"; url_template := "https://reddit.com/user/{}";
       error_indicators := ["not found"; "suspended"];
       success_indicators := ["karma"; "trophy"] |};
    {| name := "YouTube"; url_template := "https://youtube.com/@{}";
       error_indicators := ["not found"; "404"];
       success_indicators := ["subscribers"; "videos"] |} ].

Definition platforms : list Platform := _load_default_platforms.

Definition _analyze_platform_response (response : Response)
      (platform : Platform) : bool :=
  if Z.eqb (resp_status_code response) 404 then false
  else if Z.eqb (resp_status_code response) 403 then true
  else if negb (Z.eqb (resp_status_code response) 200) then false
  else
    let text_lower := PyStr.lower (resp_text response) in
    if existsb (fun error_indicator =>
                  PyStr.contains (PyStr.lower error_indicator) text_lower)
         (error_indicators platform)
    then false
    else if existsb (String.eqb (name platform))
              ["Twitter"; "Instagram"; "YouTube"]
    then negb (existsb (fun error => PyStr.contains error text_lower)
                 ["not found"; "does not exist"; "suspended";
                  "account suspended"])
    else if existsb (fun success_indicator =>
                       PyStr.contains (PyStr.lower success_indicator) text_lower)
              (success_indicators platform)
    then true
    else true.

(** One round of the loop of [bulk_username_check], on [results] and
    [found_count]. *)
Definition check_platform (username : string) (acc : Dict * Z)
      (platform : Platform) : M (Dict * Z) :=
  let (results, found_count) := acc in
  try_except
    (let url := PyStr.format1 (url_template platform) username in
     response <- BaseOSINTService._make_request self url "GET" false ;;
     let exists_ := _analyze_platform_response response platform in
     let results :=
       dict_set results (name platform)
         (VDict [("url", VStr url);
                 ("status_code", VInt (resp_status_code response));
                 ("exists", VBool exists_);
                 ("accessible", VBool (Z.eqb (resp_status_code response) 200))]) in
     ret (results, if exists_ then (found_count + 1)%Z else found_count))
    (fun e =>
       ret (dict_set results (name platform)
              (VDict [("url", VStr (PyStr.format1 (url_template platform) username));
                      ("error", VStr e);
                      ("exists", VBool false);
                      ("accessible", VBool false)]),
            found_count)).

Definition bulk_username_check (username : string) : M OSINTResult.t :=
  start_time <- time_time ;;
  acc <- for_each platforms (check_platform username) ([], 0%Z) ;;
  let (results, found_count) := (acc : Dict * Z) in
  now <- time_time ;;
  new_result (BaseOSINTService.name self) username "bulk_username_check"
    (Z.ltb 0 found_count)
    [("platforms_checked", VInt (Z.of_nat (List.length platforms)));
     ("profiles_found", VInt found_count);
     ("results", VDict results);
     ("summary", VStr ("Found " ++ PyStr.str_of_int found_count ++
                       " profiles for username '" ++ username ++ "'"))]
    None (f_sub now start_time) None.

Definition search (query query_type : string) : M OSINTResult.t :=
  if String.eqb query_type "bulk_username_check" then bulk_username_check query
  else
    new_result (BaseOSINTService.name self) query query_type false []
      (Some "Unsupported query type for SULTAN") (f_ratio 0 1) None.

End Def.
End SULTANFramework.

Module ImageAnalysisOSINT.
Import Py Runtime.
Local Open Scope py_scope.

Section Def.
Context `{FL : Floats} `{OUT : @Outside FL} `{LIB : @Library FL}.

Definition self : BaseOSINTService.t :=
  {| BaseOSINTService.name := "ImageAnalysisOSINT";
     BaseOSINTService.base_url := "";
     BaseOSINTService.rate_limit := f_ratio 1 1 |}.

(** [self.services]: identifier, URL template, display name. *)
Definition services : list (string * (string * string)) :=
  [("google", ("https://www.google.com/searchbyimage?&image_url={}",
               "Google Images"));
   ("yandex", ("https://yandex.com/images/search?source=collections&rpt=imageview&url={}",
               "Yandex Images"));
   ("tineye", ("https://www.tineye.com/search/?url={}", "TinEye"));
   ("bing", ("https://www.bing.com/images/search?view=detailv2&iss=sbi&form=SBIIRP&sbisrc=UrlPaste&q=imgurl:{}",
             "Bing Images"));
   ("baidu", ("https://graph.baidu.com/details?isfromtusoupc=1tn=pc&carousel=0&image={}",
              "Baidu Images"))].

Definition exif_service : string := "http://exif.regex.info/exif.cgi?&url={}".

Definition _analyze_search_results (service : string) (response : Response)
    : bool :=
  let text := resp_text response in
  let text_lower := PyStr.lower text in
  if String.eqb service "google" then
    negb (PyStr.contains "no results found" text_lower) &&
    Z.ltb 10000 (Z.of_nat (String.length text))
  else if String.eqb service "yandex" then
    PyStr.contains "serp-item" text || PyStr.contains "similar" text_lower
  else if String.eqb service "tineye" then
    PyStr.contains "match" text_lower &&
    negb (PyStr.contains "no matches" text_lower)
  else if String.eqb service "bing" then
    PyStr.contains "imgres" text && Z.ltb 5000 (Z.of_nat (String.length text))
  else if String.eqb service "baidu" then
    PyStr.contains "similar" text_lower || Z.ltb 10000 (Z.of_nat (String.length text))
  else false.

Definition _extract_exif_data (image_url : string) : M (option Dict) :=
  try_except
    (quoted <- lift (quote image_url) ;;
     let exif_url := PyStr.format1 exif_service quoted in
     response <- BaseOSINTService._make_request self exif_url "GET" false ;;
     if Z.eqb (resp_status_code response) 200 then
       ret (Some [("exif_url", VStr exif_url);
                  ("accessible", VBool true);
                  ("data_size",
                   VInt (Z.of_nat (String.length (resp_text response))))])
     else ret None)
    (fun e =>
       quoted <- lift (quote image_url) ;;
       ret (Some [("exif_url", VStr (PyStr.format1 exif_service quoted));
                  ("accessible", VBool false);
                  ("error", VStr e)])).

(** One round of the reverse-search loop of [search]. *)
Definition reverse_search (query : string) (results : Dict)
      (entry : string * (string * string)) : M Dict :=
  let '(service_id, (url, service_name)) := entry in
  try_except
    (quoted <- lift (quote query) ;;
     let search_url := PyStr.format1 url quoted in
     response <- BaseOSINTService._make_request self search_url "GET" false ;;
     let ok := Z.eqb (resp_status_code response) 200 in
     let info :=
       [("service_name", VStr service_name);
        ("search_url", VStr search_url);
        ("status_code", VInt (resp_status_code response));
        ("accessible", VBool ok);
        ("response_size",
         VInt (Z.of_nat (String.length (resp_text response))))] in
     let info :=
       if ok
       then dict_set info "has_results"
              (VBool (_analyze_search_results service_id response))
       else info in
     ret (dict_set results service_id (VDict info)))
    (fun e =>
       ret (dict_set results service_id
              (VDict [("service_name", VStr service_name);
                      ("status", VStr "error");
                      ("error", VStr e)]))).

Definition search (query query_type : string) : M OSINTResult.t :=
  start_time <- time_time ;;
  results <- for_each services (reverse_search query) [] ;;
  exif_data <- _extract_exif_data query ;;
  let results :=
    match exif_data with
    | Some (_ :: _ as d) => dict_set results "exif" (VDict d)
    | _ => results
    end in
  let accessible r := get_flag r "accessible" in
  now <- time_time ;;
  new_result (BaseOSINTService.name self) query query_type
    (existsb accessible (dict_values results))
    [("reverse_search_results", VDict results);
     ("total_accessible_services",
      VInt (Z.of_nat (List.length (filter accessible (dict_values results)))))]
    None (f_sub now start_time) None.

End Def.
End ImageAnalysisOSINT.

(** ** The engine: dispatch and reporting *)

Module ComprehensiveOSINTEngine.
Import Py Runtime.
Local Open Scope py_scope.

Section Report.
Context `{FL : Floats}.

Record Summary : Type := {
    total_searches : nat;
    successful_searches : nat;
    failed_searches : nat;
    total_response_time : float;
    timestamp : string
  }.

(** An entry of [results_by_service]. *)
Record ServiceEntry : Type := {
    entry_query : string;
    entry_query_type : string;
    entry_success : bool;
    entry_data : Dict;
    entry_error : option string;
    entry_response_time : float
  }.

Record UrlFound : Type := {
    url : string;
    source : string;
    context : string
  }.

Record ProfileFound : Type := {
    profile_service : string;
    profile_query : string;
    profile_data : Dict
  }.

Record Finding : Type := {
    finding_service : string;
    finding_query : string;
    finding_type : string;
    finding : string;
    details : Dict
  }.

Record Report : Type := {
    search_summary : Summary;
    results_by_service : list (string * list ServiceEntry);
    key_findings : list Finding;
    urls_discovered : list UrlFound;
    profiles_found : list ProfileFound
  }.

(** What [generate_comprehensive_report] returns. *)
Inductive Output : Type :=
  | AsDict (report : Report)
  | AsText (text : string).

End Report.

Section Def.
Context `{FL : Floats} `{OUT : @Outside FL} `{LIB : @Library FL}
        `{SER : @Serializers FL Report}.

(** What [social_media.search] may hand back: the dispatcher tests
    [isinstance(platform_results, list)]. *)
Inductive Found : Type :=
  | Many (results : list OSINTResult.t)
  | One (result : OSINTResult.t).

(** The four services the engine holds, by the call the dispatcher makes
    on each. *)
Record Services : Type := {
    social_media : string -> string -> M Found;       (* search(query, tag) *)
    image_analysis : string -> M OSINTResult.t;       (* search(query) *)
    utilities : string -> string -> M OSINTResult.t;  (* search(query, type) *)
    sultan : string -> M OSINTResult.t                (* search(query) *)
  }.

(** [__init__] *)
Definition engine : Services :=
  {| social_media := fun query tag =>
       rs <- SocialMediaOSINT.search query tag ;; ret (Many rs);
     image_analysis := fun query =>
       ImageAnalysisOSINT.search query "reverse_image";
     utilities := UtilityOSINT.search;
     sultan := fun query =>
       SULTANFramework.search query "bulk_username_check" |}.

(** The body of the [try] for one search type; it returns the new value of
    [results]. *)
Definition dispatch (self : Services) (query : string)
      (results : list OSINTResult.t) (search_type : string)
    : M (list OSINTResult.t) :=
  if PyStr.startswith search_type "social_" then
    platform_results <- social_media self query search_type ;;
    match platform_results with
    | Many l => ret (results ++ l)%list
    | One r => ret (results ++ [r])%list
    end
  else if String.eqb search_type "image_analysis" then
    r <- image_analysis self query ;; ret (results ++ [r])%list
  else if PyStr.startswith search_type "utility_" then
    let util_type := PyStr.replace search_type "utility_" "" in
    r <- utilities self query util_type ;; ret (results ++ [r])%list
  else if String.eqb search_type "bulk_username" then
    r <- sultan self query ;; ret (results ++ [r])%list
  else ret results.

(** One round of the loop of [search_comprehensive]. *)
Definition search_one (self : Services) (query : string)
      (results : list OSINTResult.t) (search_type : string)
    : M (list OSINTResult.t) :=
  try_except
    (dispatch self query results search_type)
    (fun e =>
       logger "ERROR" ("Error in search type " ++ search_type ++ ": " ++ e) ;;;
       ret results).

Definition search_comprehensive (self : Services) (query : string)
      (search_types : option (list string)) : M (list OSINTResult.t) :=
  let search_types :=
    match search_types with
    | None => Classifier._determine_search_types query
    | Some l => l
    end in
  for_each search_types (search_one self query) [].

(** [sum(1 for r in results if p(r))] *)
Definition count_if {A} (p : A -> bool) (results : list A) : nat :=
  fold_left (fun acc r => if p r then acc + 1 else acc) results 0.

(** [d.setdefault-and-append]: the list of [service], created at the end of
    the mapping when the key is new. *)
Fixpoint add_entry (by_service : list (string * list ServiceEntry))
      (service : string) (entry : ServiceEntry)
    : list (string * list ServiceEntry) :=
  match by_service with
  | [] => [(service, [entry])]
  | (k, entries) :: rest =>
      if String.eqb service k then (k, (entries ++ [entry])%list) :: rest
      else (k, entries) :: add_entry rest service entry
  end.

Definition urls_of (result : OSINTResult.t) : list UrlFound :=
  flat_map
    (fun kv =>
       match snd kv with
       | VStr value =>
           if Classifier._is_url value
           then [{| url := value;
                    source := OSINTResult.service result;
                    context := fst kv |}]
           else []
       | _ => []
       end)
    (OSINTResult.data result).

Definition _extract_key_findings (result : OSINTResult.t) (report : Report)
    : Report :=
  let data := OSINTResult.data result in
  let urls := (urls_discovered report ++ urls_of result)%list in
  let profiles :=
    if existsb (String.eqb (OSINTResult.service result))
         ["SocialMediaOSINT"; "SULTAN"] &&
       OSINTResult.success result &&
       (PyStr.contains "profile_exists" (str_of_dict data) ||
        PyStr.contains "profiles_found" (str_of_dict data))
    then (profiles_found report ++
          [{| profile_service := OSINTResult.service result;
              profile_query := OSINTResult.query result;
              profile_data := data |}])%list
    else profiles_found report in
  let findings :=
    if OSINTResult.success result
    then (key_findings report ++
          [{| finding_service := OSINTResult.service result;
              finding_query := OSINTResult.query result;
              finding_type := OSINTResult.query_type result;
              finding := "Successfully found data on " ++
                         OSINTResult.service result;
              details := data |}])%list
    else key_findings report in
  {| search_summary := search_summary report;
     results_by_service := results_by_service report;
     key_findings := findings;
     urls_discovered := urls;
     profiles_found := profiles |}.

(** One round of the loop that organizes the results by service. *)
Definition organize (report : Report) (result : OSINTResult.t) : Report :=
  let report :=
    {| search_summary := search_summary report;
       results_by_service :=
         add_entry (results_by_service report) (OSINTResult.service result)
           {| entry_query := OSINTResult.query result;
              entry_query_type := OSINTResult.query_type result;
              entry_success := OSINTResult.success result;
              entry_data := OSINTResult.data result;
              entry_error := OSINTResult.error result;
              entry_response_time := OSINTResult.response_time result |};
       key_findings := key_findings report;
       urls_discovered := urls_discovered report;
       profiles_found := profiles_found report |} in
  if OSINTResult.success result &&
     match OSINTResult.data result with [] => false | _ :: _ => true end
  then _extract_key_findings result report
  else report.

Definition csv_columns : list string :=
  ["Service"; "Query"; "Query_Type"; "Success"; "Response_Time"; "Status_Code";
   "Error"; "Data_Keys"; "Timestamp"].

(** The row of one result, as the [dict] appended to [data_rows]. *)
Definition csv_row (result : OSINTResult.t) : Dict :=
  [("Service", VStr (OSINTResult.service result));
   ("Query", VStr (OSINTResult.query result));
   ("Query_Type", VStr (OSINTResult.query_type result));
   ("Success", VBool (OSINTResult.success result));
   ("Response_Time", VFloat (OSINTResult.response_time result));
   ("Status_Code", match OSINTResult.status_code result with
                   | Some n => VInt n
                   | None => VNone
                   end);
   ("Error", VStr match OSINTResult.error result with
                  | Some e => e
                  | None => ""
                  end);
   ("Data_Keys", VStr match OSINTResult.data result with
                      | [] => ""
                      | _ :: _ => PyStr.join ", " (dict_keys (OSINTResult.data result))
                      end);
   ("Timestamp", VStr (OSINTResult.timestamp result))].

(** The cells of the row of one result, in column order. *)
Definition csv_cells (result : OSINTResult.t) : list PyVal :=
  dict_values (csv_row result).

(** [pd.DataFrame(data_rows)] for a list of [dict]s: the columns are the
    keys in order of first appearance, a missing cell is empty. *)
Fixpoint first_seen (seen keys : list string) : list string :=
  match keys with
  | [] => seen
  | k :: keys' =>
      if existsb (String.eqb k) seen then first_seen seen keys'
      else first_seen (seen ++ [k])%list keys'
  end.

Definition DataFrame_of (data_rows : list Dict) : DataFrame :=
  let cols := first_seen [] (flat_map dict_keys data_rows) in
  {| columns := cols;
     rows := map (fun row =>
                    map (fun c => match dict_get row c with
                                  | Some v => v
                                  | None => VNone
                                  end) cols)
               data_rows |}.

Definition _generate_csv_report (results : list OSINTResult.t) : string :=
  let data_rows := map csv_row results in
  match data_rows with
  | _ :: _ => to_csv (DataFrame_of data_rows)
  | [] => "No results to export"
  end.

(** The batch of a list of search types, told apart from the loop that
    builds it: a search type whose service call returns adds the results
    of that call, a search type whose service call raises adds nothing and
    leaves an error in the log, and the next search type starts from the
    world the previous one left. *)
Inductive Batch (self : Services) (query : string)
    : World -> list string -> list OSINTResult.t -> World -> Prop :=
  | Batch_done (w : World) : Batch self query w [] [] w
  | Batch_returned (w w1 w' : World) (search_type : string)
      (rest : list string) (found later : list OSINTResult.t) :
      dispatch self query [] search_type w = (inr found, w1) ->
      Batch self query w1 rest later w' ->
      Batch self query w (search_type :: rest) (found ++ later)%list w'
  | Batch_raised (w w1 w' : World) (search_type : string)
      (rest : list string) (e : exn) (later : list OSINTResult.t) :
      dispatch self query [] search_type w = (inl e, w1) ->
      Batch self query
        (snd (logger "ERROR"
                ("Error in search type " ++ search_type ++ ": " ++ e) w1))
        rest later w' ->
      Batch self query w (search_type :: rest) later w'.

Definition generate_comprehensive_report (results : list OSINTResult.t)
      (output_format : string) : M Output :=
  let total := List.length results in
  let successful := count_if OSINTResult.success results in
  let failed := count_if (fun r => negb (OSINTResult.success r)) results in
  let elapsed := Py.sum (map OSINTResult.response_time results) in
  now <- datetime_now_isoformat ;;
  let report :=
    {| search_summary :=
         {| total_searches := total;
            successful_searches := successful;
            failed_searches := failed;
            total_response_time := elapsed;
            timestamp := now |};
       results_by_service := [];
       key_findings := [];
       urls_discovered := [];
       profiles_found := [] |} in
  let report := fold_left organize results report in
  if String.eqb output_format "json" then ret (AsText (json_dumps report))
  else if String.eqb output_format "csv"
  then ret (AsText (_generate_csv_report results))
  else ret (AsDict report).

End Def.
End ComprehensiveOSINTEngine.

(** ** A small world to run the model in *)

Module Demo.
Import Py Runtime.

(** Whole seconds in place of floats. *)
#[export] Instance seconds : Floats :=
  {| float := Z;
     f_zero := 0%Z;
     f_add := Z.add;
     f_sub := Z.sub;
     f_lt := Z.ltb;
     f_ratio := Z.div;
     f_fixed2 := PyStr.str_of_int |}.

(** No network and no browser: every request raises. *)
#[export] Instance offline : Outside :=
  {| time_at := fun tr => Z.of_nat (List.length tr);
     now_at := fun _ => "2024-01-01T00:00:00";
     uniform_at := fun _ => 1%Z;
     request_at := fun _ _ _ => inl "connection refused";
     chrome_at := fun _ => inl "chrome not found";
     browse_at := fun _ _ => inl "no driver" |}.

(** Scrapers that find nothing. *)
#[export] Instance plain : Library :=
  {| quote := fun s => inr s;
     _extract_gab_data := fun _ _ => inr [];
     _extract_tiktok_data := fun _ _ => inr [];
     reddit_profile_fields := fun _ => inr [];
     _parse_expansion_response := fun _ _ _ => inr None;
     str_of_dict := fun _ => "{}" |}.

Definition cell_text (v : PyVal) : string :=
  match v with
  | VNone => ""
  | VBool true => "True"
  | VBool false => "False"
  | VInt n => PyStr.str_of_int n
  | VFloat x => PyStr.str_of_int x
  | VStr s => s
  | VList _ => "[]"
  | VDict _ => "{}"
  end.

Definition csv_line (cells : list string) : string :=
  PyStr.join "," cells ++ String PyStr.newline EmptyString.

(** A CSV writer without quoting: the header line, then a line per row. *)
#[export] Instance writers : Serializers ComprehensiveOSINTEngine.Report :=
  {| json_dumps := fun _ => "{}";
     to_csv := fun df =>
       csv_line (columns df) ++
       String.concat "" (map (fun row => csv_line (map cell_text row)) (rows df)) |}.

(** The world at start-up: nothing has happened, no service has been used. *)
Definition w0 : World :=
  {| trace := [];
     services := fun _ => {| last_request := 0%Z; driver := false |} |}.

Definition found_octocat : OSINTResult.t :=
  OSINTResult.mk "SULTAN" "octocat" "bulk_username_check" true
    [("profiles_found", VInt 1)] None "2024-01-01T00:00:00" 2%Z None.

Definition gab_missing : OSINTResult.t :=
  OSINTResult.mk "Gab" "octocat" "username" false []
    (Some "Profile not found (HTTP 404)") "2024-01-01T00:00:01" 1%Z (Some 404%Z).

(** An engine whose image service raises and whose other services answer
    at once. *)
Definition broken_image_engine : ComprehensiveOSINTEngine.Services :=
  {| ComprehensiveOSINTEngine.social_media :=
       fun _ _ => ret (ComprehensiveOSINTEngine.Many [gab_missing]);
     ComprehensiveOSINTEngine.image_analysis :=
       fun _ => raise "image service crashed";
     ComprehensiveOSINTEngine.utilities := fun _ _ => ret found_octocat;
     ComprehensiveOSINTEngine.sultan := fun _ => ret found_octocat |}.

End Demo.

(** ** The command line: [osint_cli.py] *)

Module OSINTCli.

(** [get_search_types]: the search types of a [--type], with the
    [--platforms] given, if any. *)
Definition get_search_types (search_type : string) (platforms : option string)
  : list string :=
  if String.eqb search_type "username" then ["social_username"; "bulk_username"]
  else if String.eqb search_type "image" then ["image_analysis"]
  else if String.eqb search_type "url" then ["utility_url_expansion"]
  else if String.eqb search_type "pokemon" then ["utility_pokemon_go_trainer_code"]
  else if String.eqb search_type "social" then
    match platforms with
    | Some (String _ _ as listed) =>
        map (fun platform => "social_" ++ platform ++ "_username")
          (PyStr.split "," listed)
    | _ => ["social_username"]
    end
  else if String.eqb search_type "bulk" then ["bulk_username"]
  else ["social_username"].

End OSINTCli.

(** The search types [search_comprehensive] has a branch for. *)
Module SearchTypes.

Definition dispatched (search_type : string) : bool :=
  PyStr.startswith search_type "social_" ||
  String.eqb search_type "image_analysis" ||
  PyStr.startswith search_type "utility_" ||
  String.eqb search_type "bulk_username".

End SearchTypes.

(** ** What a computation does *)

Module Outcome.
Import Py Runtime.

Section Def.
Context `{FL : Floats}.

(** Running [c] from the world [w]: [returned] is to hold of the value and
    the world left when [c] returns, [raised] of the exception and the world
    left when [c] raises. *)
Definition outcome {A} (c : M A) (w : World)
    (returned : A -> World -> Prop) (raised : exn -> World -> Prop) : Prop :=
  match c w with
  | (inr a, w') => returned a w'
  | (inl e, w') => raised e w'
  end.

(** [c] returns from [w], and does not raise. *)
Definition returns {A} (c : M A) (w : World) (returned : A -> World -> Prop)
  : Prop :=
  outcome c w returned (fun _ _ => False).

(** No HTTP request and no page load between two worlds. *)
Definition quiet (w w' : World) : Prop :=
  network_calls (trace w') = network_calls (trace w).

(** Between two worlds, [count] HTTP requests and no page load. *)
Definition requested (method url : string) (count : nat) (w w' : World) : Prop :=
  network_calls (trace w') =
  (network_calls (trace w) ++ repeat (EvRequest method url) count)%list.

(** Between two worlds, only the service [name] changed its attributes. *)
Definition only_touches (name : string) (w w' : World) : Prop :=
  forall other, other <> name -> services w' other = services w other.

(** What a fetch over HTTP leaves behind: one to three requests for the
    URL, and no attribute changed but those of the fetching service. *)
Definition fetched_by_http (name method url : string) (w w' : World) : Prop :=
  (exists count, 1 <= count <= 3 /\ requested method url count w w') /\
  only_touches name w w'.

(** What a fetch through the browser leaves behind: one page load and no
    HTTP request. *)
Definition fetched_by_browser (name url : string) (w w' : World) : Prop :=
  network_calls (trace w') = (network_calls (trace w) ++ [EvBrowse url])%list /\
  only_touches name w w'.

End Def.
End Outcome.

(** ** What a result looks like *)

Module Shape.
Import Py Runtime.

Section Def.
Context `{FL : Floats}.

(** A result that carries the label of its service and the query and query
    type it was asked for, and is either a success without an error or a
    failure with an error and without data. *)
Definition labelled (label query query_type : string) (r : OSINTResult.t)
  : Prop :=
  OSINTResult.service r = label /\
  OSINTResult.query r = query /\
  OSINTResult.query_type r = query_type /\
  (if OSINTResult.success r
   then OSINTResult.error r = None
   else OSINTResult.data r = [] /\ exists e, OSINTResult.error r = Some e).

(** The platforms of [SocialMediaOSINT.search], in the order they are
    searched, each with the label of its results. *)
Definition platform_labels : list (string * string) :=
  [("gab", "Gab"); ("tiktok", "TikTok"); ("linkedin", "LinkedIn");
   ("reddit", "Reddit"); ("tumblr", "Tumblr")].

(** The labels of the platforms that [platform] selects. *)
Definition selected (platform : string) : list string :=
  map snd
    (filter (fun entry => String.eqb platform "all" ||
                          String.eqb platform (fst entry))
       platform_labels).

End Def.
End Shape.

(** ** What a search type brings *)

Module Batches.
Import Py.

Section Def.
Context `{FL : Floats} `{LIB : @Library FL}.

(** The labels of the results that a search type brings for a query from
    the services of the engine itself: those of the platforms it selects for
    a social search type; the label of the image service for
    [image_analysis], unless [quote] raises on the query; one label for each
    of the other search types the dispatcher has a branch for; none for any
    other. *)
Definition labels_of (query search_type : string) : list string :=
  if PyStr.startswith search_type "social_" then
    Shape.selected (fst (SocialMediaOSINT.parse_tag search_type))
  else if String.eqb search_type "image_analysis" then
    match quote query with
    | inr _ => ["ImageAnalysisOSINT"]
    | inl _ => []
    end
  else if PyStr.startswith search_type "utility_" then ["UtilityOSINT"]
  else if String.eqb search_type "bulk_username" then ["SULTAN"]
  else [].

End Def.
End Batches.

(** ** What a batch owes to each service *)

Module Isolation.
Import Py Runtime ComprehensiveOSINTEngine.

Section Def.
Context `{FL : Floats} `{OUT : @Outside FL}.

(** The entries that an answer of the social service stands for. *)
Definition entries (found : Found) : list OSINTResult.t :=
  match found with
  | Many results => results
  | One result => [result]
  end.

(** The service that a search type is for, with the call made on it and the
    entries the call contributes when it returns: the social service for a
    type that starts with [social_], called with the query and the type as
    it is; the image service for [image_analysis], called with the query;
    the utility service for a type that starts with [utility_], called with
    the query and the type without [utility_]; SULTAN for [bulk_username],
    called with the query.  Any other search type is for no service. *)
Definition service_call (self : Services) (query search_type : string)
  : option (M (list OSINTResult.t)) :=
  if PyStr.startswith search_type "social_" then
    Some (bind (social_media self query search_type)
            (fun found => ret (entries found)))
  else if String.eqb search_type "image_analysis" then
    Some (bind (image_analysis self query) (fun result => ret [result]))
  else if PyStr.startswith search_type "utility_" then
    Some (bind (utilities self query (PyStr.replace search_type "utility_" ""))
            (fun result => ret [result]))
  else if String.eqb search_type "bulk_username" then
    Some (bind (sultan self query) (fun result => ret [result]))
  else None.

(** The world after [logger.error] has written that a search type failed. *)
Definition logged_failure (search_type : string) (e : exn) (w : World)
  : World :=
  {| trace := EvLog "ERROR" ("Error in search type " ++ search_type ++ ": " ++ e)
                :: trace w;
     services := services w |}.

(** The batch that a list of search types is owed, service call by service
    call: a search type for no service adds nothing; a search type whose
    service call returns adds the entries of that call; a search type whose
    service call raises adds nothing and leaves the error in the log; and
    the next search type starts from the world the previous one left. *)
Inductive Isolated (self : Services) (query : string)
    : World -> list string -> list OSINTResult.t -> World -> Prop :=
  | Isolated_done (w : World) : Isolated self query w [] [] w
  | Isolated_no_service (w w' : World) (search_type : string)
      (rest : list string) (later : list OSINTResult.t) :
      service_call self query search_type = None ->
      Isolated self query w rest later w' ->
      Isolated self query w (search_type :: rest) later w'
  | Isolated_returned (w w1 w' : World) (search_type : string)
      (rest : list string) (call : M (list OSINTResult.t))
      (found later : list OSINTResult.t) :
      service_call self query search_type = Some call ->
      call w = (inr found, w1) ->
      Isolated self query w1 rest later w' ->
      Isolated self query w (search_type :: rest) (found ++ later)%list w'
  | Isolated_raised (w w1 w' : World) (search_type : string)
      (rest : list string) (call : M (list OSINTResult.t)) (e : exn)
      (later : list OSINTResult.t) :
      service_call self query search_type = Some call ->
      call w = (inl e, w1) ->
      Isolated self query (logged_failure search_type e w1) rest later w' ->
      Isolated self query w (search_type :: rest) later w'.

End Def.
End Isolation.

(** ** What a report holds *)

Module Reporting.
Import Py ComprehensiveOSINTEngine.

Section Def.
Context `{FL : Floats}.

(** The entry that a result leaves under its service. *)
Definition entry_of (result : OSINTResult.t) : ServiceEntry :=
  {| entry_query := OSINTResult.query result;
     entry_query_type := OSINTResult.query_type result;
     entry_success := OSINTResult.success result;
     entry_data := OSINTResult.data result;
     entry_error := OSINTResult.error result;
     entry_response_time := OSINTResult.response_time result |}.

(** The results of a service. *)
Definition of_service (service : string) (results : list OSINTResult.t)
  : list OSINTResult.t :=
  filter (fun r => String.eqb (OSINTResult.service r) service) results.

(** The results grouped by service: the services in the order they are
    first seen, each with the entries of its results, in their order. *)
Definition grouped (results : list OSINTResult.t)
  : list (string * list ServiceEntry) :=
  map (fun service => (service, map entry_of (of_service service results)))
    (first_seen [] (map OSINTResult.service results)).

(** A result that the report reads for findings: a success with data. *)
Definition has_findings (result : OSINTResult.t) : bool :=
  OSINTResult.success result &&
  match OSINTResult.data result with
  | [] => false
  | _ :: _ => true
  end.

(** The row of a result in the table of the CSV report, cell by cell in the
    order of the columns: the service, the query, the query type, the
    success flag, the response time, the status code if there is one, the
    error or the empty text, the names of the data fields joined by a comma
    and a blank, and the timestamp. *)
Definition table_row (result : OSINTResult.t) : list PyVal :=
  [VStr (OSINTResult.service result);
   VStr (OSINTResult.query result);
   VStr (OSINTResult.query_type result);
   VBool (OSINTResult.success result);
   VFloat (OSINTResult.response_time result);
   match OSINTResult.status_code result with
   | Some code => VInt code
   | None => VNone
   end;
   VStr match OSINTResult.error result with
        | Some message => message
        | None => ""
        end;
   VStr (PyStr.join ", " (map fst (OSINTResult.data result)));
   VStr (OSINTResult.timestamp result)].

(** The key finding that such a result leaves. *)
Definition finding_of (result : OSINTResult.t) : Finding :=
  {| finding_service := OSINTResult.service result;
     finding_query := OSINTResult.query result;
     finding_type := OSINTResult.query_type result;
     finding := "Successfully found data on " ++ OSINTResult.service result;
     details := OSINTResult.data result |}.

End Def.
End Reporting.

(** ** The first framework: [osint_api_framework.py] *)

Module Framework.
Import Py Runtime.
Local Open Scope py_scope.

Section Def.
Context `{FL : Floats} `{OUT : @Outside FL}.

(** Its [OSINTResult]: no response time, no status code, and a timestamp
    that nothing sets. *)
Record Result : Type := mkResult {
    service : string;
    query : string;
    query_type : string;
    success : bool;
    data : Dict;
    error : option string;
    timestamp : option string
  }.

(** The page reading that goes through [BeautifulSoup]. *)
Class Pages : Type := {
    quote : string -> exn + string;                 (* urllib.parse.quote *)
    _parse_expansion_response : string -> Response -> exn + option string;
    google_results : string -> exn + nat;
        (* how many result blocks the page of Google holds *)
    _extract_gab_profile : string -> exn + Dict;
    _extract_tiktok_profile : string -> exn + Dict
  }.

Context `{PG : Pages}.

(** [BaseOSINTService._make_request]: throttled, and without a retry. *)
Definition _make_request (self : BaseOSINTService.t) (url method : string)
  : M Response :=
  BaseOSINTService._rate_limit self ;;;
  try_except
    (response <- session_request method url ;;
     logger "INFO"
       (BaseOSINTService.name self ++ ": " ++ method ++ " " ++ url ++ " -> " ++
        PyStr.str_of_int (resp_status_code response)) ;;;
     ret response)
    (fun e =>
       logger "ERROR"
         (BaseOSINTService.name self ++ ": Request failed for " ++ url ++
          ": " ++ e) ;;;
       raise e).

Definition url_expander : BaseOSINTService.t :=
  {| BaseOSINTService.name := "URLExpander";
     BaseOSINTService.base_url := "";
     BaseOSINTService.rate_limit := f_ratio 1 1 |}.

Definition image_analysis : BaseOSINTService.t :=
  {| BaseOSINTService.name := "ImageAnalysis";
     BaseOSINTService.base_url := "";
     BaseOSINTService.rate_limit := f_ratio 1 1 |}.

Definition social_media : BaseOSINTService.t :=
  {| BaseOSINTService.name := "SocialMedia";
     BaseOSINTService.base_url := "";
     BaseOSINTService.rate_limit := f_ratio 1 1 |}.

Definition expanders : list (string * string) :=
  [("getlinkinfo", "http://www.getlinkinfo.com/info?link={}");
   ("checkshorturl", "https://checkshorturl.com/expand.php?u={}");
   ("expandurl", "https://www.expandurl.net/expand?url={}")].

(** One round of the loop of [URLExpanderService.search]. *)
Definition expand_with (query : string) (results : Dict)
    (expander : string * string) : M Dict :=
  let (service_name, url_template) := expander in
  try_except
    (quoted <- lift (quote query) ;;
     let url := PyStr.format1 url_template quoted in
     response <- _make_request url_expander url "GET" ;;
     if Z.eqb (resp_status_code response) 200 then
       expanded_url <- lift (_parse_expansion_response service_name response) ;;
       ret (dict_set results service_name
              (VDict [("expanded_url", UtilityOSINT.opt_str expanded_url);
                      ("status", VStr "success")]))
     else
       ret (dict_set results service_name
              (VDict [("status", VStr "failed");
                      ("status_code", VInt (resp_status_code response))])))
    (fun e =>
       ret (dict_set results service_name
              (VDict [("status", VStr "error"); ("error", VStr e)]))).

(** [URLExpanderService.search] *)
Definition expand (query query_type : string) : M Result :=
  results <- for_each expanders (expand_with query) [] ;;
  ret (mkResult (BaseOSINTService.name url_expander) query query_type
         (existsb UtilityOSINT.status_success (dict_values results))
         [("results", VDict results)] None None).

Definition image_services : list (string * string) :=
  [("google", "https://www.google.com/searchbyimage?&image_url={}");
   ("yandex", "https://yandex.com/images/search?source=collections&rpt=imageview&url={}");
   ("tineye", "https://www.tineye.com/search/?url={}");
   ("bing", "https://www.bing.com/images/search?view=detailv2&iss=sbi&form=SBIIRP&sbisrc=UrlPaste&q=imgurl:{}");
   ("baidu", "https://graph.baidu.com/details?isfromtusoupc=1tn=pc&carousel=0&image={}")].

Definition _analyze_image_results (service : string) (response : Response)
  : M bool :=
  if String.eqb service "google" then
    found <- lift (google_results (resp_text response)) ;;
    ret (Nat.ltb 0 found)
  else if String.eqb service "yandex" then
    ret (PyStr.contains "serp-item" (resp_text response))
  else if String.eqb service "tineye" then
    ret (PyStr.contains "match" (PyStr.lower (resp_text response)))
  else if String.eqb service "bing" then
    ret (PyStr.contains "imgres" (resp_text response))
  else if String.eqb service "baidu" then
    ret (PyStr.contains "graph" (resp_text response))
  else ret false.

(** One round of the loop of [ImageAnalysisService.search]. *)
Definition reverse_with (query : string) (results : Dict)
    (entry : string * string) : M Dict :=
  let (service_name, url_template) := entry in
  try_except
    (quoted <- lift (quote query) ;;
     let url := PyStr.format1 url_template quoted in
     response <- _make_request image_analysis url "GET" ;;
     let ok := Z.eqb (resp_status_code response) 200 in
     results_found <-
       (if ok then _analyze_image_results service_name response
        else ret false) ;;
     ret (dict_set results service_name
            (VDict [("search_url", VStr url);
                    ("status_code", VInt (resp_status_code response));
                    ("accessible", VBool ok);
                    ("results_found", VBool results_found)])))
    (fun e =>
       ret (dict_set results service_name
              (VDict [("status", VStr "error"); ("error", VStr e)]))).

(** [ImageAnalysisService.search] *)
Definition reverse_image (query query_type : string) : M Result :=
  results <- for_each image_services (reverse_with query) [] ;;
  ret (mkResult (BaseOSINTService.name image_analysis) query query_type
         (existsb (fun r => get_flag r "accessible") (dict_values results))
         [("services", VDict results)] None None).

(** [SocialMediaService.search_gab] and [search_tiktok] differ in the
    label, the address and the page reader. *)
Definition search_profile (label url : string)
    (read : string -> exn + Dict) (username : string) : M Result :=
  try_except
    (response <- _make_request social_media url "GET" ;;
     if Z.eqb (resp_status_code response) 200 then
       profile_data <- lift (read (resp_text response)) ;;
       ret (mkResult label username "username" true profile_data None None)
     else
       ret (mkResult label username "username" false []
              (Some ("Profile not found (HTTP " ++
                     PyStr.str_of_int (resp_status_code response) ++ ")"))
              None))
    (fun e =>
       ret (mkResult label username "username" false [] (Some e) None)).

Definition search_gab (username : string) : M Result :=
  search_profile "Gab" ("https://gab.com/" ++ username)
    _extract_gab_profile username.

Definition search_tiktok (username : string) : M Result :=
  search_profile "TikTok" ("https://www.tiktok.com/@" ++ username)
    _extract_tiktok_profile username.

(** [SocialMediaService.search] *)
Definition search (query query_type : string) : M Result :=
  if String.eqb query_type "gab_username" then search_gab query
  else if String.eqb query_type "tiktok_username" then search_tiktok query
  else
    ret (mkResult (BaseOSINTService.name social_media) query query_type false []
           (Some "Unsupported query type") None).

Definition _looks_like_url (query : string) : bool :=
  (PyStr.startswith query "http://" || PyStr.startswith query "https://") ||
  PyStr.contains "bit.ly" query || PyStr.contains "tinyurl" query.

Definition _looks_like_image_url (query : string) : bool :=
  (PyStr.startswith query "http://" || PyStr.startswith query "https://") &&
  existsb (fun ext => PyStr.endswith (PyStr.lower query) ext)
    [".jpg"; ".jpeg"; ".png"; ".gif"; ".webp"].

(** One round of the loop of [OSINTSearchEngine.search_all]. *)
Definition search_kind (query : string) (results : list Result)
    (query_type : string) : M (list Result) :=
  if String.eqb query_type "url_expand" && _looks_like_url query then
    r <- expand query "expand" ;; ret (results ++ [r])%list
  else if String.eqb query_type "reverse_image" &&
          _looks_like_image_url query then
    r <- reverse_image query "reverse_image" ;; ret (results ++ [r])%list
  else if String.eqb query_type "username" then
    gab <- search_gab query ;;
    tiktok <- search_tiktok query ;;
    ret (results ++ [gab; tiktok])%list
  else ret results.

Definition search_all (query : string) (query_types : option (list string))
  : M (list Result) :=
  let query_types :=
    match query_types with
    | None => ["url_expand"; "reverse_image"; "username"]
    | Some l => l
    end in
  for_each query_types (search_kind query) [].

Record ReportSummary : Type := {
    total_searches : nat;
    successful_searches : nat;
    failed_searches : nat
  }.

Record ReportFinding : Type := {
    finding_service : string;
    finding_query : string;
    finding_type : string;
    finding_data : Dict
  }.

Record Report : Type := {
    summary : ReportSummary;
    results_by_service : list (string * list Result);
    findings : list ReportFinding
  }.

Fixpoint add_result (by_service : list (string * list Result))
    (result : Result) : list (string * list Result) :=
  match by_service with
  | [] => [(service result, [result])]
  | (k, listed) :: rest =>
      if String.eqb (service result) k
      then (k, (listed ++ [result])%list) :: rest
      else (k, listed) :: add_result rest result
  end.

(** One round of the loop of [generate_report]. *)
Definition file_result (report : Report) (result : Result) : Report :=
  {| summary := summary report;
     results_by_service := add_result (results_by_service report) result;
     findings :=
       if success result &&
          match data result with [] => false | _ :: _ => true end
       then (findings report ++
             [{| finding_service := service result;
                 finding_query := query result;
                 finding_type := query_type result;
                 finding_data := data result |}])%list
       else findings report |}.

Definition generate_report (results : list Result) : Report :=
  fold_left file_result results
    {| summary :=
         {| total_searches := List.length results;
            successful_searches :=
              ComprehensiveOSINTEngine.count_if success results;
            failed_searches :=
              ComprehensiveOSINTEngine.count_if (fun r => negb (success r))
                results |};
       results_by_service := [];
       findings := [] |}.

(** The labels of the results of a kind of search, for a query. *)
Definition labels_of (query query_type : string) : list string :=
  if String.eqb query_type "url_expand" && _looks_like_url query
  then ["URLExpander"]
  else if String.eqb query_type "reverse_image" && _looks_like_image_url query
  then ["ImageAnalysis"]
  else if String.eqb query_type "username" then ["Gab"; "TikTok"]
  else [].

End Def.
End Framework.

(** ** More worlds to run the model in *)

Module DemoFramework.
Import Py Runtime Demo.

(** Page readers that find nothing. *)
#[export] Instance blank : Framework.Pages :=
  {| Framework.quote := fun s => inr s;
     Framework._parse_expansion_response := fun _ _ => inr None;
     Framework.google_results := fun _ => inr 0;
     Framework._extract_gab_profile := fun _ => inr [];
     Framework._extract_tiktok_profile := fun _ => inr [] |}.

(** A world in which the social service already holds a browser. *)
Definition w_browser : World :=
  {| trace := [];
     services := fun _ => {| last_request := 0%Z; driver := true |} |}.

End DemoFramework.

Module DemoOnline.
Import Py Runtime Demo.

(** A network where every request is answered with status 200 and the same
    short page, and where no browser can be started. *)
#[export] Instance online : @Outside seconds :=
  {| time_at := fun tr => Z.of_nat (List.length tr);
     now_at := fun _ => "2024-01-01T00:00:00";
     uniform_at := fun _ => 1%Z;
     request_at := fun _ _ url =>
       inr {| resp_status_code := 200;
              resp_text := "12 contributions, 3 followers";
              resp_url := url |};
     chrome_at := fun _ => inl "chrome not found";
     browse_at := fun _ _ => inl "no driver" |}.

(** A library whose [quote] raises, as [urllib.parse.quote] does on a query
    that holds a lone surrogate. *)
Definition refusing : @Library seconds :=
  {| quote := fun _ => inl "'utf-8' codec can't encode character";
     _extract_gab_data := fun _ _ => inr [];
     _extract_tiktok_data := fun _ _ => inr [];
     reddit_profile_fields := fun _ => inr [];
     _parse_expansion_response := fun _ _ _ => inr None;
     str_of_dict := fun _ => "{}" |}.

End DemoOnline.

(** ** What a report of the first framework holds *)

Module FrameworkReporting.
Import Py.

Section Def.
Context `{FL : Floats}.

(** A result that [generate_report] files as a finding: a success with
    data. *)
Definition with_data (r : Framework.Result) : bool :=
  Framework.success r &&
  match Framework.data r with
  | [] => false
  | _ :: _ => true
  end.

End Def.
End FrameworkReporting.

(** * Properties *)

(** ** Strings *)

Module PyStrFacts.
Import PyStr.

Lemma all_chars_weaken (p q : ascii -> bool) (s : string) :
  (forall c, p c = true -> q c = true) ->
  all_chars p s = true -> all_chars q s = true.
Proof.
  intros Hpq. induction s as [|c s IH]; simpl; [reflexivity|].
  intros H. apply andb_prop in H as [Hc Hs].
  rewrite (Hpq _ Hc), (IH Hs). reflexivity.
Qed.

Lemma all_chars_match_plus_tail (cls : ascii -> bool) (s : string) :
  all_chars cls s = true -> match_plus_tail cls s = true.
Proof.
  induction s as [|c s IH]; simpl; [reflexivity|].
  intros H. apply andb_prop in H as [Hc Hs]. rewrite Hc. auto.
Qed.

Lemma all_chars_match_plus (cls : ascii -> bool) (s : string) :
  1 <= String.length s -> all_chars cls s = true -> match_plus cls s = true.
Proof.
  destruct s as [|c s]; simpl; [lia|].
  intros _ H. apply andb_prop in H as [Hc Hs].
  rewrite Hc, (all_chars_match_plus_tail _ _ Hs). reflexivity.
Qed.

Lemma all_chars_mem_char (p : ascii -> bool) (c : ascii) (s : string) :
  p c = false -> all_chars p s = true -> mem_char c s = false.
Proof.
  intros Hc. induction s as [|b s IH]; simpl; [reflexivity|].
  intros H. apply andb_prop in H as [Hb Hs].
  rewrite (IH Hs), orb_false_r.
  destruct (Ascii.eqb_spec c b) as [->|]; [congruence|reflexivity].
Qed.

(** A needle can only occur where its first character does. *)
Lemma contains_mem_char (c : ascii) (needle s : string) :
  mem_char c s = false -> contains (String c needle) s = false.
Proof.
  induction s as [|b s IH]; simpl; [reflexivity|].
  intros H. apply orb_false_elim in H as [Hb Hs].
  rewrite Hb, (IH Hs). reflexivity.
Qed.

Lemma startswith_first (p : ascii -> bool) (c : ascii) (pre s : string) :
  p c = false -> all_chars p s = true -> startswith s (String c pre) = false.
Proof.
  intros Hc. destruct s as [|b s]; simpl; [reflexivity|].
  intros H. apply andb_prop in H as [Hb _].
  destruct (Ascii.eqb_spec c b) as [->|]; [congruence|reflexivity].
Qed.

Lemma digit_is_username_char (c : ascii) :
  is_digit c = true -> is_username_char c = true.
Proof.
  unfold is_digit, is_username_char. intros ->.
  rewrite orb_true_r. reflexivity.
Qed.

(** [match_count] reads exactly [n] class characters and then the end. *)
Lemma match_count_shape (cls : ascii -> bool) (n : nat) (s : string) :
  match_count cls n s = true ->
  exists body rest,
    s = body ++ rest /\ String.length body = n /\
    all_chars cls body = true /\ at_dollar rest = true.
Proof.
  revert s. induction n as [|n IH]; intros s; simpl.
  - intros H. exists EmptyString, s. auto.
  - destruct s as [|c s]; [discriminate|].
    intros H. apply andb_prop in H as [Hc Hs].
    destruct (IH _ Hs) as (body & rest & -> & Hlen & Hall & Hend).
    exists (String c body), rest. simpl. rewrite Hc, Hall, Hlen. auto.
Qed.

Lemma match_plus_tail_app (cls : ascii -> bool) (body rest : string) :
  all_chars cls body = true -> at_dollar rest = true ->
  cls newline = false ->
  match_plus_tail cls (body ++ rest) = true.
Proof.
  intros Hall Hend Hnl. induction body as [|c body IH]; simpl in *.
  - destruct rest as [|c [|c' rest]]; simpl in *; try discriminate; auto.
    destruct (Ascii.eqb_spec c newline) as [->|]; [|discriminate].
    rewrite Hnl. reflexivity.
  - apply andb_prop in Hall as [Hc Hs]. rewrite Hc. auto.
Qed.

Lemma at_dollar_length (rest : string) :
  at_dollar rest = true -> String.length rest <= 1.
Proof.
  destruct rest as [|c [|c' rest]]; simpl; intros; try discriminate; lia.
Qed.

Lemma at_dollar_all_chars (p : ascii -> bool) (rest : string) :
  p newline = true -> at_dollar rest = true -> all_chars p rest = true.
Proof.
  destruct rest as [|c [|c' rest]]; simpl; intros Hp H; try discriminate; auto.
  destruct (Ascii.eqb_spec c newline) as [->|]; [|discriminate].
  rewrite Hp. reflexivity.
Qed.

Lemma all_chars_app (p : ascii -> bool) (a b : string) :
  all_chars p (a ++ b) = all_chars p a && all_chars p b.
Proof.
  induction a as [|c a IH]; simpl; [reflexivity|].
  rewrite IH, andb_assoc. reflexivity.
Qed.

Lemma length_app (a b : string) :
  String.length (a ++ b) = String.length a + String.length b.
Proof. induction a as [|c a IH]; simpl; [reflexivity|]. now rewrite IH. Qed.

End PyStrFacts.

(** ** The classifier *)

Module ClassifierFacts.
Import PyStr PyStrFacts Classifier.

(** A string without [h] and without a dot is no URL. *)
Lemma not_url (p : ascii -> bool) (q : string) :
  p "h"%char = false -> p "."%char = false ->
  all_chars p q = true -> _is_url q = false.
Proof.
  intros Hh Hdot Hall. unfold _is_url, any_in. simpl.
  rewrite !(startswith_first p) by assumption.
  rewrite !contains_mem_char by (apply (all_chars_mem_char p); assumption).
  reflexivity.
Qed.

Lemma username_branch (q : string) :
  _is_url q = false -> _looks_like_username q = true ->
  _determine_search_types q = ["social_username"; "bulk_username"].
Proof.
  intros Hurl Hname. unfold _determine_search_types.
  rewrite Hurl, Hname. reflexivity.
Qed.

Lemma looks_like_username_intro (q : string) :
  2 <= String.length q -> String.length q <= 30 ->
  all_chars is_username_char q = true -> _is_url q = false ->
  _looks_like_username q = true.
Proof.
  intros Hlo Hhi Hall Hurl. unfold _looks_like_username.
  rewrite Hurl, (all_chars_match_plus _ q) by (assumption || lia).
  apply Nat.leb_le in Hlo, Hhi. rewrite Hlo, Hhi. reflexivity.
Qed.

(** Whatever the trainer-code pattern accepts is already taken by the
    username branch: on strings of code points below 256 the trainer-code
    branch cannot be reached. *)
Lemma trainer_code_is_username (q : string) :
  looks_like_trainer_code q = true ->
  _is_url q = false /\ _looks_like_username q = true.
Proof.
  unfold looks_like_trainer_code. intros H.
  destruct (match_count_shape _ _ _ H) as (body & rest & -> & Hlen & Hall & Hend).
  assert (Hurl : _is_url (body ++ rest) = false).
  { apply (not_url digit_or_newline); try reflexivity.
    rewrite all_chars_app.
    rewrite (all_chars_weaken is_digit digit_or_newline body), at_dollar_all_chars;
      auto.
    intros c Hc. unfold digit_or_newline. now rewrite Hc. }
  split; [exact Hurl|].
  unfold _looks_like_username. rewrite Hurl.
  pose proof (at_dollar_length _ Hend) as Hrest.
  assert (Hchars : all_chars is_username_char body = true)
    by (apply (all_chars_weaken is_digit); auto using digit_is_username_char).
  replace (match_plus is_username_char (body ++ rest)) with true.
  - rewrite length_app, Hlen.
    replace (Nat.leb 2 (12 + String.length rest)) with true
      by (symmetry; apply Nat.leb_le; lia).
    replace (Nat.leb (12 + String.length rest) 30) with true
      by (symmetry; apply Nat.leb_le; lia).
    reflexivity.
  - symmetry. destruct body as [|c body]; [discriminate|].
    simpl in *. apply andb_prop in Hchars as [Hc Hs]. rewrite Hc. simpl.
    apply match_plus_tail_app; auto.
Qed.

Lemma trainer_code_tag_never_returned (q : string) :
  ~ In "utility_pokemon_go_trainer_code" (_determine_search_types q).
Proof.
  unfold _determine_search_types.
  destruct (_is_url q) eqn:Hurl.
  - destruct (_is_shortened_url q), (_is_image_url q); simpl;
      intros H; repeat (destruct H as [H|H]; [discriminate|]); exact H.
  - destruct (_looks_like_username q) eqn:Hname.
    + simpl. intros H; repeat (destruct H as [H|H]; [discriminate|]); exact H.
    + destruct (looks_like_email q).
      * simpl. intros H; repeat (destruct H as [H|H]; [discriminate|]); exact H.
      * destruct (looks_like_trainer_code q) eqn:Hcode.
        -- destruct (trainer_code_is_username q Hcode). congruence.
        -- simpl. intros H; repeat (destruct H as [H|H]; [discriminate|]); exact H.
Qed.

(** C2.  A query of exactly twelve ASCII digits is classified as a username:
    the result is the social-username and bulk-username tags, and not the
    trainer-code tag the claim asks for. *)
Theorem twelve_digits_classified_as_username (q : string) :
  String.length q = 12 -> all_chars is_digit q = true ->
  _determine_search_types q = ["social_username"; "bulk_username"].
Proof.
  intros Hlen Hall.
  assert (Hurl : _is_url q = false)
    by (apply (not_url is_digit); auto).
  apply username_branch; [exact Hurl|].
  apply looks_like_username_intro; try lia; auto.
  apply (all_chars_weaken is_digit); auto using digit_is_username_char.
Qed.

Lemma twelve_digits_classified_as_username_witness :
  _determine_search_types "123456789012" = ["social_username"; "bulk_username"].
Proof.
  apply (twelve_digits_classified_as_username "123456789012"); reflexivity.
Defined.

(** C3, as amended.  A query that the engine takes for a URL, that names a
    short-link host and that ends in an image extension gets both the
    URL-expansion tag and the image-analysis tag, in this order. *)
Theorem short_image_url_gets_both_tags (q : string) :
  _is_url q = true -> _is_shortened_url q = true -> _is_image_url q = true ->
  _determine_search_types q = ["utility_url_expansion"; "image_analysis"].
Proof.
  intros Hurl Hshort Himg. unfold _determine_search_types.
  rewrite Hurl, Hshort, Himg. reflexivity.
Qed.

Lemma short_image_url_gets_both_tags_witness :
  _determine_search_types "https://bit.ly/a.jpg" =
  ["utility_url_expansion"; "image_analysis"].
Proof.
  apply (short_image_url_gets_both_tags "https://bit.ly/a.jpg"); reflexivity.
Defined.

(** C3, as stated, fails: a shortened URL that ends in an image extension is
    not given the URL-expansion tag alone. *)
Lemma short_image_url_not_expansion_only :
  _is_shortened_url "https://bit.ly/a.jpg" = true /\
  _is_url "https://bit.ly/a.jpg" = true /\
  _is_image_url "https://bit.ly/a.jpg" = true /\
  _determine_search_types "https://bit.ly/a.jpg" <> ["utility_url_expansion"].
Proof. repeat split; try reflexivity. discriminate. Qed.

(** C4.  A query of 2 to 30 characters of [[A-Za-z0-9_.-]] that is not a URL
    gets exactly the social-username and bulk-username tags. *)
Theorem username_shape_tags (q : string) :
  2 <= String.length q -> String.length q <= 30 ->
  all_chars is_username_char q = true -> _is_url q = false ->
  _determine_search_types q = ["social_username"; "bulk_username"].
Proof.
  intros Hlo Hhi Hall Hurl.
  apply username_branch; [exact Hurl|].
  now apply looks_like_username_intro.
Qed.

Lemma username_shape_tags_witness :
  _determine_search_types "testuser" = ["social_username"; "bulk_username"].
Proof.
  apply (username_shape_tags "testuser"); simpl; try lia; reflexivity.
Defined.

(** C10.  The classifier never returns the empty list; when no rule yields a
    tag, be it for a URL that is neither shortened nor an image or for a
    query that no branch takes, the result is the social-username and
    bulk-username tags. *)
Theorem classifier_never_empty (q : string) :
  _determine_search_types q <> [] /\
  (_is_url q = true -> _is_shortened_url q = false ->
   _is_image_url q = false ->
   _determine_search_types q = ["social_username"; "bulk_username"]) /\
  (_is_url q = false -> _looks_like_username q = false ->
   looks_like_email q = false -> looks_like_trainer_code q = false ->
   _determine_search_types q = ["social_username"; "bulk_username"]).
Proof.
  unfold _determine_search_types. repeat split.
  - destruct (_is_url q), (_is_shortened_url q), (_is_image_url q),
      (_looks_like_username q), (looks_like_email q),
      (looks_like_trainer_code q); discriminate.
  - intros -> -> ->. reflexivity.
  - intros -> -> -> ->. reflexivity.
Qed.

Lemma classifier_never_empty_witness :
  _determine_search_types "https://example.com/" <> [] /\
  _determine_search_types "https://example.com/" =
    ["social_username"; "bulk_username"] /\
  _determine_search_types "a b" = ["social_username"; "bulk_username"].
Proof.
  pose proof (classifier_never_empty "https://example.com/") as (H1 & H2 & _).
  pose proof (classifier_never_empty "a b") as (_ & _ & H3).
  split; [exact H1|]. split; [apply H2; reflexivity | apply H3; reflexivity].
Defined.

End ClassifierFacts.

(** ** The fetcher *)

Module FetcherFacts.
Import Py Runtime EnhancedSession.

Section Facts.
Context `{FL : Floats} `{OUT : @Outside FL}.

(** C7.  [make_request] issues between one and three requests.  Every
    request but the last one raised, and what the last one did is what the
    caller gets: its response, or, after the third failure, its error. *)
Theorem make_request_bounded_retry (url method : string) (w : World) :
  exists (failed : list exn) (last : exn + Response),
    fst (make_request url method w) = last /\
    request_answers (trace (snd (make_request url method w))) =
      (request_answers (trace w) ++ map inl failed ++ [last])%list /\
    network_calls (trace (snd (make_request url method w))) =
      (network_calls (trace w) ++
       repeat (EvRequest method url) (S (List.length failed)))%list /\
    List.length failed <= 2 /\
    (forall e, last = inl e -> List.length failed = 2).
Proof.
  unfold make_request, max_retries. simpl.
  unfold try_except, bind, session_request, ret, raise, _update_headers,
    random_uniform, time_sleep, ask, emit. simpl.
  destruct (request_at (trace w) method url) as [e0|r0] eqn:E0; simpl.
  2:{ exists [], (inr r0). simpl. rewrite E0. repeat split; auto; intros e H; discriminate. }
  set (t1 := EvUserAgent
             :: EvSleep (uniform_at (EvRequest method url :: trace w))
             :: EvUniform 1 3 :: EvRequest method url :: trace w).
  destruct (request_at t1 method url) as [e1|r1] eqn:E1; simpl.
  2:{ exists [e0], (inr r1). subst t1. simpl. rewrite E0, E1, <- !app_assoc.
      repeat split; auto; intros e H; discriminate. }
  set (t2 := EvUserAgent
             :: EvSleep (uniform_at (EvRequest method url :: t1))
             :: EvUniform 1 3 :: EvRequest method url :: t1).
  destruct (request_at t2 method url) as [e2|r2] eqn:E2; simpl.
  - exists [e0; e1], (inl e2). subst t2 t1. simpl.
    rewrite E0, E1, E2, <- !app_assoc. repeat split; auto.
  - exists [e0; e1], (inr r2). subst t2 t1. simpl.
    rewrite E0, E1, E2, <- !app_assoc. repeat split; auto.
Qed.

End Facts.
End FetcherFacts.

(** ** Extractors and query types *)

Module ExtractorFacts.
Import Py Runtime.

Section Facts.
Context `{FL : Floats} `{OUT : @Outside FL} `{LIB : @Library FL}.

Lemma eqb_neq_false (a b : string) : a <> b -> String.eqb a b = false.
Proof. intros H. now apply String.eqb_neq. Qed.

(** C8, as amended.  Gab and TikTok accept [username] and [hashtag], the
    utility service accepts [url_expansion] and whatever starts with
    [pokemon_go], SULTAN accepts [bulk_username_check].  Any other query type
    is answered with a failed result and without a network request; the
    error is "Unsupported query type" for Gab, TikTok and the utility
    service, and "Unsupported query type for SULTAN" for SULTAN. *)
Theorem unsupported_query_type_rejected (query query_type : string) (w : World) :
  (query_type <> "username" -> query_type <> "hashtag" ->
   rejects_offline (SocialMediaOSINT.search_gab query query_type) w
     "Gab" query query_type "Unsupported query type") /\
  (query_type <> "username" -> query_type <> "hashtag" ->
   rejects_offline (SocialMediaOSINT.search_tiktok query query_type) w
     "TikTok" query query_type "Unsupported query type") /\
  (query_type <> "url_expansion" ->
   PyStr.startswith query_type "pokemon_go" = false ->
   rejects_offline (UtilityOSINT.search query query_type) w
     "UtilityOSINT" query query_type "Unsupported query type") /\
  (query_type <> "bulk_username_check" ->
   rejects_offline (SULTANFramework.search query query_type) w
     "SULTAN" query query_type "Unsupported query type for SULTAN").
Proof.
  repeat split.
  - intros Hu Hh. unfold rejects_offline, SocialMediaOSINT.search_gab.
    rewrite (eqb_neq_false _ _ Hu), (eqb_neq_false _ _ Hh).
    eexists; eexists. split; [reflexivity|]. split; [|reflexivity].
    repeat split.
  - intros Hu Hh. unfold rejects_offline, SocialMediaOSINT.search_tiktok.
    rewrite (eqb_neq_false _ _ Hu), (eqb_neq_false _ _ Hh).
    eexists; eexists. split; [reflexivity|]. split; [|reflexivity].
    repeat split.
  - intros Hx Hp. unfold rejects_offline, UtilityOSINT.search.
    rewrite (eqb_neq_false _ _ Hx), Hp.
    eexists; eexists. split; [reflexivity|]. split; [|reflexivity].
    repeat split.
  - intros Hb. unfold rejects_offline, SULTANFramework.search.
    rewrite (eqb_neq_false _ _ Hb).
    eexists; eexists. split; [reflexivity|]. split; [|reflexivity].
    repeat split.
Qed.

End Facts.

Import Demo.

Lemma unsupported_query_type_rejected_witness :
  rejects_offline (SocialMediaOSINT.search_gab "octocat" "followers") w0
    "Gab" "octocat" "followers" "Unsupported query type" /\
  rejects_offline (SocialMediaOSINT.search_tiktok "octocat" "followers") w0
    "TikTok" "octocat" "followers" "Unsupported query type" /\
  rejects_offline (UtilityOSINT.search "octocat" "followers") w0
    "UtilityOSINT" "octocat" "followers" "Unsupported query type" /\
  rejects_offline (SULTANFramework.search "octocat" "followers") w0
    "SULTAN" "octocat" "followers" "Unsupported query type for SULTAN".
Proof.
  destruct (unsupported_query_type_rejected "octocat" "followers" w0)
    as (Hgab & Htiktok & Hutil & Hsultan).
  split; [apply Hgab; discriminate|].
  split; [apply Htiktok; discriminate|].
  split; [apply Hutil; [discriminate | reflexivity]|].
  apply Hsultan; discriminate.
Defined.

(** C8, as stated, fails: SULTAN does not accept [followers], and the result
    it answers with carries another error message than "Unsupported query
    type". *)
Lemma sultan_rejects_with_other_message :
  exists r w',
    SULTANFramework.search "octocat" "followers" w0 = (inr r, w') /\
    "followers" <> "bulk_username_check" /\
    OSINTResult.success r = false /\
    OSINTResult.error r <> Some "Unsupported query type".
Proof.
  eexists; eexists. split; [reflexivity|].
  split; [discriminate|]. split; [reflexivity|]. discriminate.
Qed.

End ExtractorFacts.

(** ** The dispatcher *)

Module DispatchFacts.
Import Py Runtime ComprehensiveOSINTEngine.

Section Facts.
Context `{FL : Floats} `{OUT : @Outside FL}.

(** What a search type adds does not depend on what was collected before. *)
Lemma dispatch_acc (self : Services) (query : string)
    (acc : list OSINTResult.t) (search_type : string) (w : World) :
  dispatch self query acc search_type w =
  match dispatch self query [] search_type w with
  | (inr found, w1) => (inr (acc ++ found)%list, w1)
  | (inl e, w1) => (inl e, w1)
  end.
Proof.
  unfold dispatch.
  destruct (PyStr.startswith search_type "social_").
  { unfold bind. destruct (social_media self query search_type w) as [[e|[l|r]] w1];
      reflexivity. }
  destruct (String.eqb search_type "image_analysis").
  { unfold bind. destruct (image_analysis self query w) as [[e|r] w1]; reflexivity. }
  destruct (PyStr.startswith search_type "utility_").
  { unfold bind.
    destruct (utilities self query _ w) as [[e|r] w1]; reflexivity. }
  destruct (String.eqb search_type "bulk_username").
  { unfold bind. destruct (sultan self query w) as [[e|r] w1]; reflexivity. }
  unfold ret. now rewrite app_nil_r.
Qed.

Lemma search_loop (self : Services) (query : string) (tags : list string) :
  forall (acc : list OSINTResult.t) (w : World),
  exists batch w',
    for_each tags (search_one self query) acc w = (inr (acc ++ batch)%list, w') /\
    Batch self query w tags batch w'.
Proof.
  induction tags as [|t tags IH]; intros acc w; simpl.
  - exists [], w. rewrite app_nil_r. split; [reflexivity | constructor].
  - unfold bind at 1. unfold search_one at 1. unfold try_except.
    rewrite dispatch_acc.
    destruct (dispatch self query [] t w) as [[e|found] w1] eqn:Hd.
    + unfold bind at 1. simpl.
      destruct (IH acc
                  (snd (logger "ERROR"
                          ("Error in search type " ++ t ++ ": " ++ e) w1)))
        as (batch & w' & Hrun & Hbatch).
      exists batch, w'. split; [exact Hrun|].
      eapply Batch_raised; eassumption.
    + destruct (IH (acc ++ found)%list w1) as (batch & w' & Hrun & Hbatch).
      exists (found ++ batch)%list, w'. rewrite app_assoc.
      split; [exact Hrun|].
      eapply Batch_returned; eassumption.
Qed.

(** The body of the [try] makes the service call of the search type, if
    there is one, and appends the entries of that call. *)
Lemma dispatch_call (self : Services) (query : string)
    (acc : list OSINTResult.t) (search_type : string) (w : World) :
  dispatch self query acc search_type w =
  match Isolation.service_call self query search_type with
  | None => (inr acc, w)
  | Some call =>
      match call w with
      | (inr found, w1) => (inr (acc ++ found)%list, w1)
      | (inl e, w1) => (inl e, w1)
      end
  end.
Proof.
  unfold dispatch, Isolation.service_call.
  destruct (PyStr.startswith search_type "social_").
  { unfold bind.
    destruct (social_media self query search_type w) as [[e|[l|r]] w1];
      reflexivity. }
  destruct (String.eqb search_type "image_analysis").
  { unfold bind. destruct (image_analysis self query w) as [[e|r] w1]; reflexivity. }
  destruct (PyStr.startswith search_type "utility_").
  { unfold bind. destruct (utilities self query _ w) as [[e|r] w1]; reflexivity. }
  destruct (String.eqb search_type "bulk_username").
  { unfold bind. destruct (sultan self query w) as [[e|r] w1]; reflexivity. }
  reflexivity.
Qed.

Lemma isolated_loop (self : Services) (query : string) (tags : list string) :
  forall (acc : list OSINTResult.t) (w : World),
  exists batch w',
    for_each tags (search_one self query) acc w = (inr (acc ++ batch)%list, w') /\
    Isolation.Isolated self query w tags batch w'.
Proof.
  induction tags as [|t tags IH]; intros acc w; simpl.
  - exists [], w. rewrite app_nil_r. split; [reflexivity | constructor].
  - unfold bind at 1. unfold search_one at 1. unfold try_except.
    rewrite dispatch_call.
    destruct (Isolation.service_call self query t) as [call|] eqn:Hcall.
    + destruct (call w) as [[e|found] w1] eqn:Hrun.
      * unfold bind at 1. simpl.
        destruct (IH acc (Isolation.logged_failure t e w1))
          as (batch & w' & Hloop & Hbatch).
        exists batch, w'. split; [exact Hloop|].
        eapply Isolation.Isolated_raised; eassumption.
      * destruct (IH (acc ++ found)%list w1) as (batch & w' & Hloop & Hbatch).
        exists (found ++ batch)%list, w'. rewrite app_assoc.
        split; [exact Hloop|].
        eapply Isolation.Isolated_returned; eassumption.
    + destruct (IH acc w) as (batch & w' & Hloop & Hbatch).
      exists batch, w'. split; [exact Hloop|].
      now apply Isolation.Isolated_no_service.
Qed.

(** C1, as amended.  No exception of a service call leaves
    [search_comprehensive]: the call returns a batch.  A search type whose
    service call raises adds no entry to the batch and its error is logged;
    every other search type adds the entries that its service returned (the
    social service, the image service, the utility service or SULTAN, each
    called as [Isolation.service_call] says), in the order of the search
    types. *)
Theorem search_comprehensive_isolates_failures (self : Services)
    (query : string) (tags : list string) (w : World) :
  exists batch w',
    search_comprehensive self query (Some tags) w = (inr batch, w') /\
    Isolation.Isolated self query w tags batch w'.
Proof.
  unfold search_comprehensive.
  destruct (isolated_loop self query tags [] w) as (batch & w' & Hrun & Hbatch).
  exists batch, w'. split; assumption.
Qed.

(** C5.  With no search types the batch is empty, no exception is raised and
    nothing happens in the world. *)
Theorem search_comprehensive_no_tags (self : Services) (query : string)
    (w : World) :
  search_comprehensive self query (Some []) w = (inr [], w).
Proof. reflexivity. Qed.

End Facts.

Import Demo.

(** C1, as stated, fails: the image service raises, the batch holds the one
    entry of the other search type, and no failed entry stands for the image
    service. *)
Lemma search_comprehensive_drops_failed_extractor :
  fst (image_analysis broken_image_engine "octocat" w0) =
    inl "image service crashed" /\
  fst (search_comprehensive broken_image_engine "octocat"
         (Some ["image_analysis"; "bulk_username"]) w0) =
    inr [found_octocat] /\
  forallb OSINTResult.success [found_octocat] = true.
Proof. repeat split. Qed.

End DispatchFacts.

(** ** The report *)

Module ReportFacts.
Import Py Runtime ComprehensiveOSINTEngine.

Section Facts.
Context `{FL : Floats} `{OUT : @Outside FL} `{LIB : @Library FL}
        `{SER : @Serializers FL Report}.

Lemma count_if_from {A} (p : A -> bool) (l : list A) (n : nat) :
  fold_left (fun acc r => if p r then acc + 1 else acc) l n =
  n + List.length (filter p l).
Proof.
  revert n. induction l as [|r l IH]; intros n; simpl; [lia|].
  rewrite IH. destruct (p r); simpl; lia.
Qed.

Lemma count_if_filter {A} (p : A -> bool) (l : list A) :
  count_if p l = List.length (filter p l).
Proof. unfold count_if. now rewrite count_if_from. Qed.

Lemma filter_split {A} (p : A -> bool) (l : list A) :
  List.length (filter p l) + List.length (filter (fun r => negb (p r)) l) =
  List.length l.
Proof.
  induction l as [|r l IH]; simpl; [reflexivity|].
  destruct (p r); simpl; lia.
Qed.

Lemma organize_summary (report : Report) (result : OSINTResult.t) :
  search_summary (organize report result) = search_summary report.
Proof.
  unfold organize.
  destruct (OSINTResult.success result && _); reflexivity.
Qed.

Lemma organize_all_summary (results : list OSINTResult.t) (report : Report) :
  search_summary (fold_left organize results report) = search_summary report.
Proof.
  revert report. induction results as [|r results IH]; intros report; simpl.
  - reflexivity.
  - now rewrite IH, organize_summary.
Qed.

(** C6.  The summary of the report counts the results, the successful ones
    and the failed ones, the last two adding up to the first, and sums the
    response times; the report of no results has three zero counts and no
    grouping by service. *)
Theorem report_summary_counts :
  (forall (results : list OSINTResult.t) (w : World),
     exists report w',
       generate_comprehensive_report results "dict" w = (inr (AsDict report), w') /\
       total_searches (search_summary report) = List.length results /\
       successful_searches (search_summary report) =
         List.length (filter OSINTResult.success results) /\
       failed_searches (search_summary report) =
         List.length (filter (fun r => negb (OSINTResult.success r)) results) /\
       successful_searches (search_summary report) +
         failed_searches (search_summary report) =
         total_searches (search_summary report) /\
       total_response_time (search_summary report) =
         Py.sum (map OSINTResult.response_time results)) /\
  (forall w : World,
     exists report w',
       generate_comprehensive_report [] "dict" w = (inr (AsDict report), w') /\
       total_searches (search_summary report) = 0 /\
       successful_searches (search_summary report) = 0 /\
       failed_searches (search_summary report) = 0 /\
       results_by_service report = []).
Proof.
  split.
  - intros results w. eexists; eexists. split; [reflexivity|].
    rewrite organize_all_summary. simpl.
    rewrite !count_if_filter. repeat split. apply filter_split.
  - intros w. eexists; eexists. split; [reflexivity|]. repeat split.
Qed.

Lemma first_seen_known (seen keys : list string) :
  forallb (fun k => existsb (String.eqb k) seen) keys = true ->
  first_seen seen keys = seen.
Proof.
  induction keys as [|k keys IH]; simpl; [reflexivity|].
  intros H. apply andb_prop in H as [Hk Hks]. rewrite Hk. auto.
Qed.

Lemma csv_rows_keys (results : list OSINTResult.t) :
  forallb (fun k => existsb (String.eqb k) csv_columns)
    (flat_map dict_keys (map csv_row results)) = true.
Proof. induction results as [|r results IH]; simpl; auto. Qed.

Lemma csv_frame (r : OSINTResult.t) (results : list OSINTResult.t) :
  DataFrame_of (map csv_row (r :: results)) =
  {| columns := csv_columns; rows := map csv_cells (r :: results) |}.
Proof.
  unfold DataFrame_of.
  assert (Hcols : first_seen [] (flat_map dict_keys (map csv_row (r :: results)))
                  = csv_columns).
  { simpl. apply first_seen_known, csv_rows_keys. }
  rewrite Hcols, map_map. reflexivity.
Qed.

(** The cells that the code files for a result are those of its row in the
    table: each cell holds the field of the result that its column names. *)
Lemma csv_cells_table_row (result : OSINTResult.t) :
  csv_cells result = Reporting.table_row result.
Proof.
  unfold csv_cells, csv_row, Reporting.table_row, dict_values, dict_keys.
  cbn [map snd].
  destruct (OSINTResult.data result) as [|field data]; reflexivity.
Qed.

Lemma csv_text (r : OSINTResult.t) (results : list OSINTResult.t) :
  _generate_csv_report (r :: results) =
  to_csv {| columns := csv_columns;
            rows := map Reporting.table_row (r :: results) |}.
Proof.
  unfold _generate_csv_report.
  change (map csv_row (r :: results))
    with (csv_row r :: map csv_row results) at 1.
  cbv iota beta.
  change (csv_row r :: map csv_row results) with (map csv_row (r :: results)).
  rewrite csv_frame. do 2 f_equal.
  apply map_ext, csv_cells_table_row.
Qed.

(** C9, as amended.  For a non-empty list of results the report asked for
    as [csv] is the serialization of a table with the nine fixed columns and
    one row per result, in order, where the row of a result holds its
    service, query, query type, success flag, response time, status code,
    error, joined data-field names and timestamp; for the empty list the
    report is the text "No results to export" and no table. *)
Theorem csv_report_table (results : list OSINTResult.t) (w : World) :
  (results <> [] ->
   let table := {| columns := csv_columns;
                   rows := map Reporting.table_row results |} in
   fst (generate_comprehensive_report results "csv" w) =
     inr (AsText (to_csv table)) /\
   _generate_csv_report results = to_csv table /\
   List.length (rows table) = List.length results /\
   Forall (fun row => List.length row = List.length (columns table))
     (rows table)) /\
  fst (generate_comprehensive_report [] "csv" w) =
    inr (AsText "No results to export") /\
  _generate_csv_report [] = "No results to export".
Proof.
  split; [|split; reflexivity].
  intros Hne table. destruct results as [|r results]; [congruence|].
  assert (Htext : _generate_csv_report (r :: results) = to_csv table)
    by apply csv_text.
  split; [|split; [exact Htext|]].
  - unfold generate_comprehensive_report, bind, datetime_now_isoformat, ask, ret.
    cbn [String.eqb Ascii.eqb Bool.eqb fst]. now rewrite Htext.
  - split; [apply length_map|].
    apply Forall_map, Forall_forall. intros; reflexivity.
Qed.

End Facts.

Import Demo.

Lemma csv_report_table_witness :
  fst (generate_comprehensive_report [found_octocat; gab_missing] "csv" w0) =
    inr (AsText
           (to_csv {| columns := csv_columns;
                      rows := map Reporting.table_row
                                [found_octocat; gab_missing] |})) /\
  List.length (map Reporting.table_row [found_octocat; gab_missing]) = 2.
Proof.
  destruct (csv_report_table [found_octocat; gab_missing] w0) as [H _].
  destruct H as (Hreport & _ & Hrows & _); [discriminate|].
  split; [exact Hreport | exact Hrows].
Defined.

(** C9, as stated, fails: for no results the CSV text is a plain message,
    which is the serialization of no table with the fixed columns. *)
Lemma csv_report_empty_is_message :
  _generate_csv_report [] = "No results to export" /\
  forall df : DataFrame,
    columns df = csv_columns -> to_csv df <> _generate_csv_report [].
Proof.
  split; [reflexivity|].
  intros [cols rws] Hcols. simpl in Hcols. subst cols.
  simpl. discriminate.
Qed.

End ReportFacts.

(** ** The model at work *)

Module Runs.
Import Py Runtime Demo ComprehensiveOSINTEngine.

Example classify_testuser :
  Classifier._determine_search_types "testuser" =
  ["social_username"; "bulk_username"].
Proof. vm_compute. reflexivity. Qed.

Example classify_bitly :
  Classifier._determine_search_types "https://bit.ly/example" =
  ["utility_url_expansion"].
Proof. vm_compute. reflexivity. Qed.

Example classify_image :
  Classifier._determine_search_types "https://example.com/image.jpg" =
  ["image_analysis"].
Proof. vm_compute. reflexivity. Qed.

Example classify_email :
  Classifier._determine_search_types "a@b.io" =
  ["social_linkedin_email_lookup"].
Proof. vm_compute. reflexivity. Qed.

Example classify_short_host_without_scheme :
  Classifier._determine_search_types "bit.ly/abc" =
  ["social_username"; "bulk_username"].
Proof. vm_compute. reflexivity. Qed.

Example replace_all : PyStr.replace "aaa" "aa" "b" = "ba".
Proof. vm_compute. reflexivity. Qed.

Example replace_empty_pattern : PyStr.replace "abc" "" "-" = "-a-b-c-".
Proof. vm_compute. reflexivity. Qed.

Example split_tag : PyStr.split "_" "gab_user_name" = ["gab"; "user"; "name"].
Proof. vm_compute. reflexivity. Qed.

Example parse_tags :
  SocialMediaOSINT.parse_tag "social_gab_username" = ("gab", "username") /\
  SocialMediaOSINT.parse_tag "social_username" = ("username", "username") /\
  SocialMediaOSINT.parse_tag "social_linkedin_email_lookup" =
    ("linkedin", "email_lookup") /\
  SocialMediaOSINT.parse_tag "username" = ("all", "username").
Proof. vm_compute. repeat split. Qed.

Example offline_request_gives_up :
  fst (EnhancedSession.make_request "http://x" "GET" w0) =
    inl "connection refused" /\
  trace (snd (EnhancedSession.make_request "http://x" "GET" w0)) =
    [EvRequest "GET" "http://x"; EvUserAgent; EvSleep 1%Z; EvUniform 1 3;
     EvRequest "GET" "http://x"; EvUserAgent; EvSleep 1%Z; EvUniform 1 3;
     EvRequest "GET" "http://x"].
Proof. vm_compute. split; reflexivity. Qed.

Example offline_gab_fails_softly :
  fst (SocialMediaOSINT.search_gab "octocat" "username" w0) =
  inr (OSINTResult.mk "Gab" "octocat" "username" false []
         (Some "connection refused") "2024-01-01T00:00:00" 14%Z None).
Proof. vm_compute. reflexivity. Qed.

Example offline_auto_search :
  match fst (search_comprehensive engine "octocat" None w0) with
  | inr batch => map OSINTResult.service batch = ["SULTAN"]
  | inl _ => False
  end.
Proof. vm_compute. reflexivity. Qed.

Example report_of_two :
  match fst (generate_comprehensive_report [found_octocat; gab_missing] "dict" w0) with
  | inr (AsDict report) =>
      total_searches (search_summary report) = 2 /\
      successful_searches (search_summary report) = 1 /\
      failed_searches (search_summary report) = 1 /\
      total_response_time (search_summary report) = 3%Z /\
      map fst (results_by_service report) = ["SULTAN"; "Gab"]
  | _ => False
  end.
Proof. vm_compute. repeat split. Qed.

End Runs.

(** ** More on the classifier *)

Module ClassifierMore.
Import PyStr PyStrFacts Classifier.

Lemma startswith_empty (s : string) : startswith s EmptyString = true.
Proof. destruct s; reflexivity. Qed.

Lemma contains_single (c : ascii) (s : string) :
  contains (String c EmptyString) s = mem_char c s.
Proof.
  induction s as [|b s IH]; simpl; [reflexivity|].
  rewrite IH, startswith_empty, andb_true_r. reflexivity.
Qed.

(** A string accepted by [^[cls]+$] holds class characters only, but for a
    line feed that may end it. *)
Lemma match_plus_tail_mem (cls : ascii -> bool) (c : ascii) (s : string) :
  match_plus_tail cls s = true -> mem_char c s = true ->
  cls c = true \/ c = newline.
Proof.
  induction s as [|b s IH]; simpl; [discriminate|].
  intros Hm Hc. destruct (cls b) eqn:Hb.
  - apply orb_prop in Hc as [Hc|Hc]; [|auto].
    apply Ascii.eqb_eq in Hc. subst. auto.
  - destruct s as [|b' s]; [|discriminate].
    simpl in Hc. rewrite orb_false_r in Hc.
    apply Ascii.eqb_eq in Hc, Hm. subst. auto.
Qed.

Lemma match_plus_mem (cls : ascii -> bool) (c : ascii) (s : string) :
  match_plus cls s = true -> mem_char c s = true ->
  cls c = true \/ c = newline.
Proof.
  destruct s as [|b s]; simpl; [discriminate|].
  intros Hm Hc. apply andb_prop in Hm as [Hb Hm].
  apply orb_prop in Hc as [Hc|Hc].
  - apply Ascii.eqb_eq in Hc. subst. auto.
  - eapply match_plus_tail_mem; eassumption.
Qed.

(** A query with a character outside the username class, the line feed
    apart, does not look like a username. *)
Lemma foreign_char_not_username (c : ascii) (q : string) :
  is_username_char c = false -> c <> newline -> mem_char c q = true ->
  _looks_like_username q = false.
Proof.
  intros Hcls Hnl Hmem. unfold _looks_like_username.
  destruct (match_plus is_username_char q) eqn:Hm.
  - destruct (match_plus_mem _ _ _ Hm Hmem); congruence.
  - now rewrite andb_false_r.
Qed.

Lemma lower_app (a b : string) : lower (a ++ b) = lower a ++ lower b.
Proof. induction a as [|c a IH]; simpl; [reflexivity|]. now rewrite IH. Qed.

Lemma drop_app (a b : string) : drop (String.length a) (a ++ b) = b.
Proof. induction a as [|c a IH]; simpl; [now destruct b|exact IH]. Qed.

Lemma endswith_app (a b : string) : endswith (a ++ b) b = true.
Proof.
  unfold endswith. rewrite length_app.
  replace (String.length a + String.length b - String.length b)
    with (String.length a) by lia.
  rewrite drop_app, String.eqb_refl, andb_true_r.
  apply Nat.leb_le. lia.
Qed.

Ltac in_tags :=
  simpl; split; intros H;
  repeat match goal with
         | H : _ \/ _ |- _ => destruct H
         | H : _ /\ _ |- _ => destruct H
         | H : False |- _ => destruct H
         end;
  try discriminate; auto.

(** The URL-expansion tag is returned exactly for the queries that the
    classifier takes for a URL and that name a short-link host, the
    image-analysis tag exactly for those it takes for a URL and that end in
    an image extension: without the shape of a URL neither tag is given. *)
Theorem url_tags_need_url_shape (q : string) :
  (In "utility_url_expansion" (_determine_search_types q) <->
   _is_url q = true /\ _is_shortened_url q = true) /\
  (In "image_analysis" (_determine_search_types q) <->
   _is_url q = true /\ _is_image_url q = true).
Proof.
  unfold _determine_search_types.
  destruct (_is_url q), (_is_shortened_url q), (_is_image_url q),
    (_looks_like_username q), (looks_like_email q),
    (looks_like_trainer_code q); split; in_tags.
Qed.

(** The e-mail lookup is chosen, and then alone, exactly for the queries
    that are no URL for the classifier and hold an [@] and a dot. *)
Theorem email_tag_iff (q : string) :
  _determine_search_types q = ["social_linkedin_email_lookup"] <->
  _is_url q = false /\ contains "@" q = true /\ contains "." q = true.
Proof.
  split.
  - unfold _determine_search_types, looks_like_email.
    destruct (_is_url q), (_is_shortened_url q), (_is_image_url q),
      (_looks_like_username q), (contains "@" q), (contains "." q),
      (looks_like_trainer_code q); simpl; intros H; try discriminate; auto.
  - intros (Hurl & Hat & Hdot). unfold _determine_search_types, looks_like_email.
    rewrite Hurl, Hat, Hdot.
    rewrite (foreign_char_not_username "@"%char q); try reflexivity.
    + discriminate.
    + now rewrite <- contains_single.
Qed.

(** An address on a [.com], [.org] or [.net] domain counts as a URL: it is
    never given the e-mail tag. *)
Theorem email_on_common_domain_is_url (q : string) :
  any_in [".com"; ".org"; ".net"] q = true ->
  _is_url q = true /\
  ~ In "social_linkedin_email_lookup" (_determine_search_types q).
Proof.
  intros Hdom.
  assert (Hurl : _is_url q = true)
    by (unfold _is_url; rewrite Hdom; apply orb_true_r).
  split; [exact Hurl|].
  unfold _determine_search_types. rewrite Hurl.
  destruct (_is_shortened_url q), (_is_image_url q); simpl;
    intros H; repeat (destruct H as [H|H]; [discriminate|]); exact H.
Qed.

Lemma email_on_common_domain_is_url_witness :
  _is_url "jane@example.com" = true /\
  ~ In "social_linkedin_email_lookup"
      (_determine_search_types "jane@example.com").
Proof.
  apply (email_on_common_domain_is_url "jane@example.com"). reflexivity.
Defined.

(** The classifier has five outcomes and no other. *)
Theorem classifier_range (q : string) :
  In (_determine_search_types q)
    [ ["utility_url_expansion"];
      ["image_analysis"];
      ["utility_url_expansion"; "image_analysis"];
      ["social_username"; "bulk_username"];
      ["social_linkedin_email_lookup"] ].
Proof.
  unfold _determine_search_types.
  destruct (_is_url q) eqn:Hurl.
  - destruct (_is_shortened_url q), (_is_image_url q); simpl; auto 6.
  - destruct (_looks_like_username q) eqn:Hname; [simpl; auto 6|].
    destruct (looks_like_email q); [simpl; auto 6|].
    destruct (looks_like_trainer_code q) eqn:Hcode; [|simpl; auto 6].
    destruct (ClassifierFacts.trainer_code_is_username q Hcode). congruence.
Qed.

(** A query that ends in one of the six image extensions, in any mix of
    upper and lower case, is an image URL whatever comes before. *)
Theorem image_extension_any_case (q suffix : string) :
  In (lower suffix) image_extensions -> _is_image_url (q ++ suffix) = true.
Proof.
  intros Hin. unfold _is_image_url. apply existsb_exists.
  exists (lower suffix). split; [exact Hin|].
  rewrite lower_app. apply endswith_app.
Qed.

Lemma image_extension_any_case_witness :
  _is_image_url ("https://example.com/Photo" ++ ".JPG") = true.
Proof.
  apply (image_extension_any_case "https://example.com/Photo" ".JPG").
  simpl. auto.
Defined.

End ClassifierMore.

(** ** Search types from the command line *)

Module CliFacts.
Import PyStr PyStrFacts Classifier OSINTCli SearchTypes.

Lemma split_cons (sep : ascii) (s : string) :
  exists first others, split sep s = first :: others.
Proof.
  induction s as [|c s (first & others & IH)]; simpl; [eauto|].
  destruct (Ascii.eqb c sep); [eauto|]. rewrite IH. eauto.
Qed.

Lemma split_at_sep (sep : ascii) (p rest : string) :
  mem_char sep p = false ->
  split sep (p ++ String sep rest) = p :: split sep rest.
Proof.
  induction p as [|c p IH]; simpl.
  - intros _. now rewrite Ascii.eqb_refl.
  - intros H. apply orb_false_elim in H as [Hc Hp].
    rewrite Ascii.eqb_sym, Hc, (IH Hp). reflexivity.
Qed.

Lemma split_parts_free (c sep : ascii) (s : string) :
  mem_char c s = false ->
  Forall (fun part => mem_char c part = false) (split sep s).
Proof.
  induction s as [|b s IH]; simpl.
  - intros _. repeat constructor.
  - intros H. apply orb_false_elim in H as [Hb Hs].
    specialize (IH Hs). destruct (Ascii.eqb b sep).
    + constructor; [reflexivity | exact IH].
    + destruct (split_cons sep s) as (first & others & E).
      rewrite E in *. inversion IH; subst.
      constructor; [|assumption]. simpl. now rewrite Hb.
Qed.

(** A tag built for a platform named without an underscore is read back as
    that platform, asked for a username. *)
Lemma parse_platform_tag (platform : string) :
  mem_char "_" platform = false ->
  SocialMediaOSINT.parse_tag ("social_" ++ platform ++ "_username") =
  (platform, "username").
Proof.
  intros H. unfold SocialMediaOSINT.parse_tag. simpl.
  rewrite ClassifierMore.startswith_empty.
  rewrite (split_at_sep "_" platform "username" H). reflexivity.
Qed.

(** Whatever [--type] and [--platforms] are, the command line asks for at
    least one search type, and for none that the dispatcher would pass
    over; the same holds for the search types of the classifier. *)
Theorem front_ends_ask_dispatched_types :
  (forall search_type platforms,
     get_search_types search_type platforms <> [] /\
     forallb dispatched (get_search_types search_type platforms) = true) /\
  (forall q, forallb dispatched (_determine_search_types q) = true).
Proof.
  split.
  - intros search_type platforms. unfold get_search_types.
    destruct (String.eqb search_type "username"); [now split|].
    destruct (String.eqb search_type "image"); [now split|].
    destruct (String.eqb search_type "url"); [now split|].
    destruct (String.eqb search_type "pokemon"); [now split|].
    destruct (String.eqb search_type "social").
    + destruct platforms as [[|c listed]|]; try now split.
      split.
      * destruct (split_cons "," (String c listed)) as (first & others & E).
        rewrite E. discriminate.
      * apply forallb_forall. intros tag Hin.
        apply in_map_iff in Hin as (platform & <- & _).
        unfold dispatched. simpl.
        now rewrite ClassifierMore.startswith_empty.
    + destruct (String.eqb search_type "bulk"); now split.
  - intros q. unfold _determine_search_types.
    destruct (_is_url q), (_is_shortened_url q), (_is_image_url q),
      (_looks_like_username q), (looks_like_email q),
      (looks_like_trainer_code q); reflexivity.
Qed.

(** The tags that [--type social --platforms ...] asks for are read back by
    the social service as the listed platforms, each asked for a username,
    as long as no underscore is in the list. *)
Theorem platform_tags_round_trip (listed : string) :
  listed <> EmptyString -> mem_char "_" listed = false ->
  map SocialMediaOSINT.parse_tag (get_search_types "social" (Some listed)) =
  map (fun platform => (platform, "username")) (split "," listed).
Proof.
  intros Hne Hfree. unfold get_search_types. simpl.
  destruct listed as [|c listed]; [congruence|].
  pose proof (split_parts_free "_" "," _ Hfree) as Hparts.
  rewrite map_map. apply map_ext_in. intros platform Hin.
  apply parse_platform_tag.
  rewrite Forall_forall in Hparts. now apply Hparts.
Qed.

Lemma platform_tags_round_trip_witness :
  map SocialMediaOSINT.parse_tag (get_search_types "social" (Some "gab,tiktok")) =
  [("gab", "username"); ("tiktok", "username")].
Proof.
  apply (platform_tags_round_trip "gab,tiktok"); [discriminate | reflexivity].
Defined.

End CliFacts.

(** ** Reasoning about outcomes *)

Module OutcomeFacts.
Import Py Runtime Outcome.

Section Facts.
Context `{FL : Floats} `{OUT : @Outside FL}.

Lemma outcome_bind {A B} (c : M A) (k : A -> M B) (w : World)
    (R : B -> World -> Prop) (E : exn -> World -> Prop) :
  outcome c w (fun a w1 => outcome (k a) w1 R E) E ->
  outcome (bind c k) w R E.
Proof. unfold outcome, bind. destruct (c w) as [[e|a] w1]; auto. Qed.

Lemma outcome_try {A} (body : M A) (handler : exn -> M A) (w : World)
    (R : A -> World -> Prop) (E : exn -> World -> Prop) :
  outcome body w R (fun e w1 => outcome (handler e) w1 R E) ->
  outcome (try_except body handler) w R E.
Proof. unfold outcome, try_except. destruct (body w) as [[e|a] w1]; auto. Qed.

Lemma outcome_weaken {A} (c : M A) (w : World)
    (R R' : A -> World -> Prop) (E E' : exn -> World -> Prop) :
  outcome c w R E ->
  (forall a w', R a w' -> R' a w') -> (forall e w', E e w' -> E' e w') ->
  outcome c w R' E'.
Proof. unfold outcome. destruct (c w) as [[e|a] w1]; auto. Qed.

Lemma outcome_any {A} (c : M A) (w : World) :
  outcome c w (fun _ _ => True) (fun _ _ => True).
Proof. unfold outcome. destruct (c w) as [[e|a] w1]; exact I. Qed.

Lemma outcome_ret {A} (a : A) (w : World)
    (R : A -> World -> Prop) (E : exn -> World -> Prop) :
  R a w -> outcome (ret a) w R E.
Proof. auto. Qed.

Lemma outcome_lift {A} (r : exn + A) (w : World)
    (R : A -> World -> Prop) (E : exn -> World -> Prop) :
  (forall a, r = inr a -> R a w) -> (forall e, r = inl e -> E e w) ->
  outcome (lift r) w R E.
Proof. unfold outcome, lift. destruct r; auto. Qed.

(** A loop whose rounds all return, and keep [I], returns, and keeps [I]. *)
Lemma returns_for_each {A B} (xs : list A) (body : B -> A -> M B)
    (I : B -> World -> Prop) :
  (forall acc x w, In x xs -> I acc w -> returns (body acc x) w I) ->
  forall acc w, I acc w -> returns (for_each xs body acc) w I.
Proof.
  induction xs as [|x xs IH]; intros Hbody acc w HI.
  - exact HI.
  - simpl. apply outcome_bind.
    eapply outcome_weaken; [apply (Hbody acc x w); simpl; auto | | auto].
    intros acc' w' HI'. apply IH; [|exact HI'].
    intros. apply Hbody; simpl; auto.
Qed.

Lemma quiet_refl (w : World) : quiet w w.
Proof. reflexivity. Qed.

Lemma quiet_trans (w1 w2 w3 : World) : quiet w1 w2 -> quiet w2 w3 -> quiet w1 w3.
Proof. unfold quiet. congruence. Qed.

Lemma only_touches_refl (name : string) (w : World) : only_touches name w w.
Proof. now intros other _. Qed.

Lemma only_touches_trans (name : string) (w1 w2 w3 : World) :
  only_touches name w1 w2 -> only_touches name w2 w3 -> only_touches name w1 w3.
Proof. intros H12 H23 other Hne. now rewrite H23, H12. Qed.

Lemma requested_after_quiet (method url : string) (k : nat) (w1 w2 w3 : World) :
  quiet w1 w2 -> requested method url k w2 w3 -> requested method url k w1 w3.
Proof. unfold quiet, requested. congruence. Qed.

End Facts.
End OutcomeFacts.

(** ** More on fetching *)

Module FetcherMore.
Import Py Runtime Outcome OutcomeFacts.

Section Facts.
Context `{FL : Floats} `{OUT : @Outside FL}.

(** The retry loop: one to three requests, and no service attribute
    touched, however it ends. *)
Lemma make_request_frame (url method : string) (w : World) :
  let left w' :=
    (exists k, 1 <= k <= 3 /\ requested method url k w w') /\
    services w' = services w in
  outcome (EnhancedSession.make_request url method) w
    (fun _ w' => left w') (fun _ w' => left w').
Proof.
  unfold outcome, EnhancedSession.make_request,
    EnhancedSession.max_retries. simpl.
  unfold try_except, bind, session_request, ret, raise,
    EnhancedSession._update_headers, random_uniform, time_sleep, ask, emit.
  simpl.
  destruct (request_at (trace w) method url) as [e0|r0]; simpl.
  2:{ split; [exists 1; split; [lia | reflexivity] | reflexivity]. }
  match goal with
  | |- context [match request_at ?t method url with _ => _ end] =>
      destruct (request_at t method url) as [e1|r1]; simpl
  end.
  2:{ split; [exists 2; split; [lia|] | reflexivity].
      unfold requested. simpl. now rewrite <- app_assoc. }
  match goal with
  | |- context [match request_at ?t method url with _ => _ end] =>
      destruct (request_at t method url) as [e2|r2]; simpl
  end.
  all: (split; [exists 3; split; [lia|] | reflexivity]);
    unfold requested; simpl; now rewrite <- !app_assoc.
Qed.

Lemma rate_limit_frame (self : BaseOSINTService.t) (w : World) :
  returns (BaseOSINTService._rate_limit self) w
    (fun _ w' =>
       quiet w w' /\ only_touches (BaseOSINTService.name self) w w' /\
       driver (services w' (BaseOSINTService.name self)) =
       driver (services w (BaseOSINTService.name self))).
Proof.
  unfold returns, outcome, BaseOSINTService._rate_limit.
  unfold bind, time_time, time_sleep, get_service, set_service, ask, emit, ret.
  simpl.
  destruct (f_lt _ _); simpl.
  all: repeat split; try reflexivity.
  all: try (intros other Hne; simpl;
            apply String.eqb_neq in Hne; now rewrite Hne).
  all: now rewrite String.eqb_refl.
Qed.

Lemma fetched_after (name method url : string) (w w1 w2 w3 w' : World) :
  quiet w w1 -> only_touches name w w1 ->
  quiet w1 w2 -> services w2 = services w1 ->
  (exists k, 1 <= k <= 3 /\ requested method url k w2 w3) ->
  services w3 = services w2 ->
  quiet w3 w' -> services w' = services w3 ->
  fetched_by_http name method url w w'.
Proof.
  intros Hq1 Ht1 Hq2 Hs2 (k & Hk & Hreq) Hs3 Hq4 Hs4. split.
  - exists k. split; [exact Hk|]. unfold quiet, requested in *. congruence.
  - intros other Hne. rewrite Hs4, Hs3, Hs2. now apply Ht1.
Qed.

(** A fetch without Selenium makes one to three HTTP requests, all for the
    given method and URL, and loads no page; of the attributes of the
    services it changes those of its own service only; it leaves an INFO
    line in the log when it returns and, when it raises, an ERROR line that
    quotes the exception. *)
Theorem fetch_over_http (self : BaseOSINTService.t) (url method : string)
    (w : World) :
  outcome (BaseOSINTService._make_request self url method false) w
    (fun _ w' =>
       fetched_by_http (BaseOSINTService.name self) method url w w' /\
       exists line, hd_error (trace w') = Some (EvLog "INFO" line))
    (fun e w' =>
       fetched_by_http (BaseOSINTService.name self) method url w w' /\
       hd_error (trace w') =
       Some (EvLog "ERROR"
               (BaseOSINTService.name self ++ ": Request failed for " ++
                url ++ ": " ++ e))).
Proof.
  unfold BaseOSINTService._make_request.
  apply outcome_bind.
  eapply outcome_weaken; [apply rate_limit_frame | | contradiction].
  intros _ w1 (Hq1 & Ht1 & _).
  apply outcome_bind. unfold outcome at 1, time_time, ask. simpl.
  set (w2 := {| trace := EvTime :: trace w1; services := services w1 |}).
  apply outcome_try, outcome_bind.
  eapply outcome_weaken; [apply make_request_frame | |].
  - intros response w3 (Hreq & Hs3).
    unfold outcome, bind, time_time, logger, ask, emit, ret. simpl.
    split; [|eauto].
    eapply (fetched_after _ _ _ w w1 w2 w3); eauto; reflexivity.
  - intros e w3 (Hreq & Hs3).
    unfold outcome, bind, logger, emit, raise. simpl.
    split; [|reflexivity].
    eapply (fetched_after _ _ _ w w1 w2 w3); eauto; reflexivity.
Qed.

Lemma driver_held (self : BaseOSINTService.t) (w : World) :
  driver (services w (BaseOSINTService.name self)) = true ->
  returns (BaseOSINTService._get_selenium_driver self) w
    (fun held w' => held = true /\ w' = w).
Proof.
  intros Hheld.
  unfold returns, outcome, BaseOSINTService._get_selenium_driver, bind,
    get_service. simpl. rewrite Hheld. split; reflexivity.
Qed.

Lemma driver_not_started (self : BaseOSINTService.t) (w : World) :
  (forall tr, exists e, chrome_at tr = inl e) ->
  driver (services w (BaseOSINTService.name self)) = false ->
  returns (BaseOSINTService._get_selenium_driver self) w
    (fun held w' => held = false /\ quiet w w' /\ services w' = services w).
Proof.
  intros Hchrome Hnone.
  unfold returns, outcome, BaseOSINTService._get_selenium_driver, bind,
    get_service. simpl. rewrite Hnone.
  unfold try_except, bind, webdriver_Chrome. simpl.
  destruct (Hchrome (trace w)) as (e & ->).
  unfold logger, emit, ret. simpl. repeat split.
Qed.

(** With a driver held, a Selenium fetch loads the page in the browser,
    once, and makes no HTTP request; the response it returns has status 200
    whatever the site answered. *)
Theorem fetch_with_driver (self : BaseOSINTService.t) (url method : string)
    (w : World) :
  driver (services w (BaseOSINTService.name self)) = true ->
  outcome (BaseOSINTService._make_request self url method true) w
    (fun response w' =>
       resp_status_code response = 200%Z /\
       fetched_by_browser (BaseOSINTService.name self) url w w')
    (fun _ w' => fetched_by_browser (BaseOSINTService.name self) url w w').
Proof.
  intros Hheld. unfold BaseOSINTService._make_request.
  apply outcome_bind.
  eapply outcome_weaken; [apply rate_limit_frame | | contradiction].
  intros _ w1 (Hq1 & Ht1 & Hd1).
  apply outcome_bind. unfold outcome at 1, time_time, ask. simpl.
  apply outcome_try, outcome_bind. cbv iota. apply outcome_bind.
  eapply outcome_weaken;
    [apply driver_held; simpl; congruence | | contradiction].
  intros held w2 (-> & ->). cbv iota.
  unfold outcome at 1, bind at 1, driver_get. simpl.
  destruct (browse_at (EvTime :: trace w1) url) as [e|page]; simpl.
  - unfold outcome, bind, logger, emit, raise. simpl.
    split; [unfold quiet in Hq1; simpl; now rewrite Hq1 | exact Ht1].
  - unfold outcome, bind, time_time, logger, ask, emit, ret. simpl.
    split; [reflexivity|].
    split; [unfold quiet in Hq1; simpl; now rewrite Hq1 | exact Ht1].
Qed.

(** Where no browser can be started, a Selenium fetch by a service that
    holds no driver falls back to HTTP: one to three requests and no page
    load, and the service still holds no driver afterwards. *)
Theorem fetch_without_browser (self : BaseOSINTService.t) (url method : string)
    (w : World) :
  (forall tr, exists e, chrome_at tr = inl e) ->
  driver (services w (BaseOSINTService.name self)) = false ->
  let left w' :=
    fetched_by_http (BaseOSINTService.name self) method url w w' /\
    driver (services w' (BaseOSINTService.name self)) = false in
  outcome (BaseOSINTService._make_request self url method true) w
    (fun _ w' => left w') (fun _ w' => left w').
Proof.
  intros Hchrome Hnone left. subst left.
  unfold BaseOSINTService._make_request.
  apply outcome_bind.
  eapply outcome_weaken; [apply rate_limit_frame | | contradiction].
  intros _ w1 (Hq1 & Ht1 & Hd1).
  apply outcome_bind. unfold outcome at 1, time_time, ask. simpl.
  set (w2 := {| trace := EvTime :: trace w1; services := services w1 |}).
  apply outcome_try, outcome_bind. cbv iota. apply outcome_bind.
  eapply outcome_weaken;
    [apply (driver_not_started self w2 Hchrome); simpl; congruence
    | | contradiction].
  intros held w3 (-> & Hq3 & Hs3). cbv iota.
  assert (Hq13 : quiet w1 w3) by (eapply quiet_trans; [|exact Hq3]; reflexivity).
  assert (Hs13 : services w3 = services w1) by (rewrite Hs3; reflexivity).
  eapply outcome_weaken; [apply make_request_frame | |].
  - intros response w4 (Hreq & Hs4).
    unfold outcome, bind, time_time, logger, ask, emit, ret. simpl.
    split.
    + eapply (fetched_after _ _ _ w w1 w3 w4); eauto; reflexivity.
    + rewrite Hs4, Hs13. congruence.
  - intros e' w4 (Hreq & Hs4).
    unfold outcome, bind, logger, emit, raise. simpl.
    split.
    + eapply (fetched_after _ _ _ w w1 w3 w4); eauto; reflexivity.
    + rewrite Hs4, Hs13. congruence.
Qed.

End Facts.

Import Demo.

Lemma fetch_without_browser_witness :
  outcome (BaseOSINTService._make_request SocialMediaOSINT.self
             "https://www.tiktok.com/@octocat" "GET" true) w0
    (fun _ w' =>
       fetched_by_http "SocialMediaOSINT" "GET"
         "https://www.tiktok.com/@octocat" w0 w' /\
       driver (services w' "SocialMediaOSINT") = false)
    (fun _ w' =>
       fetched_by_http "SocialMediaOSINT" "GET"
         "https://www.tiktok.com/@octocat" w0 w' /\
       driver (services w' "SocialMediaOSINT") = false).
Proof.
  apply (fetch_without_browser SocialMediaOSINT.self
           "https://www.tiktok.com/@octocat" "GET" w0).
  - intros tr. exists "chrome not found". reflexivity.
  - reflexivity.
Defined.

End FetcherMore.

(** ** The social extractors *)

Module SocialFacts.
Import Py Runtime Outcome OutcomeFacts Shape.

Section Facts.
Context `{FL : Floats} `{OUT : @Outside FL} `{LIB : @Library FL}.

Ltac run := unfold outcome, bind, try_except, new_result, time_time,
              datetime_now_isoformat, ask, ret, lift; simpl.

Ltac labelled_now := unfold labelled; simpl; repeat split; eauto.

Lemma gab_labelled (query query_type : string) (w : World) :
  returns (SocialMediaOSINT.search_gab query query_type) w
    (fun r _ => labelled "Gab" query query_type r).
Proof.
  unfold returns, SocialMediaOSINT.search_gab.
  apply outcome_bind. unfold outcome at 1, time_time, ask. simpl.
  apply outcome_try.
  assert (Hfetch : forall url w1 start,
    outcome (SocialMediaOSINT.gab_fetch query query_type url start) w1
      (fun r _ => labelled "Gab" query query_type r)
      (fun e w2 =>
         outcome
           (bind time_time (fun now =>
              new_result "Gab" query query_type false [] (Some e)
                (f_sub now start) None)) w2
           (fun r _ => labelled "Gab" query query_type r)
           (fun _ _ => False))).
  { intros url w1 start. unfold SocialMediaOSINT.gab_fetch.
    apply outcome_bind.
    eapply outcome_weaken; [apply outcome_any | |].
    - intros response w2 _. run.
      destruct (Z.eqb (resp_status_code response) 200); [|labelled_now].
      destruct (_extract_gab_data _ _); labelled_now.
    - intros e w2 _. run. labelled_now. }
  destruct (String.eqb query_type "username"); [apply Hfetch|].
  destruct (String.eqb query_type "hashtag"); [apply Hfetch|].
  run. labelled_now.
Qed.

Lemma tiktok_labelled (query query_type : string) (w : World) :
  returns (SocialMediaOSINT.search_tiktok query query_type) w
    (fun r _ => labelled "TikTok" query query_type r).
Proof.
  unfold returns, SocialMediaOSINT.search_tiktok.
  apply outcome_bind. unfold outcome at 1, time_time, ask. simpl.
  apply outcome_try.
  assert (Hfetch : forall url w1 start,
    outcome (SocialMediaOSINT.tiktok_fetch query query_type url start) w1
      (fun r _ => labelled "TikTok" query query_type r)
      (fun e w2 =>
         outcome
           (bind time_time (fun now =>
              new_result "TikTok" query query_type false [] (Some e)
                (f_sub now start) None)) w2
           (fun r _ => labelled "TikTok" query query_type r)
           (fun _ _ => False))).
  { intros url w1 start. unfold SocialMediaOSINT.tiktok_fetch.
    apply outcome_bind.
    eapply outcome_weaken; [apply outcome_any | |].
    - intros response w2 _. run.
      destruct (Z.eqb (resp_status_code response) 200); [|labelled_now].
      destruct (_extract_tiktok_data _ _); labelled_now.
    - intros e w2 _. run. labelled_now. }
  destruct (String.eqb query_type "username"); [apply Hfetch|].
  destruct (String.eqb query_type "hashtag"); [apply Hfetch|].
  run. labelled_now.
Qed.

Lemma linkedin_labelled (query query_type : string) (w : World) :
  returns (SocialMediaOSINT.search_linkedin query query_type) w
    (fun r _ => labelled "LinkedIn" query query_type r).
Proof.
  unfold returns, SocialMediaOSINT.search_linkedin. run. labelled_now.
Qed.

Lemma reddit_labelled (query query_type : string) (w : World) :
  returns (SocialMediaOSINT.search_reddit query query_type) w
    (fun r _ => labelled "Reddit" query query_type r).
Proof.
  unfold returns, SocialMediaOSINT.search_reddit.
  apply outcome_bind. unfold outcome at 1, time_time, ask. simpl.
  apply outcome_try, outcome_bind.
  unfold SocialMediaOSINT.reddit_data.
  destruct (String.eqb query_type "removeddit"); [run; labelled_now|].
  destruct (String.eqb query_type "profile_analysis" && _);
    [|run; labelled_now].
  apply outcome_bind.
  eapply outcome_weaken; [apply outcome_any | |].
  - intros response w2 _.
    destruct (Z.eqb (resp_status_code response) 200); [|run; labelled_now].
    run. destruct (reddit_profile_fields _); labelled_now.
  - intros e w2 _. run. labelled_now.
Qed.

Lemma tumblr_labelled (query query_type : string) (w : World) :
  returns (SocialMediaOSINT.search_tumblr query query_type) w
    (fun r _ =>
       labelled "Tumblr" query query_type r /\
       OSINTResult.success r = true /\
       exists reached,
         dict_get (OSINTResult.data r) "avatar_accessible" =
         Some (VBool reached)).
Proof.
  unfold returns, SocialMediaOSINT.search_tumblr.
  apply outcome_bind. unfold outcome at 1, time_time, ask. simpl.
  apply outcome_try, outcome_bind, outcome_try, outcome_bind.
  eapply outcome_weaken; [apply outcome_any | |].
  - intros response w2 _.
    destruct (Z.eqb (resp_status_code response) 200); run;
      (split; [labelled_now | split; [reflexivity | eauto]]).
  - intros e w2 _. run.
    split; [labelled_now | split; [reflexivity | eauto]].
Qed.

(** Each of the five social extractors returns a result and raises nothing,
    whatever the network does.  The result carries the label of the
    platform and the query and query type it was asked for; it is a success
    without an error, or a failure with an error and without data. *)
Theorem social_extractors_return (query query_type : string) (w : World) :
  returns (SocialMediaOSINT.search_gab query query_type) w
    (fun r _ => labelled "Gab" query query_type r) /\
  returns (SocialMediaOSINT.search_tiktok query query_type) w
    (fun r _ => labelled "TikTok" query query_type r) /\
  returns (SocialMediaOSINT.search_linkedin query query_type) w
    (fun r _ => labelled "LinkedIn" query query_type r) /\
  returns (SocialMediaOSINT.search_reddit query query_type) w
    (fun r _ => labelled "Reddit" query query_type r) /\
  returns (SocialMediaOSINT.search_tumblr query query_type) w
    (fun r _ => labelled "Tumblr" query query_type r).
Proof.
  refine (conj _ (conj _ (conj _ (conj _ _)))).
  - apply gab_labelled.
  - apply tiktok_labelled.
  - apply linkedin_labelled.
  - apply reddit_labelled.
  - eapply outcome_weaken; [apply tumblr_labelled | | auto].
    now intros r w' (H & _).
Qed.

(** The Tumblr search reports a success whether or not the avatar could be
    fetched; what became of the fetch is kept in [avatar_accessible]. *)
Theorem tumblr_always_succeeds (query query_type : string) (w : World) :
  returns (SocialMediaOSINT.search_tumblr query query_type) w
    (fun r _ =>
       OSINTResult.success r = true /\
       exists reached,
         dict_get (OSINTResult.data r) "avatar_accessible" =
         Some (VBool reached)).
Proof.
  eapply outcome_weaken; [apply tumblr_labelled | | auto].
  now intros r w' (_ & H).
Qed.

(** The LinkedIn search makes no request and always reports a success: for
    a query type it has no rule for, a success with no data. *)
Theorem linkedin_is_offline (query query_type : string) (w : World) :
  returns (SocialMediaOSINT.search_linkedin query query_type) w
    (fun r w' =>
       quiet w w' /\ services w' = services w /\
       OSINTResult.success r = true /\
       OSINTResult.data r = SocialMediaOSINT.linkedin_data query query_type) /\
  (query_type <> "profile_photo" -> query_type <> "recent_activity" ->
   query_type <> "email_lookup" ->
   SocialMediaOSINT.linkedin_data query query_type = []).
Proof.
  split.
  - unfold returns, SocialMediaOSINT.search_linkedin. run. repeat split.
  - intros H1 H2 H3. unfold SocialMediaOSINT.linkedin_data.
    apply String.eqb_neq in H1, H2, H3. now rewrite H1, H2, H3.
Qed.

(** The Reddit search goes to the network only for a profile analysis of an
    [https://] address; for every other call it makes no request and
    reports a success. *)
Theorem reddit_offline_but_for_profiles (query query_type : string) (w : World) :
  query_type <> "profile_analysis" \/ PyStr.startswith query "https://" = false ->
  returns (SocialMediaOSINT.search_reddit query query_type) w
    (fun r w' => quiet w w' /\ OSINTResult.success r = true).
Proof.
  intros Hoff.
  assert (Hcond : String.eqb query_type "profile_analysis" &&
                  PyStr.startswith query "https://" = false).
  { destruct Hoff as [H|H].
    - apply String.eqb_neq in H. now rewrite H.
    - rewrite H. apply andb_false_r. }
  unfold returns, SocialMediaOSINT.search_reddit, SocialMediaOSINT.reddit_data.
  rewrite Hcond.
  destruct (String.eqb query_type "removeddit"); run; split; reflexivity.
Qed.

Lemma on_platform_labelled (platform p label query query_type : string)
    (f : M OSINTResult.t) (results : list OSINTResult.t) (w : World) :
  let asked r :=
    OSINTResult.query r = query /\ OSINTResult.query_type r = query_type in
  (forall w1, returns f w1 (fun r _ => labelled label query query_type r)) ->
  Forall asked results ->
  returns (SocialMediaOSINT.on_platform platform p f results) w
    (fun rs _ =>
       map OSINTResult.service rs =
       (map OSINTResult.service results ++
        (if String.eqb platform "all" || String.eqb platform p
         then [label] else []))%list /\
       Forall asked rs).
Proof.
  intros asked Hf Hres. unfold returns, SocialMediaOSINT.on_platform.
  destruct (String.eqb platform "all" || String.eqb platform p).
  - apply outcome_bind.
    eapply outcome_weaken; [apply Hf | | contradiction].
    intros r w1 (Hs & Hq & Ht & _). unfold outcome, ret. split.
    + rewrite map_app. simpl. now rewrite Hs.
    + apply Forall_app. split; [exact Hres|]. repeat constructor; assumption.
  - unfold outcome, ret. split; [now rewrite app_nil_r | exact Hres].
Qed.

Lemma social_search_frame (query tag : string) (w : World) :
  returns (SocialMediaOSINT.search query tag) w
    (fun rs _ =>
       map OSINTResult.service rs =
         selected (fst (SocialMediaOSINT.parse_tag tag)) /\
       Forall (fun r =>
                 OSINTResult.query r = query /\
                 OSINTResult.query_type r = snd (SocialMediaOSINT.parse_tag tag))
         rs).
Proof.
  unfold returns, SocialMediaOSINT.search.
  destruct (SocialMediaOSINT.parse_tag tag) as [platform actual]. simpl.
  apply outcome_bind.
  eapply outcome_weaken;
    [apply (on_platform_labelled platform "gab" "Gab" query actual);
     [intros; apply gab_labelled | constructor] | | contradiction].
  intros rs1 w1 (Hm1 & Hf1). apply outcome_bind.
  eapply outcome_weaken;
    [apply (on_platform_labelled platform "tiktok" "TikTok" query actual);
     [intros; apply tiktok_labelled | exact Hf1] | | contradiction].
  intros rs2 w2 (Hm2 & Hf2). apply outcome_bind.
  eapply outcome_weaken;
    [apply (on_platform_labelled platform "linkedin" "LinkedIn" query actual);
     [intros; apply linkedin_labelled | exact Hf2] | | contradiction].
  intros rs3 w3 (Hm3 & Hf3). apply outcome_bind.
  eapply outcome_weaken;
    [apply (on_platform_labelled platform "reddit" "Reddit" query actual);
     [intros; apply reddit_labelled | exact Hf3] | | contradiction].
  intros rs4 w4 (Hm4 & Hf4). apply outcome_bind.
  eapply outcome_weaken;
    [apply (on_platform_labelled platform "tumblr" "Tumblr" query actual);
     [intros; eapply outcome_weaken;
        [apply tumblr_labelled | now intros r w' (H & _) | auto]
     | exact Hf4] | | contradiction].
  intros rs5 w5 (Hm5 & Hf5). unfold outcome, ret.
  split; [|exact Hf5].
  rewrite Hm5, Hm4, Hm3, Hm2, Hm1. unfold selected, platform_labels. simpl.
  destruct (String.eqb platform "all"); simpl; [reflexivity|].
  destruct (String.eqb platform "gab"), (String.eqb platform "tiktok"),
    (String.eqb platform "linkedin"), (String.eqb platform "reddit"),
    (String.eqb platform "tumblr"); reflexivity.
Qed.

(** The social search raises nothing and returns one result for each
    platform that the tag selects, in the order Gab, TikTok, LinkedIn,
    Reddit, Tumblr: all five for the platform [all], one for a platform it
    knows, none for any other; every result is for the query and the query
    type read off the tag. *)
Theorem social_search_by_platform (query tag : string) (w : World) :
  returns (SocialMediaOSINT.search query tag) w
    (fun rs _ =>
       map OSINTResult.service rs =
         selected (fst (SocialMediaOSINT.parse_tag tag)) /\
       Forall (fun r =>
                 OSINTResult.query r = query /\
                 OSINTResult.query_type r = snd (SocialMediaOSINT.parse_tag tag))
         rs).
Proof. apply social_search_frame. Qed.

End Facts.

Import Demo.

Lemma reddit_offline_but_for_profiles_witness :
  returns (SocialMediaOSINT.search_reddit "octocat" "username") w0
    (fun r w' => quiet w0 w' /\ OSINTResult.success r = true).
Proof.
  apply (reddit_offline_but_for_profiles "octocat" "username" w0).
  left. discriminate.
Defined.

End SocialFacts.

(** ** Steps of a computation *)

Module Steps.
Import Py Runtime Outcome OutcomeFacts.

Section Facts.
Context `{FL : Floats} `{OUT : @Outside FL}.

Lemma outcome_timed {A} (k : float -> M A) (w : World)
    (R : A -> World -> Prop) (E : exn -> World -> Prop) :
  outcome (k (time_at (trace w)))
    {| trace := EvTime :: trace w; services := services w |} R E ->
  outcome (bind time_time k) w R E.
Proof. intros H. apply outcome_bind. exact H. Qed.

Lemma existsb_filter {A} (p : A -> bool) (l : list A) :
  existsb p l = Nat.ltb 0 (List.length (filter p l)).
Proof.
  induction l as [|x l IH]; simpl; [reflexivity|].
  destruct (p x); simpl; [reflexivity | exact IH].
Qed.

Lemma filter_length_le {A} (p : A -> bool) (l : list A) :
  List.length (filter p l) <= List.length l.
Proof.
  induction l as [|x l IH]; simpl; [lia|]. destruct (p x); simpl; lia.
Qed.

Lemma dict_set_length `{FL' : Floats} (d : @Dict FL') (k : string) (v : PyVal) :
  List.length (dict_set d k v) <= S (List.length d).
Proof.
  induction d as [|[k' v'] d IH]; simpl; [lia|].
  destruct (String.eqb k k'); simpl; lia.
Qed.

End Facts.
End Steps.

(** ** The utility service *)

Module UtilityFacts.
Import Py Runtime Outcome OutcomeFacts Shape Steps.

Section Facts.
Context `{FL : Floats} `{OUT : @Outside FL} `{LIB : @Library FL}.

Ltac run := unfold outcome, bind, try_except, new_result, time_time,
              datetime_now_isoformat, ask, ret, lift; simpl.

(** A round of the expansion loop raises nothing and files one entry, under
    the name of its expander. *)
Lemma expand_with_files (url : string) (results : Dict)
    (expander : string * string) (w : World) :
  returns (UtilityOSINT.expand_with url results expander) w
    (fun results' _ =>
       exists entry, results' = dict_set results (fst expander) (VDict entry)).
Proof.
  destruct expander as [service_name url_template].
  unfold returns, UtilityOSINT.expand_with. simpl.
  apply outcome_try, outcome_bind, outcome_lift.
  - intros quoted _. apply outcome_bind.
    eapply outcome_weaken; [apply outcome_any | |].
    + intros response w1 _.
      destruct (Z.eqb (resp_status_code response) 200); run; eauto.
      destruct (_parse_expansion_response _ _ _); eauto.
    + intros e w1 _. run. eauto.
  - intros e _. run. eauto.
Qed.

Lemma expand_url_frame (url : string) (w : World) :
  returns (UtilityOSINT.expand_url url) w
    (fun r _ =>
       OSINTResult.service r = "UtilityOSINT" /\
       OSINTResult.query r = url /\
       OSINTResult.query_type r = "url_expansion" /\
       OSINTResult.error r = None /\
       exists results,
         OSINTResult.data r = [("expansion_results", VDict results)] /\
         dict_keys results = ["getlinkinfo"; "checkshorturl"; "expandurl"] /\
         OSINTResult.success r =
           existsb UtilityOSINT.status_success (dict_values results)).
Proof.
  unfold returns, UtilityOSINT.expand_url.
  apply outcome_timed.
  apply outcome_bind. unfold UtilityOSINT.url_expanders. cbn [for_each].
  apply outcome_bind.
  eapply outcome_weaken; [apply expand_with_files | | contradiction].
  intros r1 w1 (e1 & ->). cbn [for_each fst]. apply outcome_bind.
  eapply outcome_weaken; [apply expand_with_files | | contradiction].
  intros r2 w2 (e2 & ->). cbn [for_each fst]. apply outcome_bind.
  eapply outcome_weaken; [apply expand_with_files | | contradiction].
  intros r3 w3 (e3 & ->). cbn [for_each fst]. run.
  repeat split. eexists. repeat split.
Qed.

(** URL expansion raises nothing.  Its result holds an entry for each of
    the three expanders, in their order, whatever became of the requests;
    it is a success when an entry has the status [success], and a failure
    without an error message otherwise. *)
Theorem expand_url_files_three (url : string) (w : World) :
  returns (UtilityOSINT.expand_url url) w
    (fun r _ =>
       OSINTResult.service r = "UtilityOSINT" /\
       OSINTResult.query r = url /\
       OSINTResult.query_type r = "url_expansion" /\
       OSINTResult.error r = None /\
       exists results,
         OSINTResult.data r = [("expansion_results", VDict results)] /\
         dict_keys results = ["getlinkinfo"; "checkshorturl"; "expandurl"] /\
         OSINTResult.success r =
           existsb UtilityOSINT.status_success (dict_values results)).
Proof. apply expand_url_frame. Qed.

(** A query type that starts with [pokemon_go] is answered without a
    request and always as a success, with the search URLs of the type that
    is left when [pokemon_go_] is cut out: none at all for any other type
    than [trainer_code] and [username]. *)
Theorem pokemon_go_is_offline (query query_type : string) (w : World) :
  query_type <> "url_expansion" ->
  PyStr.startswith query_type "pokemon_go" = true ->
  let pogo_type := PyStr.replace query_type "pokemon_go_" "" in
  returns (UtilityOSINT.search query query_type) w
    (fun r w' =>
       quiet w w' /\ services w' = services w /\
       OSINTResult.success r = true /\
       OSINTResult.query_type r = "pokemon_go_" ++ pogo_type /\
       dict_get (OSINTResult.data r) "search_urls" =
         Some (VDict (UtilityOSINT.pokemon_go_urls query pogo_type))) /\
  (pogo_type <> "trainer_code" -> pogo_type <> "username" ->
   UtilityOSINT.pokemon_go_urls query pogo_type = []).
Proof.
  intros Hx Hp pogo_type. split.
  - unfold returns, UtilityOSINT.search. apply String.eqb_neq in Hx.
    rewrite Hx, Hp. unfold UtilityOSINT.pokemon_go_search. run.
    repeat split.
  - intros H1 H2. unfold UtilityOSINT.pokemon_go_urls.
    apply String.eqb_neq in H1, H2. now rewrite H1, H2.
Qed.

Lemma utility_search_returns (query query_type : string) (w : World) :
  returns (UtilityOSINT.search query query_type) w
    (fun r _ => OSINTResult.service r = "UtilityOSINT" /\
                OSINTResult.query r = query).
Proof.
  unfold returns, UtilityOSINT.search.
  destruct (String.eqb query_type "url_expansion").
  - eapply outcome_weaken; [apply expand_url_frame | | auto].
    now intros r w' (H1 & H2 & _).
  - destruct (PyStr.startswith query_type "pokemon_go").
    + unfold UtilityOSINT.pokemon_go_search. run. split; reflexivity.
    + run. split; reflexivity.
Qed.

End Facts.

Import Demo.

Lemma pokemon_go_is_offline_witness :
  returns (UtilityOSINT.search "123456789012" "pokemon_go_trainer_code") w0
    (fun r w' =>
       quiet w0 w' /\ services w' = services w0 /\
       OSINTResult.success r = true /\
       OSINTResult.query_type r = "pokemon_go_trainer_code" /\
       dict_get (OSINTResult.data r) "search_urls" =
         Some (VDict (UtilityOSINT.pokemon_go_urls "123456789012"
                        "trainer_code"))).
Proof.
  apply (pokemon_go_is_offline "123456789012" "pokemon_go_trainer_code" w0);
    [discriminate | reflexivity].
Defined.

End UtilityFacts.

(** ** SULTAN *)

Module SultanFacts.
Import Py Runtime Outcome OutcomeFacts Shape Steps.

Section Facts.
Context `{FL : Floats} `{OUT : @Outside FL} `{LIB : @Library FL}.

Ltac run := unfold outcome, bind, try_except, new_result, time_time,
              datetime_now_isoformat, ask, ret, lift; simpl.

(** Whether a profile counts as existing does not depend on the success
    indicators of the platform: a page with status 200 counts unless an
    error indicator is on it. *)
Theorem success_indicators_unused (response : Response)
    (platform : SULTANFramework.Platform) (indicators : list string) :
  SULTANFramework._analyze_platform_response response platform =
  SULTANFramework._analyze_platform_response response
    {| SULTANFramework.name := SULTANFramework.name platform;
       SULTANFramework.url_template := SULTANFramework.url_template platform;
       SULTANFramework.error_indicators :=
         SULTANFramework.error_indicators platform;
       SULTANFramework.success_indicators := indicators |}.
Proof.
  unfold SULTANFramework._analyze_platform_response. simpl.
  repeat match goal with
         | |- (if ?c then _ else _) = _ => destruct c; try reflexivity
         end.
  all: now destruct (existsb _ indicators).
Qed.

(** A round of the platform loop raises nothing; it files one entry under
    the name of the platform and counts it when the entry says the profile
    exists. *)
Lemma check_platform_files (username : string) (results : Dict) (found : Z)
    (platform : SULTANFramework.Platform) (w : World) :
  returns (SULTANFramework.check_platform username (results, found) platform) w
    (fun acc _ =>
       exists entry,
         fst acc = dict_set results (SULTANFramework.name platform) entry /\
         snd acc = (found + if get_flag entry "exists" then 1 else 0)%Z).
Proof.
  unfold returns, SULTANFramework.check_platform.
  apply outcome_try, outcome_bind.
  eapply outcome_weaken; [apply outcome_any | |].
  - intros response w1 _. run. eexists. split; [reflexivity|]. simpl.
    destruct (SULTANFramework._analyze_platform_response response platform);
      lia.
  - intros e w1 _. run. eexists. split; [reflexivity|]. simpl. lia.
Qed.

Lemma bulk_check_frame (username : string) (w : World) :
  returns (SULTANFramework.bulk_username_check username) w
    (fun r _ =>
       OSINTResult.service r = "SULTAN" /\
       OSINTResult.query r = username /\
       OSINTResult.query_type r = "bulk_username_check" /\
       OSINTResult.error r = None /\
       exists results found,
         OSINTResult.data r =
           [("platforms_checked", VInt 5);
            ("profiles_found", VInt found);
            ("results", VDict results);
            ("summary", VStr ("Found " ++ PyStr.str_of_int found ++
                              " profiles for username '" ++ username ++ "'"))] /\
         dict_keys results =
           ["GitHub"; "Twitter"; "Instagram"; "Reddit"; "YouTube"] /\
         found =
           Z.of_nat (List.length
                       (filter (fun entry => get_flag entry "exists")
                          (dict_values results))) /\
         OSINTResult.success r = Z.ltb 0 found).
Proof.
  unfold returns, SULTANFramework.bulk_username_check.
  apply outcome_timed. apply outcome_bind.
  unfold SULTANFramework.platforms, SULTANFramework._load_default_platforms.
  cbn [for_each]. apply outcome_bind.
  eapply outcome_weaken; [apply check_platform_files | | contradiction].
  intros [r1 f1] w1 (v1 & E1 & F1). simpl in E1, F1. subst r1 f1.
  cbn [for_each]. apply outcome_bind.
  eapply outcome_weaken; [apply check_platform_files | | contradiction].
  intros [r2 f2] w2 (v2 & E2 & F2). simpl in E2, F2. subst r2 f2.
  cbn [for_each]. apply outcome_bind.
  eapply outcome_weaken; [apply check_platform_files | | contradiction].
  intros [r3 f3] w3 (v3 & E3 & F3). simpl in E3, F3. subst r3 f3.
  cbn [for_each]. apply outcome_bind.
  eapply outcome_weaken; [apply check_platform_files | | contradiction].
  intros [r4 f4] w4 (v4 & E4 & F4). simpl in E4, F4. subst r4 f4.
  cbn [for_each]. apply outcome_bind.
  eapply outcome_weaken; [apply check_platform_files | | contradiction].
  intros [r5 f5] w5 (v5 & E5 & F5). simpl in E5, F5. subst r5 f5.
  cbn [for_each]. run.
  repeat split. eexists. eexists. split; [reflexivity|].
  split; [reflexivity|]. split; [|reflexivity].
  simpl.
  destruct (get_flag v1 "exists"), (get_flag v2 "exists"),
    (get_flag v3 "exists"), (get_flag v4 "exists"), (get_flag v5 "exists");
    reflexivity.
Qed.

(** The bulk check raises nothing and files an entry for each of the five
    platforms, in their order.  [profiles_found] is the number of entries
    that say the profile exists, between 0 and 5, and the result is a
    success exactly when it is positive; a failure carries no error. *)
Theorem bulk_check_counts (username : string) (w : World) :
  returns (SULTANFramework.bulk_username_check username) w
    (fun r _ =>
       OSINTResult.error r = None /\
       exists results found,
         dict_get (OSINTResult.data r) "results" = Some (VDict results) /\
         dict_get (OSINTResult.data r) "profiles_found" = Some (VInt found) /\
         dict_get (OSINTResult.data r) "platforms_checked" = Some (VInt 5) /\
         dict_keys results =
           ["GitHub"; "Twitter"; "Instagram"; "Reddit"; "YouTube"] /\
         found =
           Z.of_nat (List.length
                       (filter (fun entry => get_flag entry "exists")
                          (dict_values results))) /\
         (0 <= found <= 5)%Z /\
         OSINTResult.success r = Z.ltb 0 found).
Proof.
  eapply outcome_weaken; [apply bulk_check_frame | | auto].
  intros r w' (_ & _ & _ & Herr & results & found & Hdata & Hkeys & Hfound & Hs).
  split; [exact Herr|]. exists results, found. rewrite Hdata.
  repeat split; try assumption.
  - lia.
  - subst found.
    pose proof (filter_length_le (fun entry => get_flag entry "exists")
                  (dict_values results)) as Hle.
    unfold dict_values in Hle. rewrite length_map in Hle.
    assert (Hlen : List.length results = 5).
    { unfold dict_keys in Hkeys.
      rewrite <- (length_map fst results), Hkeys. reflexivity. }
    unfold dict_values. lia.
Qed.

Lemma sultan_search_returns (query query_type : string) (w : World) :
  returns (SULTANFramework.search query query_type) w
    (fun r _ => OSINTResult.service r = "SULTAN" /\
                OSINTResult.query r = query).
Proof.
  unfold returns, SULTANFramework.search.
  destruct (String.eqb query_type "bulk_username_check").
  - eapply outcome_weaken; [apply bulk_check_frame | | auto].
    now intros r w' (H1 & H2 & _).
  - run. split; reflexivity.
Qed.

End Facts.
End SultanFacts.

(** ** Image analysis *)

Module ImageFacts.
Import Py Runtime Outcome OutcomeFacts Shape Steps.

Section Facts.
Context `{FL : Floats} `{OUT : @Outside FL} `{LIB : @Library FL}.

Ltac run := unfold outcome, bind, try_except, new_result, time_time,
              datetime_now_isoformat, ask, ret, lift; simpl.

(** A round of the reverse search raises nothing and files one entry, under
    the name of its search engine; when [quote] raises on the query the
    round ends before any request. *)
Lemma reverse_search_files (query : string) (results : Dict)
    (entry : string * (string * string)) (w : World) :
  returns (ImageAnalysisOSINT.reverse_search query results entry) w
    (fun results' w' =>
       (exists info, results' = dict_set results (fst entry) (VDict info)) /\
       (forall e, quote query = inl e -> w' = w)).
Proof.
  destruct entry as [service_id [url service_name]].
  unfold returns, ImageAnalysisOSINT.reverse_search. simpl.
  apply outcome_try, outcome_bind, outcome_lift.
  - intros quoted Hq. apply outcome_bind.
    eapply outcome_weaken; [apply outcome_any | |].
    + intros response w1 _. run. split; [eauto | congruence].
    + intros e w1 _. run. split; [eauto | congruence].
  - intros e Hq. run. split; [eauto | reflexivity].
Qed.

(** The EXIF lookup raises exactly when [quote] raises on the address: the
    handler calls [quote] again, and the exception leaves it before any
    request was made. *)
Lemma exif_outcome (image_url : string) (w : World) :
  outcome (ImageAnalysisOSINT._extract_exif_data image_url) w
    (fun _ _ => exists quoted, quote image_url = inr quoted)
    (fun e w' => quote image_url = inl e /\ w' = w).
Proof.
  unfold ImageAnalysisOSINT._extract_exif_data.
  apply outcome_try, outcome_bind, outcome_lift.
  - intros quoted Hq. apply outcome_bind.
    eapply outcome_weaken; [apply outcome_any | |].
    + intros response w1 _.
      destruct (Z.eqb (resp_status_code response) 200); run; eauto.
    + intros e w1 _. apply outcome_bind. rewrite Hq. run. eauto.
  - intros e Hq. apply outcome_bind. rewrite Hq. run. auto.
Qed.

Lemma image_search_frame (query query_type : string) (w : World) :
  outcome (ImageAnalysisOSINT.search query query_type) w
    (fun r _ =>
       (exists quoted, quote query = inr quoted) /\
       OSINTResult.service r = "ImageAnalysisOSINT" /\
       OSINTResult.query r = query /\
       OSINTResult.query_type r = query_type /\
       OSINTResult.error r = None /\
       exists results total,
         OSINTResult.data r =
           [("reverse_search_results", VDict results);
            ("total_accessible_services", VInt (Z.of_nat total))] /\
         total =
           List.length (filter (fun entry => get_flag entry "accessible")
                          (dict_values results)) /\
         firstn 5 (dict_keys results) =
           ["google"; "yandex"; "tineye"; "bing"; "baidu"] /\
         List.length results <= 6 /\
         OSINTResult.success r = Nat.ltb 0 total)
    (fun e w' => quote query = inl e /\ quiet w w').
Proof.
  unfold ImageAnalysisOSINT.search.
  apply outcome_timed. apply outcome_bind.
  unfold ImageAnalysisOSINT.services. cbn [for_each]. apply outcome_bind.
  eapply outcome_weaken; [apply reverse_search_files | | contradiction].
  intros r1 w1 ((i1 & ->) & Hw1). cbn [for_each fst]. apply outcome_bind.
  eapply outcome_weaken; [apply reverse_search_files | | contradiction].
  intros r2 w2 ((i2 & ->) & Hw2). cbn [for_each fst]. apply outcome_bind.
  eapply outcome_weaken; [apply reverse_search_files | | contradiction].
  intros r3 w3 ((i3 & ->) & Hw3). cbn [for_each fst]. apply outcome_bind.
  eapply outcome_weaken; [apply reverse_search_files | | contradiction].
  intros r4 w4 ((i4 & ->) & Hw4). cbn [for_each fst]. apply outcome_bind.
  eapply outcome_weaken; [apply reverse_search_files | | contradiction].
  intros r5 w5 ((i5 & ->) & Hw5). cbn [for_each fst]. unfold ret at 1.
  unfold outcome at 1. apply outcome_bind.
  eapply outcome_weaken; [apply exif_outcome | |].
  - intros exif w6 Hquoted. run.
    split; [exact Hquoted|].
    repeat split. eexists. eexists. split; [reflexivity|].
    split; [reflexivity|].
    split; [destruct exif as [[|field exif]|]; reflexivity|].
    split; [destruct exif as [[|field exif]|]; simpl; lia|].
    apply existsb_filter.
  - intros e w6 (Hq & ->). split; [exact Hq|].
    rewrite (Hw5 e Hq), (Hw4 e Hq), (Hw3 e Hq), (Hw2 e Hq), (Hw1 e Hq).
    reflexivity.
Qed.

(** The image search accepts any query type, and raises exactly when
    [quote] raises on the query: then the exception of [quote] leaves the
    search, through the handler of the EXIF lookup, before any request is
    made.  Otherwise its result holds an entry for each of the five search
    engines, in their order, and at most one more, the EXIF entry;
    [total_accessible_services] counts the entries marked accessible, the
    EXIF entry among them, and is at most 6; the result is a success exactly
    when the count is positive, and a failure carries no error. *)
Theorem image_search_counts (query query_type : string) (w : World) :
  outcome (ImageAnalysisOSINT.search query query_type) w
    (fun r _ =>
       (exists quoted, quote query = inr quoted) /\
       OSINTResult.query_type r = query_type /\
       OSINTResult.error r = None /\
       exists results total,
         dict_get (OSINTResult.data r) "reverse_search_results" =
           Some (VDict results) /\
         dict_get (OSINTResult.data r) "total_accessible_services" =
           Some (VInt (Z.of_nat total)) /\
         firstn 5 (dict_keys results) =
           ["google"; "yandex"; "tineye"; "bing"; "baidu"] /\
         total =
           List.length (filter (fun entry => get_flag entry "accessible")
                          (dict_values results)) /\
         total <= 6 /\
         OSINTResult.success r = Nat.ltb 0 total)
    (fun e w' => quote query = inl e /\ quiet w w').
Proof.
  eapply outcome_weaken; [apply image_search_frame | | auto].
  intros r w' (Hquoted & _ & _ & Ht & Herr & results & total & Hdata & Htotal
               & Hkeys & Hlen & Hs).
  split; [exact Hquoted|]. split; [exact Ht|]. split; [exact Herr|].
  exists results, total. rewrite Hdata. repeat split; try assumption.
  subst total.
  pose proof (filter_length_le (fun entry => get_flag entry "accessible")
                (dict_values results)) as Hle.
  unfold dict_values in Hle. rewrite length_map in Hle.
  unfold dict_values. lia.
Qed.

End Facts.
End ImageFacts.

(** ** More on the dispatcher *)

Module DispatchMore.
Import Py Runtime Outcome OutcomeFacts Shape Steps Batches.
Import ComprehensiveOSINTEngine.

Section Generic.
Context `{FL : Floats} `{OUT : @Outside FL}.

Lemma skipped_loop (self : Services) (query : string) (tags : list string) :
  forallb (fun t => negb (SearchTypes.dispatched t)) tags = true ->
  forall acc w, for_each tags (search_one self query) acc w = (inr acc, w).
Proof.
  induction tags as [|t tags IH]; simpl; intros H acc w; [reflexivity|].
  apply andb_prop in H as [Ht Hrest].
  unfold SearchTypes.dispatched in Ht. apply negb_true_iff in Ht.
  apply orb_false_elim in Ht as [Ht Hbulk].
  apply orb_false_elim in Ht as [Ht Hutil].
  apply orb_false_elim in Ht as [Hsocial Himage].
  unfold bind at 1, search_one at 1, try_except, dispatch.
  rewrite Hsocial, Himage, Hutil, Hbulk. unfold ret at 1.
  now apply IH.
Qed.

(** Search types that the dispatcher has no branch for are passed over in
    silence: a list of such types gives the empty batch, and nothing is
    called, logged or raised. *)
Theorem unknown_types_skipped (self : Services) (query : string)
    (tags : list string) (w : World) :
  forallb (fun t => negb (SearchTypes.dispatched t)) tags = true ->
  search_comprehensive self query (Some tags) w = (inr [], w).
Proof. intros H. unfold search_comprehensive. now apply skipped_loop. Qed.

Lemma for_each_app {A B} (xs ys : list A) (body : B -> A -> M B) :
  forall acc w,
    for_each (xs ++ ys) body acc w =
    bind (for_each xs body acc) (for_each ys body) w.
Proof.
  induction xs as [|x xs IH]; intros acc w; simpl; [reflexivity|].
  unfold bind. destruct (body acc x w) as [[e|acc'] w1]; [reflexivity|].
  rewrite IH. reflexivity.
Qed.

Lemma Batch_functional (self : Services) (query : string)
    (w : World) (tags : list string) (b : list OSINTResult.t) (w' : World) :
  Batch self query w tags b w' ->
  forall b2 w2, Batch self query w tags b2 w2 -> b2 = b /\ w2 = w'.
Proof.
  induction 1 as [w | w w1 w' t rest found later Hd _ IH
                    | w w1 w' t rest e later Hd _ IH];
    intros b2 w2 H2; inversion H2; subst.
  - auto.
  - match goal with
    | H : dispatch _ _ _ _ _ = (inr _, _) |- _ =>
        rewrite Hd in H; inversion H; subst
    end.
    match goal with
    | H : Batch _ _ _ _ _ _ |- _ => destruct (IH _ _ H); subst; auto
    end.
  - congruence.
  - congruence.
  - match goal with
    | H : dispatch _ _ _ _ _ = (inl _, _) |- _ =>
        rewrite Hd in H; inversion H; subst
    end.
    match goal with
    | H : Batch _ _ _ _ _ _ |- _ => destruct (IH _ _ H); subst; auto
    end.
Qed.

(** A list of search types can be run in two parts, the second from the
    world the first has left: the two batches, one after the other, are the
    batch of the whole list, and the world at the end is the same. *)
Theorem batch_in_parts (self : Services) (query : string)
    (first second : list string) (w : World) :
  exists b1 w1 b2 w2,
    search_comprehensive self query (Some first) w = (inr b1, w1) /\
    search_comprehensive self query (Some second) w1 = (inr b2, w2) /\
    search_comprehensive self query (Some (first ++ second)%list) w =
      (inr (b1 ++ b2)%list, w2).
Proof.
  unfold search_comprehensive.
  destruct (DispatchFacts.search_loop self query first [] w)
    as (b1 & w1 & H1 & _).
  destruct (DispatchFacts.search_loop self query second [] w1)
    as (b2 & w2 & H2 & HB2).
  destruct (DispatchFacts.search_loop self query second b1 w1)
    as (b2' & w2' & H2' & HB2').
  destruct (Batch_functional _ _ _ _ _ _ HB2 _ _ HB2') as [-> ->].
  exists b1, w1, b2, w2. simpl in H1, H2.
  repeat split; [exact H1 | exact H2 |].
  rewrite for_each_app. unfold bind. rewrite H1. exact H2'.
Qed.

End Generic.

Section Own.
Context `{FL : Floats} `{OUT : @Outside FL} `{LIB : @Library FL}
        `{SER : @Serializers FL Report}.

(** A round of the loop with the services of the engine itself raises
    nothing, and adds the results that the labels of its search type
    announce: the image search is the one service call that can raise, when
    [quote] raises on the query, and then the round adds nothing. *)
Lemma engine_search_one (query : string) (acc : list OSINTResult.t)
    (search_type : string) (w : World) :
  let asked r := OSINTResult.query r = query in
  returns (search_one engine query acc search_type) w
    (fun rs _ =>
       map OSINTResult.service rs =
         (map OSINTResult.service acc ++ labels_of query search_type)%list /\
       (Forall asked acc -> Forall asked rs)).
Proof.
  intros asked. unfold returns, search_one. apply outcome_try.
  unfold dispatch, labels_of.
  destruct (PyStr.startswith search_type "social_").
  { apply outcome_bind. unfold engine at 1. cbn [social_media].
    apply outcome_bind.
    eapply outcome_weaken;
      [apply SocialFacts.social_search_frame | | contradiction].
    intros rs w1 (Hm & Hf). unfold outcome, ret. split.
    - now rewrite map_app, Hm.
    - intros Hacc. apply Forall_app. split; [exact Hacc|].
      eapply Forall_impl; [|exact Hf]. now intros r (Hq & _). }
  destruct (String.eqb search_type "image_analysis").
  { apply outcome_bind. unfold engine at 1. cbn [image_analysis].
    eapply outcome_weaken; [apply ImageFacts.image_search_frame | |].
    - intros r w1 ((quoted & Hquoted) & Hs & Hq & _). rewrite Hquoted.
      unfold outcome, ret. split.
      + rewrite map_app. simpl. now rewrite Hs.
      + intros Hacc. apply Forall_app. split; [exact Hacc|].
        repeat constructor. exact Hq.
    - intros e w1 (Hquoted & _). rewrite Hquoted.
      unfold outcome, bind, logger, emit, ret. simpl.
      split; [now rewrite app_nil_r | auto]. }
  destruct (PyStr.startswith search_type "utility_").
  { apply outcome_bind. unfold engine at 1. cbn [utilities].
    eapply outcome_weaken;
      [apply UtilityFacts.utility_search_returns | | contradiction].
    intros r w1 (Hs & Hq). unfold outcome, ret. split.
    - rewrite map_app. simpl. now rewrite Hs.
    - intros Hacc. apply Forall_app. split; [exact Hacc|].
      repeat constructor. exact Hq. }
  destruct (String.eqb search_type "bulk_username").
  { apply outcome_bind. unfold engine at 1. cbn [sultan].
    eapply outcome_weaken;
      [apply SultanFacts.sultan_search_returns | | contradiction].
    intros r w1 (Hs & Hq). unfold outcome, ret. split.
    - rewrite map_app. simpl. now rewrite Hs.
    - intros Hacc. apply Forall_app. split; [exact Hacc|].
      repeat constructor. exact Hq. }
  unfold outcome, ret. split; [now rewrite app_nil_r | auto].
Qed.

Lemma engine_loop (query : string) (tags : list string) :
  let asked r := OSINTResult.query r = query in
  forall acc w,
    Forall asked acc ->
    returns (for_each tags (search_one engine query) acc) w
      (fun rs _ =>
         map OSINTResult.service rs =
           (map OSINTResult.service acc ++ flat_map (labels_of query) tags)%list /\
         Forall asked rs).
Proof.
  intros asked. induction tags as [|t tags IH]; intros acc w Hacc.
  - unfold returns, outcome. simpl. split; [now rewrite app_nil_r | exact Hacc].
  - unfold returns. cbn [for_each]. apply outcome_bind.
    eapply outcome_weaken; [apply engine_search_one | | contradiction].
    intros rs w1 (Hm & Hf).
    eapply outcome_weaken; [apply IH; auto | | auto].
    intros rs' w2 (Hm' & Hf'). split; [|exact Hf'].
    rewrite Hm', Hm. simpl. now rewrite app_assoc.
Qed.

(** With the four services of the engine itself the labels of a batch are
    fixed by the search types, in their order, and by whether [quote]
    accepts the query: the image search is the one extractor that can be
    left out of a batch, when [quote] raises on the query.  Every result is
    for the query of the search. *)
Theorem engine_batch_labels (query : string) (tags : list string) (w : World) :
  returns (search_comprehensive engine query (Some tags)) w
    (fun batch _ =>
       map OSINTResult.service batch = flat_map (labels_of query) tags /\
       Forall (fun r => OSINTResult.query r = query) batch).
Proof.
  unfold search_comprehensive.
  eapply outcome_weaken; [apply (engine_loop query tags []); constructor | | auto].
  intros rs w' H. exact H.
Qed.

(** An automatic search for a query of the shape of a username brings one
    result, that of the SULTAN bulk check: the tag [social_username] that the
    classifier gives selects no platform, so no social extractor is run. *)
Theorem username_auto_search (query : string) (w : World) :
  2 <= String.length query -> String.length query <= 30 ->
  PyStr.all_chars PyStr.is_username_char query = true ->
  Classifier._is_url query = false ->
  returns (search_comprehensive engine query None) w
    (fun batch _ =>
       map OSINTResult.service batch = ["SULTAN"] /\
       Forall (fun r => OSINTResult.query r = query) batch).
Proof.
  intros Hlo Hhi Hall Hurl. unfold search_comprehensive.
  rewrite (ClassifierFacts.username_branch query Hurl)
    by now apply ClassifierFacts.looks_like_username_intro.
  eapply outcome_weaken;
    [apply (engine_loop query ["social_username"; "bulk_username"] []);
     constructor | | auto].
  intros rs w' H. exact H.
Qed.

(** An automatic search for a query with an [@] and a dot that is no URL
    makes no request at all: it brings one result, a LinkedIn success that
    says the e-mail lookup is deprecated. *)
Theorem email_auto_search (query : string) (w : World) :
  Classifier._is_url query = false ->
  PyStr.contains "@" query = true -> PyStr.contains "." query = true ->
  returns (search_comprehensive engine query None) w
    (fun batch w' =>
       quiet w w' /\
       exists r,
         batch = [r] /\
         OSINTResult.service r = "LinkedIn" /\
         OSINTResult.query r = query /\
         OSINTResult.success r = true /\
         dict_get (OSINTResult.data r) "email_lookup_status" =
           Some (VStr "deprecated")).
Proof.
  intros Hurl Hat Hdot. unfold search_comprehensive.
  assert (Htags : Classifier._determine_search_types query =
                  ["social_linkedin_email_lookup"]).
  { unfold Classifier._determine_search_types, Classifier.looks_like_email.
    rewrite Hurl, Hat, Hdot.
    rewrite (ClassifierMore.foreign_char_not_username "@"%char query);
      try reflexivity; [discriminate|].
    now rewrite <- ClassifierMore.contains_single. }
  rewrite Htags. unfold returns, outcome. vm_compute.
  split; [reflexivity|]. eexists. repeat split.
Qed.

End Own.

Import Demo.

Lemma unknown_types_skipped_witness :
  search_comprehensive broken_image_engine "octocat"
    (Some ["pokemon"; "username"; "image"]) w0 = (inr [], w0).
Proof.
  apply (unknown_types_skipped broken_image_engine "octocat"
           ["pokemon"; "username"; "image"] w0).
  reflexivity.
Defined.

Lemma username_auto_search_witness :
  returns (search_comprehensive engine "testuser" None) w0
    (fun batch _ =>
       map OSINTResult.service batch = ["SULTAN"] /\
       Forall (fun r => OSINTResult.query r = "testuser") batch).
Proof.
  apply (username_auto_search "testuser" w0); simpl; try lia; reflexivity.
Defined.

Lemma email_auto_search_witness :
  returns (search_comprehensive engine "jane@example.io" None) w0
    (fun batch w' =>
       quiet w0 w' /\
       exists r,
         batch = [r] /\
         OSINTResult.service r = "LinkedIn" /\
         OSINTResult.query r = "jane@example.io" /\
         OSINTResult.success r = true /\
         dict_get (OSINTResult.data r) "email_lookup_status" =
           Some (VStr "deprecated")).
Proof.
  apply (email_auto_search "jane@example.io" w0); reflexivity.
Defined.

End DispatchMore.

(** ** More on the report *)

Module ReportMore.
Import Py Runtime Outcome OutcomeFacts Steps Reporting.
Import ComprehensiveOSINTEngine.

Section Facts.
Context `{FL : Floats} `{OUT : @Outside FL} `{LIB : @Library FL}
        `{SER : @Serializers FL Report}.

Lemma organize_findings (report : Report) (result : OSINTResult.t) :
  key_findings (organize report result) =
  (key_findings report ++
   if has_findings result then [finding_of result] else [])%list.
Proof.
  unfold organize, has_findings.
  destruct (OSINTResult.success result) eqn:Hs; simpl.
  - destruct (OSINTResult.data result) eqn:Hd; simpl.
    + now rewrite app_nil_r.
    + unfold finding_of. rewrite Hs, Hd. reflexivity.
  - now rewrite app_nil_r.
Qed.

Lemma organize_all_findings (results : list OSINTResult.t) (report : Report) :
  key_findings (fold_left organize results report) =
  (key_findings report ++ map finding_of (filter has_findings results))%list.
Proof.
  revert report. induction results as [|r results IH]; intros report; simpl.
  - now rewrite app_nil_r.
  - rewrite IH, organize_findings.
    destruct (has_findings r); simpl; rewrite <- app_assoc; reflexivity.
Qed.

Lemma organize_urls (report : Report) (result : OSINTResult.t) :
  urls_discovered (organize report result) =
  (urls_discovered report ++
   if has_findings result then urls_of result else [])%list.
Proof.
  unfold organize, has_findings.
  destruct (OSINTResult.success result); simpl.
  - destruct (OSINTResult.data result) eqn:Hd; simpl.
    + now rewrite app_nil_r.
    + reflexivity.
  - now rewrite app_nil_r.
Qed.

Lemma organize_all_urls (results : list OSINTResult.t) (report : Report) :
  urls_discovered (fold_left organize results report) =
  (urls_discovered report ++
   flat_map urls_of (filter has_findings results))%list.
Proof.
  revert report. induction results as [|r results IH]; intros report; simpl.
  - now rewrite app_nil_r.
  - rewrite IH, organize_urls.
    destruct (has_findings r); simpl; rewrite <- app_assoc; reflexivity.
Qed.

Lemma has_findings_success (results : list OSINTResult.t) :
  List.length (filter has_findings results) <=
  List.length (filter OSINTResult.success results).
Proof.
  induction results as [|r results IH]; simpl; [lia|].
  unfold has_findings at 1.
  destruct (OSINTResult.success r); simpl; [|exact IH].
  destruct (OSINTResult.data r); simpl; lia.
Qed.

(** The key findings of a report are the successful results that carry
    data, in their order: a success without data, as LinkedIn and Reddit
    give, is counted as successful but is no finding. *)
Theorem findings_are_successes_with_data (results : list OSINTResult.t)
    (w : World) :
  returns (generate_comprehensive_report results "dict") w
    (fun out _ =>
       exists report,
         out = AsDict report /\
         key_findings report = map finding_of (filter has_findings results) /\
         List.length (key_findings report) <=
           successful_searches (search_summary report)).
Proof.
  unfold returns, outcome, generate_comprehensive_report, bind,
    datetime_now_isoformat, ask, ret. simpl.
  eexists. split; [reflexivity|].
  rewrite organize_all_findings, ReportFacts.organize_all_summary. simpl.
  split; [reflexivity|].
  rewrite length_map, ReportFacts.count_if_filter.
  apply has_findings_success.
Qed.

(** Every URL that a report lists as discovered passes [_is_url], and is a
    string held in the data of a successful result, under the key given as
    context and with the service of that result as source. *)
Theorem discovered_urls_are_urls (results : list OSINTResult.t) (w : World) :
  returns (generate_comprehensive_report results "dict") w
    (fun out _ =>
       exists report,
         out = AsDict report /\
         urls_discovered report =
           flat_map urls_of (filter has_findings results) /\
         Forall (fun found =>
                   Classifier._is_url (url found) = true /\
                   exists r,
                     In r results /\ OSINTResult.success r = true /\
                     source found = OSINTResult.service r /\
                     In (context found, VStr (url found)) (OSINTResult.data r))
           (urls_discovered report)).
Proof.
  unfold returns, outcome, generate_comprehensive_report, bind,
    datetime_now_isoformat, ask, ret. simpl.
  eexists. split; [reflexivity|].
  rewrite organize_all_urls. simpl. split; [reflexivity|].
  apply Forall_forall. intros found Hin.
  apply in_flat_map in Hin as (r & Hr & Hfound).
  apply filter_In in Hr as [Hr Hfind].
  unfold urls_of in Hfound.
  apply in_flat_map in Hfound as ([key value] & Hkv & Hfound). simpl in Hfound.
  destruct value; try contradiction.
  destruct (Classifier._is_url s) eqn:Hurl; [|contradiction].
  destruct Hfound as [<-|[]]. simpl. split; [exact Hurl|].
  exists r. repeat split; auto.
  unfold has_findings in Hfind. now apply andb_prop in Hfind as [Hs _].
Qed.

Lemma first_seen_snoc (seen keys : list string) (k : string) :
  first_seen seen (keys ++ [k]) =
  if existsb (String.eqb k) (first_seen seen keys)
  then first_seen seen keys
  else (first_seen seen keys ++ [k])%list.
Proof.
  revert seen. induction keys as [|a keys IH]; intros seen; simpl.
  - destruct (existsb (String.eqb k) seen); reflexivity.
  - destruct (existsb (String.eqb a) seen); apply IH.
Qed.

Lemma existsb_snoc (k a : string) (l : list string) :
  existsb (String.eqb k) (l ++ [a]) = existsb (String.eqb k) l || String.eqb k a.
Proof. rewrite existsb_app. simpl. now rewrite orb_false_r. Qed.

Lemma first_seen_mem (k : string) (keys seen : list string) :
  existsb (String.eqb k) (first_seen seen keys) =
  existsb (String.eqb k) seen || existsb (String.eqb k) keys.
Proof.
  revert seen. induction keys as [|a keys IH]; intros seen; simpl.
  - now rewrite orb_false_r.
  - destruct (existsb (String.eqb a) seen) eqn:Ha; rewrite IH.
    + destruct (String.eqb_spec k a) as [->|]; simpl; [|reflexivity].
      now rewrite Ha.
    + rewrite existsb_snoc, orb_assoc. reflexivity.
Qed.

Lemma existsb_eqb_In (k : string) (l : list string) :
  existsb (String.eqb k) l = true <-> In k l.
Proof.
  rewrite existsb_exists. split.
  - intros (x & Hx & E). apply String.eqb_eq in E. now subst.
  - intros H. exists k. split; [exact H | apply String.eqb_refl].
Qed.

Lemma first_seen_nodup (keys seen : list string) :
  NoDup seen -> NoDup (first_seen seen keys).
Proof.
  revert seen. induction keys as [|a keys IH]; intros seen Hseen; simpl; auto.
  destruct (existsb (String.eqb a) seen) eqn:Ha; [auto|].
  apply IH. apply NoDup_app; [exact Hseen | repeat constructor; auto |].
  intros x Hx [<-|[]]. apply existsb_eqb_In in Hx. congruence.
Qed.

Lemma add_entry_keyed (F : string -> list ServiceEntry) (keys : list string)
    (service : string) (entry : ServiceEntry) :
  NoDup keys ->
  add_entry (map (fun k => (k, F k)) keys) service entry =
  if existsb (String.eqb service) keys
  then map (fun k => (k, if String.eqb service k
                         then (F k ++ [entry])%list else F k)) keys
  else (map (fun k => (k, F k)) keys ++ [(service, [entry])])%list.
Proof.
  induction keys as [|k keys IH]; intros Hnd; simpl; [reflexivity|].
  inversion Hnd as [|? ? Hk Hnd']; subst.
  destruct (String.eqb_spec service k) as [->|Hne]; simpl.
  - f_equal. apply map_ext_in. intros k' Hk'.
    destruct (String.eqb_spec k k') as [->|]; [contradiction | reflexivity].
  - rewrite (IH Hnd').
    destruct (existsb (String.eqb service) keys); reflexivity.
Qed.

Lemma of_service_snoc (service : string) (results : list OSINTResult.t)
    (r : OSINTResult.t) :
  of_service service (results ++ [r]) =
  (of_service service results ++
   if String.eqb (OSINTResult.service r) service then [r] else [])%list.
Proof. unfold of_service. rewrite filter_app. reflexivity. Qed.

Lemma of_service_none (service : string) (results : list OSINTResult.t) :
  existsb (String.eqb service) (map OSINTResult.service results) = false ->
  of_service service results = [].
Proof.
  induction results as [|r results IH]; simpl; [reflexivity|].
  intros H. apply orb_false_elim in H as [Hr Hrest].
  rewrite String.eqb_sym, Hr. auto.
Qed.

Lemma grouped_snoc (results : list OSINTResult.t) (r : OSINTResult.t) :
  grouped (results ++ [r]) =
  add_entry (grouped results) (OSINTResult.service r) (entry_of r).
Proof.
  unfold grouped. rewrite map_app. simpl.
  rewrite first_seen_snoc.
  rewrite (add_entry_keyed
             (fun k => map entry_of (of_service k results)))
    by (apply first_seen_nodup; constructor).
  set (keys := first_seen [] (map OSINTResult.service results)).
  destruct (existsb (String.eqb (OSINTResult.service r)) keys) eqn:Hmem.
  - apply map_ext. intros k. rewrite of_service_snoc, map_app.
    destruct (String.eqb (OSINTResult.service r) k); simpl;
      [reflexivity | now rewrite app_nil_r].
  - rewrite map_app. simpl. f_equal.
    + apply map_ext_in. intros k Hk. rewrite of_service_snoc.
      destruct (String.eqb_spec (OSINTResult.service r) k) as [E|_];
        [|now rewrite app_nil_r].
      subst k. apply existsb_eqb_In in Hk. congruence.
    + rewrite of_service_snoc, String.eqb_refl, of_service_none; [reflexivity|].
      subst keys. rewrite first_seen_mem in Hmem. exact Hmem.
Qed.

Lemma organize_groups (report : Report) (result : OSINTResult.t) :
  results_by_service (organize report result) =
  add_entry (results_by_service report) (OSINTResult.service result)
    (entry_of result).
Proof.
  unfold organize. destruct (OSINTResult.success result && _); reflexivity.
Qed.

Lemma organize_all_groups (results : list OSINTResult.t) (report : Report) :
  results_by_service report = [] ->
  results_by_service (fold_left organize results report) = grouped results.
Proof.
  intros Hempty. induction results as [|r results IH] using rev_ind.
  - exact Hempty.
  - rewrite fold_left_app. simpl.
    now rewrite organize_groups, IH, grouped_snoc.
Qed.

Lemma add_entry_size (groups : list (string * list ServiceEntry))
    (service : string) (entry : ServiceEntry) :
  List.length (concat (map snd (add_entry groups service entry))) =
  S (List.length (concat (map snd groups))).
Proof.
  induction groups as [|[k entries] groups IH]; simpl; [reflexivity|].
  destruct (String.eqb service k); simpl.
  - rewrite !length_app. simpl. lia.
  - rewrite !length_app, IH. lia.
Qed.

Lemma grouped_size (results : list OSINTResult.t) :
  List.length (concat (map snd (grouped results))) = List.length results.
Proof.
  induction results as [|r results IH] using rev_ind; [reflexivity|].
  rewrite grouped_snoc, add_entry_size, IH, length_app. simpl. lia.
Qed.

(** The report groups the results by service: the services come in the
    order they are first seen, each once, and each with the entries of its
    results in their order, so that every result is under exactly one
    service. *)
Theorem report_groups_by_service (results : list OSINTResult.t) (w : World) :
  returns (generate_comprehensive_report results "dict") w
    (fun out _ =>
       exists report,
         out = AsDict report /\
         results_by_service report = grouped results /\
         NoDup (map fst (results_by_service report)) /\
         List.length (concat (map snd (results_by_service report))) =
           List.length results).
Proof.
  unfold returns, outcome, generate_comprehensive_report, bind,
    datetime_now_isoformat, ask, ret. simpl.
  eexists. split; [reflexivity|].
  rewrite organize_all_groups by reflexivity.
  split; [reflexivity|]. split; [|apply grouped_size].
  unfold grouped. rewrite map_map. simpl. rewrite map_id.
  apply first_seen_nodup. constructor.
Qed.

Lemma organize_profiles (report : Report) (result : OSINTResult.t)
    (P : ProfileFound -> Prop) :
  (forall p, profile_service p = OSINTResult.service result ->
             In (OSINTResult.service result) ["SocialMediaOSINT"; "SULTAN"] ->
             P p) ->
  Forall P (profiles_found report) ->
  Forall P (profiles_found (organize report result)).
Proof.
  intros Hnew Hold. unfold organize.
  destruct (OSINTResult.success result && _); [|exact Hold].
  unfold _extract_key_findings. simpl.
  destruct (String.eqb (OSINTResult.service result) "SocialMediaOSINT") eqn:E1;
    [|destruct (String.eqb (OSINTResult.service result) "SULTAN") eqn:E2];
    simpl; try exact Hold.
  all: destruct (OSINTResult.success result && _); [|exact Hold].
  all: apply Forall_app; split; [exact Hold|]; repeat constructor.
  all: apply Hnew; [reflexivity|].
  - apply String.eqb_eq in E1. rewrite E1. simpl. auto.
  - apply String.eqb_eq in E2. rewrite E2. simpl. auto.
Qed.

Lemma organize_all_profiles (results : list OSINTResult.t) (report : Report)
    (P : ProfileFound -> Prop) :
  (forall r p, In r results ->
               profile_service p = OSINTResult.service r ->
               In (OSINTResult.service r) ["SocialMediaOSINT"; "SULTAN"] ->
               P p) ->
  Forall P (profiles_found report) ->
  Forall P (profiles_found (fold_left organize results report)).
Proof.
  revert report. induction results as [|r results IH];
    intros report Hnew Hold; simpl; [exact Hold|].
  apply IH.
  - intros r' p Hin. apply Hnew. now right.
  - apply organize_profiles; [|exact Hold].
    intros p. apply Hnew. now left.
Qed.

Lemma labels_of_known (query search_type : string) :
  incl (Batches.labels_of query search_type)
    ["Gab"; "TikTok"; "LinkedIn"; "Reddit"; "Tumblr";
     "ImageAnalysisOSINT"; "UtilityOSINT"; "SULTAN"].
Proof.
  unfold Batches.labels_of.
  destruct (PyStr.startswith search_type "social_").
  - unfold Shape.selected. intros label Hin.
    apply in_map_iff in Hin as ([p l] & <- & Hin).
    apply filter_In in Hin as [Hin _]. simpl in *.
    repeat (destruct Hin as [Hin|Hin];
            [inversion Hin; subst; simpl; auto 10|]).
    destruct Hin.
  - destruct (String.eqb search_type "image_analysis");
      [destruct (quote query); [intros l [] | intros l [<-|[]]; simpl; auto 10]|].
    destruct (PyStr.startswith search_type "utility_");
      [intros l [<-|[]]; simpl; auto 10|].
    destruct (String.eqb search_type "bulk_username");
      [intros l [<-|[]]; simpl; auto 10|].
    intros l [].
Qed.

(** In the report of a batch that the engine made with its own services,
    every profile listed as found comes from SULTAN: the results of the
    social extractors carry the name of their platform, not the service
    name the report looks for, and are never listed. *)
Theorem profiles_only_from_sultan (query : string) (tags : list string)
    (w : World) :
  returns
    (bind (search_comprehensive engine query (Some tags))
       (fun batch => generate_comprehensive_report batch "dict")) w
    (fun out _ =>
       exists report,
         out = AsDict report /\
         Forall (fun p => profile_service p = "SULTAN") (profiles_found report)).
Proof.
  unfold returns. apply outcome_bind. unfold search_comprehensive.
  eapply outcome_weaken;
    [apply (DispatchMore.engine_loop query tags []); constructor
    | | contradiction].
  intros batch w1 (Hlabels & _). simpl in Hlabels.
  unfold outcome, generate_comprehensive_report, bind,
    datetime_now_isoformat, ask, ret. simpl.
  eexists. split; [reflexivity|].
  apply organize_all_profiles; [|constructor].
  intros r p Hr Hp Hsvc. rewrite Hp.
  assert (Hin : In (OSINTResult.service r)
                  (flat_map (Batches.labels_of query) tags)).
  { rewrite <- Hlabels. now apply in_map. }
  apply in_flat_map in Hin as (t & _ & Hin).
  apply labels_of_known in Hin.
  destruct Hsvc as [E|[E|[]]]; [|now symmetry].
  rewrite <- E in Hin. simpl in Hin.
  repeat (destruct Hin as [Hin|Hin]; [discriminate|]). destruct Hin.
Qed.

End Facts.
End ReportMore.

(** ** The first framework *)

Module FrameworkFacts.
Import Py Runtime Outcome OutcomeFacts Steps.

Section Facts.
Context `{FL : Floats} `{OUT : @Outside FL} `{PG : @Framework.Pages FL}.

Ltac run := unfold outcome, bind, try_except, ret, lift; simpl.

(** A fetch of the first framework makes one HTTP request, whatever comes
    of it: there is no retry; it changes the throttling state of its own
    service only. *)
Theorem framework_fetch_once (self : BaseOSINTService.t) (url method : string)
    (w : World) :
  let left w' :=
    requested method url 1 w w' /\
    only_touches (BaseOSINTService.name self) w w' in
  outcome (Framework._make_request self url method) w
    (fun _ w' => left w') (fun _ w' => left w').
Proof.
  intros left. subst left. unfold Framework._make_request.
  apply outcome_bind.
  eapply outcome_weaken; [apply FetcherMore.rate_limit_frame | | contradiction].
  intros _ w1 (Hq & Ht & _).
  unfold outcome, try_except, bind, session_request, logger, emit, ret, raise.
  simpl. unfold quiet in Hq.
  destruct (request_at (trace w1) method url); simpl;
    (split; [unfold requested; simpl; now rewrite Hq | exact Ht]).
Qed.

Lemma framework_expand_with_files (query : string) (results : Dict)
    (expander : string * string) (w : World) :
  returns (Framework.expand_with query results expander) w (fun _ _ => True).
Proof.
  destruct expander as [service_name url_template].
  unfold returns, Framework.expand_with.
  apply outcome_try, outcome_bind, outcome_lift.
  - intros quoted _. apply outcome_bind.
    eapply outcome_weaken; [apply outcome_any | |].
    + intros response w1 _.
      destruct (Z.eqb (resp_status_code response) 200); run; auto.
      destruct (Framework._parse_expansion_response _ _); exact I.
    + intros e w1 _. run. exact I.
  - intros e _. run. exact I.
Qed.

Lemma expand_labelled (query query_type : string) (w : World) :
  returns (Framework.expand query query_type) w
    (fun r _ => Framework.service r = "URLExpander" /\
                Framework.query r = query).
Proof.
  unfold returns, Framework.expand. apply outcome_bind.
  eapply outcome_weaken;
    [apply (returns_for_each _ _ (fun _ _ => True));
     [intros; apply framework_expand_with_files | exact I]
    | | contradiction].
  intros results w1 _. run. split; reflexivity.
Qed.

Lemma reverse_with_files (query : string) (results : Dict)
    (entry : string * string) (w : World) :
  returns (Framework.reverse_with query results entry) w (fun _ _ => True).
Proof.
  destruct entry as [service_name url_template].
  unfold returns, Framework.reverse_with.
  apply outcome_try, outcome_bind, outcome_lift.
  - intros quoted _. apply outcome_bind.
    eapply outcome_weaken; [apply outcome_any | |].
    + intros response w1 _. apply outcome_bind.
      destruct (Z.eqb (resp_status_code response) 200); [|run; exact I].
      unfold Framework._analyze_image_results.
      repeat match goal with
             | |- outcome (if ?c then _ else _) _ _ _ =>
                 destruct c; [try (run; exact I)|]
             end.
      * run. destruct (Framework.google_results _); exact I.
      * run. exact I.
    + intros e w1 _. run. exact I.
  - intros e _. run. exact I.
Qed.

Lemma reverse_image_labelled (query query_type : string) (w : World) :
  returns (Framework.reverse_image query query_type) w
    (fun r _ => Framework.service r = "ImageAnalysis" /\
                Framework.query r = query).
Proof.
  unfold returns, Framework.reverse_image. apply outcome_bind.
  eapply outcome_weaken;
    [apply (returns_for_each _ _ (fun _ _ => True));
     [intros; apply reverse_with_files | exact I]
    | | contradiction].
  intros results w1 _. run. split; reflexivity.
Qed.

Lemma search_profile_labelled (label url : string)
    (read : string -> exn + Dict) (username : string) (w : World) :
  returns (Framework.search_profile label url read username) w
    (fun r _ =>
       Framework.service r = label /\ Framework.query r = username /\
       Framework.query_type r = "username").
Proof.
  unfold returns, Framework.search_profile.
  apply outcome_try, outcome_bind.
  eapply outcome_weaken; [apply outcome_any | |].
  - intros response w1 _.
    destruct (Z.eqb (resp_status_code response) 200); run; auto.
    destruct (read _); simpl; auto.
  - intros e w1 _. run. auto.
Qed.

Lemma search_kind_labels (query : string) (acc : list Framework.Result)
    (query_type : string) (w : World) :
  let asked r := Framework.query r = query in
  returns (Framework.search_kind query acc query_type) w
    (fun rs _ =>
       map Framework.service rs =
         (map Framework.service acc ++ Framework.labels_of query query_type)%list /\
       (Forall asked acc -> Forall asked rs)).
Proof.
  intros asked. unfold returns, Framework.search_kind, Framework.labels_of.
  destruct (String.eqb query_type "url_expand" && _).
  { apply outcome_bind.
    eapply outcome_weaken; [apply expand_labelled | | contradiction].
    intros r w1 (Hs & Hq). unfold outcome, ret. split.
    - rewrite map_app. simpl. now rewrite Hs.
    - intros H. apply Forall_app. split; [exact H | repeat constructor; exact Hq]. }
  destruct (String.eqb query_type "reverse_image" && _).
  { apply outcome_bind.
    eapply outcome_weaken; [apply reverse_image_labelled | | contradiction].
    intros r w1 (Hs & Hq). unfold outcome, ret. split.
    - rewrite map_app. simpl. now rewrite Hs.
    - intros H. apply Forall_app. split; [exact H | repeat constructor; exact Hq]. }
  destruct (String.eqb query_type "username").
  { apply outcome_bind.
    eapply outcome_weaken; [apply search_profile_labelled | | contradiction].
    intros gab w1 (Hs1 & Hq1 & _). apply outcome_bind.
    eapply outcome_weaken; [apply search_profile_labelled | | contradiction].
    intros tiktok w2 (Hs2 & Hq2 & _). unfold outcome, ret. split.
    - rewrite map_app. simpl. now rewrite Hs1, Hs2.
    - intros H. apply Forall_app. split; [exact H|].
      repeat constructor; assumption. }
  unfold outcome, ret. split; [now rewrite app_nil_r | auto].
Qed.

Lemma search_all_loop (query : string) (types : list string) :
  let asked r := Framework.query r = query in
  forall acc w,
    Forall asked acc ->
    returns (for_each types (Framework.search_kind query) acc) w
      (fun rs _ =>
         map Framework.service rs =
           (map Framework.service acc ++
            flat_map (Framework.labels_of query) types)%list /\
         Forall asked rs).
Proof.
  intros asked. induction types as [|t types IH]; intros acc w Hacc.
  - unfold returns, outcome. simpl. split; [now rewrite app_nil_r | exact Hacc].
  - unfold returns. cbn [for_each]. apply outcome_bind.
    eapply outcome_weaken; [apply search_kind_labels | | contradiction].
    intros rs w1 (Hm & Hf).
    eapply outcome_weaken; [apply IH; auto | | auto].
    intros rs' w2 (Hm' & Hf'). split; [|exact Hf'].
    rewrite Hm', Hm. simpl. now rewrite app_assoc.
Qed.

(** [search_all] raises nothing, though it has no handler of its own: each
    service turns its failures into results.  The labels of the batch are
    fixed by the query and the kinds asked for: an expansion only for a
    query that looks like a URL, an image search only for one that looks
    like an image URL, Gab and TikTok for [username], nothing for any other
    kind. *)
Theorem framework_batch_labels (query : string) (types : list string)
    (w : World) :
  returns (Framework.search_all query (Some types)) w
    (fun batch _ =>
       map Framework.service batch =
         flat_map (Framework.labels_of query) types /\
       Forall (fun r => Framework.query r = query) batch).
Proof.
  unfold Framework.search_all.
  eapply outcome_weaken;
    [apply (search_all_loop query types []); constructor | | auto].
  intros rs w' H. exact H.
Qed.

Lemma image_url_is_url (query : string) :
  Framework._looks_like_image_url query = true ->
  Framework._looks_like_url query = true.
Proof.
  unfold Framework._looks_like_image_url, Framework._looks_like_url.
  intros H. apply andb_prop in H as [-> _]. reflexivity.
Qed.

(** A search with the default kinds always looks the query up on Gab and
    TikTok as a username, a URL too; before that it expands what looks like
    a URL and searches what looks like an image URL, and what looks like an
    image URL always looks like a URL. *)
Theorem framework_default_search (query : string) (w : World) :
  returns (Framework.search_all query None) w
    (fun batch _ =>
       map Framework.service batch =
       ((if Framework._looks_like_url query then ["URLExpander"] else []) ++
        (if Framework._looks_like_image_url query then ["ImageAnalysis"] else []) ++
        ["Gab"; "TikTok"])%list) /\
  (Framework._looks_like_image_url query = true ->
   Framework._looks_like_url query = true).
Proof.
  split; [|apply image_url_is_url].
  unfold Framework.search_all.
  eapply outcome_weaken;
    [apply (search_all_loop query ["url_expand"; "reverse_image"; "username"] []);
     constructor | | auto].
  intros rs w' (Hm & _). rewrite Hm. unfold Framework.labels_of. simpl.
  destruct (Framework._looks_like_url query),
    (Framework._looks_like_image_url query); reflexivity.
Qed.

(** The social service of the first framework takes [gab_username] and
    [tiktok_username] and answers with a result for the query type
    [username]; any other query type, its own default [username] among
    them, is refused with "Unsupported query type" and nothing is done. *)
Theorem framework_social_search (query query_type : string) (w : World) :
  (query_type = "gab_username" ->
   returns (Framework.search query query_type) w
     (fun r _ => Framework.service r = "Gab" /\
                 Framework.query_type r = "username")) /\
  (query_type = "tiktok_username" ->
   returns (Framework.search query query_type) w
     (fun r _ => Framework.service r = "TikTok" /\
                 Framework.query_type r = "username")) /\
  (query_type <> "gab_username" -> query_type <> "tiktok_username" ->
   Framework.search query query_type w =
   (inr (Framework.mkResult "SocialMedia" query query_type false []
           (Some "Unsupported query type") None), w)).
Proof.
  refine (conj _ (conj _ _)).
  - intros ->. unfold Framework.search. simpl.
    eapply outcome_weaken; [apply search_profile_labelled | | auto].
    now intros r w' (H1 & _ & H2).
  - intros ->. unfold Framework.search. simpl.
    eapply outcome_weaken; [apply search_profile_labelled | | auto].
    now intros r w' (H1 & _ & H2).
  - intros H1 H2. unfold Framework.search.
    apply String.eqb_neq in H1, H2. now rewrite H1, H2.
Qed.

End Facts.

Import Demo DemoFramework.

Lemma framework_social_search_witness :
  returns (Framework.search "octocat" "gab_username") w0
    (fun r _ => Framework.service r = "Gab" /\
                Framework.query_type r = "username") /\
  returns (Framework.search "octocat" "tiktok_username") w0
    (fun r _ => Framework.service r = "TikTok" /\
                Framework.query_type r = "username") /\
  Framework.search "octocat" "username" w0 =
  (inr (Framework.mkResult "SocialMedia" "octocat" "username" false []
          (Some "Unsupported query type") None), w0).
Proof.
  pose proof (framework_social_search "octocat" "gab_username" w0)
    as (Hgab & _ & _).
  pose proof (framework_social_search "octocat" "tiktok_username" w0)
    as (_ & Htiktok & _).
  pose proof (framework_social_search "octocat" "username" w0)
    as (_ & _ & Hother).
  split; [now apply Hgab|]. split; [now apply Htiktok|].
  apply Hother; discriminate.
Defined.

Lemma framework_default_search_witness :
  Framework._looks_like_url "https://example.com/a.png" = true.
Proof.
  apply (proj2 (framework_default_search "https://example.com/a.png" w0)).
  reflexivity.
Defined.

End FrameworkFacts.

(** ** Witnesses in the small world *)

Module MoreWitnesses.
Import Py Runtime Outcome Demo DemoFramework.

Lemma fetch_with_driver_witness :
  outcome (BaseOSINTService._make_request SocialMediaOSINT.self
             "https://www.tiktok.com/@octocat" "GET" true) w_browser
    (fun response w' =>
       resp_status_code response = 200%Z /\
       fetched_by_browser "SocialMediaOSINT"
         "https://www.tiktok.com/@octocat" w_browser w')
    (fun _ w' =>
       fetched_by_browser "SocialMediaOSINT"
         "https://www.tiktok.com/@octocat" w_browser w').
Proof.
  apply (FetcherMore.fetch_with_driver SocialMediaOSINT.self
           "https://www.tiktok.com/@octocat" "GET" w_browser).
  reflexivity.
Defined.

Lemma url_tags_need_url_shape_witness :
  In "utility_url_expansion"
    (Classifier._determine_search_types "https://bit.ly/example") /\
  In "image_analysis"
    (Classifier._determine_search_types "https://example.com/image.jpg").
Proof.
  split.
  - apply (proj2 (proj1 (ClassifierMore.url_tags_need_url_shape
                           "https://bit.ly/example"))).
    split; reflexivity.
  - apply (proj2 (proj2 (ClassifierMore.url_tags_need_url_shape
                           "https://example.com/image.jpg"))).
    split; reflexivity.
Defined.

Lemma email_tag_iff_witness :
  Classifier._determine_search_types "jane@example.io" =
  ["social_linkedin_email_lookup"].
Proof.
  apply (proj2 (ClassifierMore.email_tag_iff "jane@example.io")).
  repeat split.
Defined.

End MoreWitnesses.

(** ** The model at work, online *)

Module RunsOnline.
Import Py Runtime Demo DemoOnline ComprehensiveOSINTEngine.

Example online_bulk_check_finds_all :
  match fst (SULTANFramework.bulk_username_check "octocat" w0) with
  | inr r =>
      OSINTResult.success r = true /\
      dict_get (OSINTResult.data r) "profiles_found" = Some (VInt 5)
  | inl _ => False
  end.
Proof. vm_compute. split; reflexivity. Qed.

Example online_image_search_counts_exif :
  match fst (ImageAnalysisOSINT.search "https://example.com/a.jpg"
               "reverse_image" w0) with
  | inr r =>
      OSINTResult.success r = true /\
      dict_get (OSINTResult.data r) "total_accessible_services" =
        Some (VInt 6)
  | inl _ => False
  end.
Proof. vm_compute. split; reflexivity. Qed.

Example online_fetch_asks_once :
  network_calls
    (trace (snd (BaseOSINTService._make_request SocialMediaOSINT.self
                   "https://gab.com/octocat" "GET" false w0))) =
  [EvRequest "GET" "https://gab.com/octocat"].
Proof. vm_compute. reflexivity. Qed.

Example online_auto_search_of_short_image_url :
  match fst (search_comprehensive engine "https://bit.ly/a.jpg" None w0) with
  | inr batch =>
      map OSINTResult.service batch = ["UtilityOSINT"; "ImageAnalysisOSINT"]
  | inl _ => False
  end.
Proof. vm_compute. reflexivity. Qed.

(** When [quote] raises, the image search raises too, before any request. *)
Example refused_image_search_raises :
  ImageAnalysisOSINT.search (LIB := refusing)
    "https://example.com/a.jpg" "reverse_image" w0 =
  (inl "'utf-8' codec can't encode character",
   {| trace := [EvTime]; services := services w0 |}).
Proof. vm_compute. reflexivity. Qed.

(** The dispatcher then logs the error and leaves the image search out of
    the batch, and the URL expansion files its three errors. *)
Example refused_auto_search_drops_image :
  match fst (search_comprehensive (engine (LIB := refusing))
               "https://bit.ly/a.jpg" None w0) with
  | inr batch => map OSINTResult.service batch = ["UtilityOSINT"]
  | inl _ => False
  end.
Proof. vm_compute. reflexivity. Qed.

End RunsOnline.

(** ** The report of the first framework *)

Module FrameworkReportFacts.
Import Py Runtime FrameworkReporting.

Section Facts.
Context `{FL : Floats}.

Lemma file_all_summary (results : list Framework.Result)
    (report : Framework.Report) :
  Framework.summary (fold_left Framework.file_result results report) =
  Framework.summary report.
Proof.
  revert report. induction results as [|r results IH]; intros report; simpl;
    [reflexivity|]. now rewrite IH.
Qed.

Lemma file_all_findings (results : list Framework.Result)
    (report : Framework.Report) :
  List.length
    (Framework.findings (fold_left Framework.file_result results report)) =
  List.length (Framework.findings report) +
  List.length (filter with_data results).
Proof.
  revert report. induction results as [|r results IH]; intros report; simpl;
    [lia|].
  rewrite IH. simpl. unfold with_data.
  destruct (Framework.success r); simpl;
    [destruct (Framework.data r); simpl|];
    rewrite ?length_app; simpl; lia.
Qed.

Lemma add_result_size (groups : list (string * list Framework.Result))
    (r : Framework.Result) :
  List.length (concat (map snd (Framework.add_result groups r))) =
  S (List.length (concat (map snd groups))).
Proof.
  induction groups as [|[k listed] groups IH]; simpl; [reflexivity|].
  destruct (String.eqb (Framework.service r) k); simpl.
  - rewrite !length_app. simpl. lia.
  - rewrite !length_app, IH. lia.
Qed.

Lemma file_all_size (results : list Framework.Result)
    (report : Framework.Report) :
  List.length
    (concat (map snd (Framework.results_by_service
                        (fold_left Framework.file_result results report)))) =
  List.length (concat (map snd (Framework.results_by_service report))) +
  List.length results.
Proof.
  revert report. induction results as [|r results IH]; intros report; simpl;
    [lia|].
  rewrite IH. simpl. rewrite add_result_size. lia.
Qed.

Lemma with_data_success (results : list Framework.Result) :
  List.length (filter with_data results) <=
  List.length (filter Framework.success results).
Proof.
  induction results as [|r results IH]; simpl; [lia|].
  unfold with_data at 1.
  destruct (Framework.success r); simpl; [|exact IH].
  destruct (Framework.data r); simpl; lia.
Qed.

(** The report of the first framework counts the results, the successful
    and the failed ones, which add up; it files every result under one
    service, and it lists as findings the successes that carry data, so
    never more than there are successes. *)
Theorem framework_report_counts (results : list Framework.Result) :
  let report := Framework.generate_report results in
  Framework.total_searches (Framework.summary report) = List.length results /\
  Framework.successful_searches (Framework.summary report) =
    List.length (filter Framework.success results) /\
  Framework.successful_searches (Framework.summary report) +
    Framework.failed_searches (Framework.summary report) =
    Framework.total_searches (Framework.summary report) /\
  List.length (concat (map snd (Framework.results_by_service report))) =
    List.length results /\
  List.length (Framework.findings report) =
    List.length (filter with_data results) /\
  List.length (Framework.findings report) <=
    Framework.successful_searches (Framework.summary report).
Proof.
  intros report. subst report. unfold Framework.generate_report.
  rewrite file_all_summary, file_all_size, file_all_findings. simpl.
  rewrite !ReportFacts.count_if_filter.
  repeat split.
  - apply ReportFacts.filter_split.
  - apply with_data_success.
Qed.

End Facts.
End FrameworkReportFacts.
